(** * TrustNet 360: challenge lifecycle and trust-score smoothing

    A shallow embedding of the three core classes of [src/app.py]
    ([DBIEngine], [BiometricProcessor], [TrustCalculator]) and the
    properties stated about them.

    Conventions of the embedding.
    - A Python [float] is an exact rational ([Q]): arithmetic carries
      no rounding error and comparisons are the exact ones.  [round(x, 1)]
      is rounding of that exact value to the nearest tenth, ties to the
      even tenth; Python rounds the binary double, so the two differ
      where the double of a decimal tie lies beside it ([round(77.55, 1)]
      is [77.5] in Python).
    - The module-level [random] generator and [time.time()] are the
      [World]: two infinite tapes with a read position each.  A tape cell
      either returns a number or raises, so that a Python call which may
      raise is a computation which may raise.
    - A method is a computation over the object's attributes and the
      world; it returns or raises, and the attribute and tape updates made
      before a raise stay, as they do in Python.
    - [validate_challenge_response] is an [async def]: concurrent calls
      are coroutines that the single-threaded event loop resumes one at
      a time, each up to its next suspension point.
    - [logger] calls are left out: nothing reads the log. *)

From Stdlib Require Import QArith Qround Qminmax Lqa Lia.
From stdpp Require Import gmap strings list pretty.

Local Open Scope string_scope.

(** ** Python values *)

(** The JSON-like values the methods receive and return as [Dict]. *)
#[local] Unset Elimination Schemes.
Inductive pyval : Type :=
| PyNone
| PyBool (b : bool)
| PyFloat (q : Q)
| PyStr (s : string)
| PyList (l : list pyval)
| PyDict (d : list (string * pyval)).
#[local] Set Elimination Schemes.

(** [d.get(k)] on a dict literal kept in insertion order. *)
Fixpoint dict_get (k : string) (d : list (string * pyval)) : option pyval :=
  match d with
  | [] => None
  | (k', v) :: d' => if String.eqb k k' then Some v else dict_get k d'
  end.

(** ** Exceptions, outcomes and the world *)

(** Instances of Python's [Exception], by class. *)
Inductive Exception : Type :=
| KeyError (key : string)
| IndexError
| RuntimeError (msg : string).

Inductive Outcome (A : Type) : Type :=
| Returns (a : A)
| Raises (e : Exception).
Arguments Returns {A} a.
Arguments Raises {A} e.

Record World : Type := mkWorld {
  rng : nat -> Outcome Q;       (* k-th call of random.random() *)
  rng_pos : nat;
  clock : nat -> Outcome Q;     (* k-th call of time.time() *)
  clock_pos : nat
}.

Definition advance_rng (w : World) : World :=
  mkWorld (rng w) (S (rng_pos w)) (clock w) (clock_pos w).

Definition advance_clock (w : World) : World :=
  mkWorld (rng w) (rng_pos w) (clock w) (S (clock_pos w)).

(** A world in normal operation: no primitive raises, and every
    [random.random()] lies in [0, 1). *)
Definition normal_world (w : World) : Prop :=
  (forall k, exists u, rng w k = Returns u /\ (0 <= u)%Q /\ (u < 1)%Q) /\
  (forall k, exists t, clock w k = Returns t).

(** ** Computations *)

Definition Eff (St A : Type) : Type := St -> World -> Outcome A * St * World.

Definition ret {St A} (a : A) : Eff St A := fun s w => (Returns a, s, w).

Definition raise {St A} (e : Exception) : Eff St A := fun s w => (Raises e, s, w).

Definition bind {St A B} (m : Eff St A) (f : A -> Eff St B) : Eff St B :=
  fun s w =>
    match m s w with
    | (Returns a, s', w') => f a s' w'
    | (Raises e, s', w') => (Raises e, s', w')
    end.

(** [try: body except Exception as e: handler]. *)
Definition try_except {St A} (body : Eff St A) (handler : Exception -> Eff St A)
  : Eff St A :=
  fun s w =>
    match body s w with
    | (Returns a, s', w') => (Returns a, s', w')
    | (Raises e, s', w') => handler e s' w'
    end.

Definition get {St} : Eff St St := fun s w => (Returns s, s, w).

Definition put {St} (s' : St) : Eff St unit := fun _ w => (Returns tt, s', w).

(** A computation that leaves the attributes alone. *)
Definition reads_only {St A} (m : Eff St A) : Prop :=
  forall s w, snd (fst (m s w)) = s.

(** A computation that does not read the clock. *)
Definition keeps_clock {St A} (m : Eff St A) : Prop :=
  forall s w,
    clock (snd (m s w)) = clock w /\ clock_pos (snd (m s w)) = clock_pos w.

(** In normal operation the computation returns, with a result that
    satisfies [P], and leaves the world in normal operation. *)
Definition returns_with {St A} (m : Eff St A) (P : A -> Prop) : Prop :=
  forall s w, normal_world w ->
    exists a s' w', m s w = (Returns a, s', w') /\ normal_world w' /\ P a.

Notation "x <- m ;; k" := (bind m (fun x => k))
  (at level 100, m at next level, right associativity).
Notation "m ;;; k" := (bind m (fun _ => k))
  (at level 100, right associativity).

(** ** The [random] and [time] modules *)

(** [random.random()] *)
Definition random_random {St} : Eff St Q :=
  fun s w => (rng w (rng_pos w), s, advance_rng w).

(** [time.time()] *)
Definition time_time {St} : Eff St Q :=
  fun s w => (clock w (clock_pos w), s, advance_clock w).

(** [random.uniform(a, b)] is [a + (b - a) * random()]. *)
Definition random_uniform {St} (a b : Q) : Eff St Q :=
  u <- random_random ;; ret (a + (b - a) * u)%Q.

(** [_randbelow(n)], taken as [floor(random() * n)]. *)
Definition randbelow {St} (n : Z) : Eff St Z :=
  u <- random_random ;; ret (Qfloor (u * inject_Z n)).

(** [random.randint(a, b)] is [a + _randbelow(b - a + 1)]. *)
Definition random_randint {St} (a b : Z) : Eff St Z :=
  k <- randbelow (b - a + 1) ;; ret (a + k)%Z.

(** [seq[k]] on a list: a negative index counts from the end, and an
    index outside [-len(seq), len(seq)) has no element. *)
Definition list_getitem {A} (seq : list A) (k : Z) : option A :=
  if (k <? 0)%Z then
    if (k <? - Z.of_nat (length seq))%Z then None
    else seq !! Z.to_nat (Z.of_nat (length seq) + k)
  else seq !! Z.to_nat k.

(** [random.choice(seq)] is [seq[_randbelow(len(seq))]]; an empty
    sequence, like an index out of range, is an [IndexError]. *)
Definition random_choice {St A} (seq : list A) : Eff St A :=
  match seq with
  | [] => raise IndexError
  | _ =>
      k <- randbelow (Z.of_nat (length seq)) ;;
      match list_getitem seq k with
      | Some x => ret x
      | None => raise IndexError
      end
  end.

(** [int(x)] on a float truncates towards zero. *)
Definition int_of_float (x : Q) : Z :=
  if Qle_bool 0 x then Qfloor x else Qceiling x.

(** [str(n)] on an int. *)
Definition str_of_int (n : Z) : string := pretty n.

(** [round(x, 1)]: the nearest tenth of the exact value, ties to the
    even one.  Python applies this rule to the binary double, which
    agrees with it wherever the double is not the image of a decimal
    tie. *)
Definition round_half_even (x : Q) : Z :=
  let f := Qfloor x in
  let r := (x - inject_Z f)%Q in
  match (r ?= 1 # 2)%Q with
  | Lt => f
  | Gt => (f + 1)%Z
  | Eq => if Z.even f then f else (f + 1)%Z
  end.

Definition round1 (x : Q) : Q :=
  (inject_Z (round_half_even (x * 10)) / 10)%Q.

(** [x > y] and [x >= y], [x < y] on floats. *)
Definition Qgtb (x y : Q) : bool := negb (Qle_bool x y).
Definition Qgeb (x y : Q) : bool := Qle_bool y x.
Definition Qltb (x y : Q) : bool := negb (Qle_bool y x).

(** [[m for _ in range(n)]] *)
Fixpoint replicate_eff {St A} (n : nat) (m : Eff St A) : Eff St (list A) :=
  match n with
  | O => ret []
  | S n' => x <- m ;; xs <- replicate_eff n' m ;; ret (x :: xs)
  end.

(** ** Data classes *)

Inductive ChallengeType : Type :=
| VISUAL_AUDIO
| COGNITIVE_MOTOR
| EMOTIONAL_RESPONSE
| ENVIRONMENTAL_CHECK.

(** [challenge_type.value] *)
Definition ChallengeType_value (c : ChallengeType) : string :=
  match c with
  | VISUAL_AUDIO => "visual_audio"
  | COGNITIVE_MOTOR => "cognitive_motor"
  | EMOTIONAL_RESPONSE => "emotional_response"
  | ENVIRONMENTAL_CHECK => "environmental_check"
  end.

(** [list(ChallengeType)], in definition order. *)
Definition ChallengeType_members : list ChallengeType :=
  [VISUAL_AUDIO; COGNITIVE_MOTOR; EMOTIONAL_RESPONSE; ENVIRONMENTAL_CHECK].

Module DBIChallenge.
Record t : Type := mk {
  challenge_id : string;
  challenge_type : ChallengeType;
  instruction : string;
  expected_duration : Q;
  validation_criteria : pyval;
  timestamp : Q
}.
End DBIChallenge.

Module BiometricResult.
Record t : Type := mk {
  heart_rate : Q;
  face_detected : bool;
  confidence : Q;
  deepfake_probability : Q;
  liveness_score : Q;
  timestamp : Q
}.
End BiometricResult.

Module TrustScore.
Record t : Type := mk {
  current_score : Q;
  trust_level : string;
  risk_factors : list string;
  confidence : Q;
  recommended_action : string;
  timestamp : Q
}.
End TrustScore.

(** ** DBIEngine *)

Module DBIEngine.

(** The attributes of an engine: the active set, keyed by challenge id,
    and the log of everything issued. *)
Record t : Type := mk {
  active_challenges : gmap string DBIChallenge.t;
  challenge_history : list DBIChallenge.t
}.

(** [__init__] *)
Definition init : t := mk ∅ [].

(** [self.active_challenges[k] = v] *)
Definition set_active (k : string) (v : DBIChallenge.t) : Eff t unit :=
  self <- get ;;
  put (mk (<[k := v]> (active_challenges self)) (challenge_history self)).

(** [del self.active_challenges[k]]: a [KeyError] when [k] is absent. *)
Definition del_active (k : string) : Eff t unit :=
  self <- get ;;
  match active_challenges self !! k with
  | Some _ => put (mk (delete k (active_challenges self)) (challenge_history self))
  | None => raise (KeyError k)
  end.

(** [self.challenge_history.append(c)] *)
Definition append_history (c : DBIChallenge.t) : Eff t unit :=
  self <- get ;;
  put (mk (active_challenges self) (challenge_history self ++ [c])).

(** The instruction text of a challenge of the given type. *)
Definition make_instruction (challenge_type : ChallengeType) : Eff t string :=
  match challenge_type with
  | VISUAL_AUDIO =>
      numbers <- replicate_eff 3 (random_randint 10 99) ;;
      let directions := ["top-left"; "top-right"; "bottom-left"; "bottom-right"] in
      direction <- random_choice directions ;;
      ret ("Say the numbers '" +:+ String.concat "-" (map str_of_int numbers)
           +:+ "' while looking at the " +:+ direction +:+ " corner")
  | COGNITIVE_MOTOR =>
      let phrases := ["Bank of Baroda"; "TrustNet 360"; "Secure Banking"] in
      let gestures := ["touch your nose"; "raise your right hand"; "nod twice"] in
      phrase <- random_choice phrases ;;
      gesture <- random_choice gestures ;;
      ret ("Type '" +:+ phrase +:+ "' then " +:+ gesture)
  | EMOTIONAL_RESPONSE =>
      ret "Look naturally at the screen. A surprise image will appear briefly."
  | ENVIRONMENTAL_CHECK =>
      let actions := [
        "Turn your head slowly left and right";
        "Move slightly closer to the camera";
        "Ensure good lighting on your face"
      ] in
      action <- random_choice actions ;;
      ret (action +:+ " for environmental verification")
  end.

(** [generate_challenge(self, user_context=None)] *)
Definition generate_challenge (user_context : option pyval)
  : Eff t DBIChallenge.t :=
  challenge_type <- random_choice ChallengeType_members ;;
  now <- time_time ;;
  suffix <- random_randint 1000 9999 ;;
  let challenge_id :=
    "dbi_" +:+ str_of_int (int_of_float now) +:+ "_" +:+ str_of_int suffix in
  instruction <- make_instruction challenge_type ;;
  expected_duration <- random_uniform 6.0 15.0 ;;
  timestamp <- time_time ;;
  let challenge :=
    DBIChallenge.mk challenge_id challenge_type instruction expected_duration
      (PyDict [("generated", PyBool true)]) timestamp in
  set_active challenge_id challenge ;;;
  append_history challenge ;;;
  ret challenge.

(** The result of validating an id that is not active. *)
Definition not_found : pyval :=
  PyDict [("valid", PyBool false);
          ("error", PyStr "Challenge not found");
          ("confidence", PyFloat 0.0)].

(** [validate_challenge_response(self, challenge_id, response_data)].
    The coroutine has no [await] in its body: once started it runs to
    its [return] without yielding to the event loop. *)
Definition validate_challenge_response
    (challenge_id : string) (response_data : pyval) : Eff t pyval :=
  self <- get ;;
  match active_challenges self !! challenge_id with
  | None => ret not_found
  | Some challenge =>
      (* Simulate validation with high success rate for demo *)
      confidence <- random_uniform 0.8 0.95 ;;
      u <- random_random ;;
      let valid := Qgtb u 0.1 in
      let result :=
        PyDict [
          ("valid", PyBool valid);
          ("confidence", PyFloat confidence);
          ("challenge_type",
             PyStr (ChallengeType_value (DBIChallenge.challenge_type challenge)));
          ("biometric_signals",
             PyDict [("voice_detected", PyBool true);
                     ("face_movement", PyBool true);
                     ("timing_natural", PyBool true)]);
          ("anomalies",
             PyList (if valid then [] else [PyStr "Suspicious timing pattern"]))
        ] in
      (* Clean up *)
      del_active challenge_id ;;;
      ret result
  end.

End DBIEngine.

(** ** BiometricProcessor *)

Module BiometricProcessor.

(** The attributes of a processor.  [face_cascade] is either [None] or
    a loaded classifier; only that much of it is kept. *)
Record t : Type := mk {
  face_cascade : bool;
  demo_mode : bool
}.

(** [__init__], given whether the cascade file could be loaded. *)
Definition init (cascade_available : bool) : t := mk cascade_available true.

(** [process_frame(self, frame_data)] *)
Definition process_frame (frame_data : string) : Eff t BiometricResult.t :=
  try_except
    ((* Always generate realistic demo data for hackathon *)
     heart_rate <- random_uniform 68 85 ;;
     let face_detected := true in
     confidence <- random_uniform 0.85 0.95 ;;
     deepfake_prob <- random_uniform 0.05 0.15 ;;
     liveness_score <- random_uniform 0.88 0.96 ;;
     timestamp <- time_time ;;
     ret (BiometricResult.mk heart_rate face_detected confidence
            deepfake_prob liveness_score timestamp))
    (fun e =>
       (* Return fallback data *)
       timestamp <- time_time ;;
       ret (BiometricResult.mk 75.0 true 0.8 0.1 0.9 timestamp)).

End BiometricProcessor.

(** ** TrustCalculator *)

Module TrustCalculator.

(** The attributes of a calculator: the running value and the bounded
    history of returned scores. *)
Record t : Type := mk {
  current_score : Q;
  score_history : list TrustScore.t
}.

(** [__init__] *)
Definition init : t := mk 75.0 [].

(** [self.current_score = v] *)
Definition set_current_score (v : Q) : Eff t unit :=
  self <- get ;; put (mk v (score_history self)).

(** [self.score_history.append(r)] followed by
    [if len(self.score_history) > 100: self.score_history.pop(0)]. *)
Definition record_history (r : TrustScore.t) : Eff t unit :=
  self <- get ;;
  let h := (score_history self ++ [r])%list in
  put (mk (current_score self)
          (if (100 <? List.length h)%nat then tail h else h)).

(** The [try] block of [calculate_trust_score]. *)
Definition calculate_trust_score_body (behavioral_data : pyval)
  : Eff t TrustScore.t :=
  (* Simulate realistic score with some variation *)
  base_score <- random_uniform 70 90 ;;
  self <- get ;;
  set_current_score (0.7 * current_score self + 0.3 * base_score)%Q ;;;
  self <- get ;;
  (* Determine trust level *)
  let '(trust_level, recommended_action) :=
    if Qgeb (current_score self) 85 then
      ("HIGH", "ALLOW_SEAMLESS")
    else if Qgeb (current_score self) 65 then
      ("MEDIUM", "ALLOW_WITH_MONITORING")
    else
      ("LOW", "REQUIRE_ADDITIONAL_VERIFICATION") in
  (* Generate risk factors *)
  let risk_factors : list string := [] in
  let risk_factors :=
    if Qltb (current_score self) 80
    then (risk_factors ++ ["Behavioral pattern variation detected"])%list
    else risk_factors in
  u <- random_random ;;
  let risk_factors :=
    if Qltb u 0.2
    then (risk_factors ++ ["New device fingerprint"])%list
    else risk_factors in
  let risk_factors :=
    match risk_factors with
    | [] => (risk_factors ++ ["All metrics within normal range"])%list
    | _ => risk_factors
    end in
  confidence <- random_uniform 0.8 0.95 ;;
  timestamp <- time_time ;;
  let result :=
    TrustScore.mk (round1 (current_score self)) trust_level risk_factors
      confidence recommended_action timestamp in
  record_history result ;;;
  ret result.

(** The [except Exception] block of [calculate_trust_score]. *)
Definition calculate_trust_score_fallback (e : Exception)
  : Eff t TrustScore.t :=
  timestamp <- time_time ;;
  ret (TrustScore.mk 50.0 "MEDIUM" ["System error"] 0.0
         "REQUIRE_MANUAL_REVIEW" timestamp).

(** [calculate_trust_score(self, behavioral_data)] *)
Definition calculate_trust_score (behavioral_data : pyval)
  : Eff t TrustScore.t :=
  try_except (calculate_trust_score_body behavioral_data)
             calculate_trust_score_fallback.

End TrustCalculator.

(** ** Results of a validation *)

(** A pass/fail verdict: a dict with a boolean ["valid"] and no
    ["error"] entry. *)
Definition is_verdict (r : pyval) : bool :=
  match r with
  | PyDict d =>
      match dict_get "valid" d, dict_get "error" d with
      | Some (PyBool _), None => true
      | _, _ => false
      end
  | _ => false
  end.

(** The verdict dict built for a found challenge. *)
Definition verdict (valid : bool) (confidence : Q) (kind : string) : pyval :=
  PyDict [
    ("valid", PyBool valid);
    ("confidence", PyFloat confidence);
    ("challenge_type", PyStr kind);
    ("biometric_signals",
       PyDict [("voice_detected", PyBool true);
               ("face_movement", PyBool true);
               ("timing_natural", PyBool true)]);
    ("anomalies",
       PyList (if valid then [] else [PyStr "Suspicious timing pattern"]))
  ].

(** ** Worlds for examples *)

(** The world whose tapes are the given lists, continued by constants. *)
Definition tape_world (us : list (Outcome Q)) (u : Q)
    (ts : list (Outcome Q)) (t : Q) : World :=
  mkWorld (fun k => nth k us (Returns u)) 0 (fun k => nth k ts (Returns t)) 0.

(** The world in which [random.random()] is always [u] and the clock
    always reads [t]. *)
Definition const_world (u t : Q) : World := tape_world [] u [] t.

(** A quiet world, and the engine after one issuance in it. *)
Definition example_world : World := const_world 0.5 1700000000.

Definition example_id : string := "dbi_1700000000_5500".

Definition example_engine : DBIEngine.t :=
  snd (fst (DBIEngine.generate_challenge None DBIEngine.init example_world)).

(** A world in which two challenges are issued within the same second
    and draw the same four-digit suffix.  The tape serves, in order: an
    issuance (type, suffix, three numbers, direction, duration), a
    validation (confidence, outcome), a second issuance (type, suffix,
    duration) and a second validation. *)
Definition collision_world : World :=
  tape_world
    [Returns 0.1%Q; Returns 0.5%Q; Returns 0.27%Q; Returns 0.03%Q;
     Returns 0.86%Q; Returns 0.6%Q; Returns 0.5%Q;
     Returns 0.4%Q; Returns 0.7%Q;
     Returns 0.6%Q; Returns 0.5%Q; Returns 0.2%Q;
     Returns 0.9%Q; Returns 0.05%Q] 0.5
    [Returns 1700000000.25%Q; Returns 1700000000.26%Q;
     Returns 1700000000.81%Q; Returns 1700000000.82%Q] 1700000001.

(** A world whose generator raises at its second call. *)
Definition faulty_world : World :=
  tape_world [Returns 0.5%Q; Raises (RuntimeError "entropy source failed")] 0.5
    [] 1700000000.

(** A world whose clock raises at its first two readings. *)
Definition broken_clock_world : World :=
  tape_world [] 0.5
    [Raises (RuntimeError "clock unavailable"); Raises (RuntimeError "clock unavailable")]
    1700000000.

(** ** Sequences of calls on one engine *)

(** A request reaching the engine, and what it answers. *)
Inductive Call : Type :=
| Generate (user_context : option pyval)
| Validate (challenge_id : string) (response_data : pyval).

Inductive Reply : Type :=
| Issued (c : DBIChallenge.t)
| Validated (r : pyval).

Definition run_call (c : Call) : Eff DBIEngine.t Reply :=
  match c with
  | Generate user_context =>
      ch <- DBIEngine.generate_challenge user_context ;; ret (Issued ch)
  | Validate challenge_id response_data =>
      r <- DBIEngine.validate_challenge_response challenge_id response_data ;;
      ret (Validated r)
  end.

(** Calls served one after the other; a call that raises is answered
    with its exception and the next call is served all the same. *)
Fixpoint run_calls (cs : list Call) (e : DBIEngine.t) (w : World)
  : list (Call * Outcome Reply) * DBIEngine.t * World :=
  match cs with
  | [] => ([], e, w)
  | c :: cs' =>
      let '(o, e', w') := run_call c e w in
      let '(log, e'', w'') := run_calls cs' e' w' in
      ((c, o) :: log, e'', w'')
  end.

(** The log entry is the issuance of a challenge with this id. *)
Definition issues (id : string) (entry : Call * Outcome Reply) : bool :=
  match entry with
  | (_, Returns (Issued c)) => String.eqb (DBIChallenge.challenge_id c) id
  | _ => false
  end.

(** The log entry is not a validation of this id, or is one that was
    answered with the not-found dict. *)
Definition rejected (id : string) (entry : Call * Outcome Reply) : Prop :=
  match entry with
  | (Validate id' _, o) => id' = id -> o = Returns (Validated DBIEngine.not_found)
  | _ => True
  end.

(** ** Coroutines on the event loop *)

(** A coroutine is finished, or suspended with the code that runs when
    the event loop resumes it: everything up to its next suspension
    point, or up to its end when there is none.  The loop runs one such
    stretch at a time, on its single thread. *)
#[local] Unset Elimination Schemes.
Inductive Coroutine (St A : Type) : Type :=
| Finished (o : Outcome A)
| Suspended (resume : St -> World -> Coroutine St A * St * World).
#[local] Set Elimination Schemes.
Arguments Finished {St A} o.
Arguments Suspended {St A} resume.

(** The coroutine of an [async def] whose body has no [await]: resumed
    once, it runs the whole body. *)
Definition coroutine_of {St A} (body : Eff St A) : Coroutine St A :=
  Suspended (fun s w => let '(o, s', w') := body s w in (Finished o, s', w')).

Record Loop (St A : Type) : Type := mkLoop {
  tasks : list (Coroutine St A);
  attrs : St;
  world : World
}.
Arguments mkLoop {St A} tasks attrs world.
Arguments tasks {St A} l.
Arguments attrs {St A} l.
Arguments world {St A} l.

(** One turn of the loop: any suspended task may be the one resumed. *)
Inductive loop_step {St A} : Loop St A -> Loop St A -> Prop :=
| loop_resume (l : Loop St A) (i : nat) resume c' s' w' :
    tasks l !! i = Some (Suspended resume) ->
    resume (attrs l) (world l) = (c', s', w') ->
    loop_step l (mkLoop (<[i := c']> (tasks l)) s' w').

(** Any number of turns. *)
Inductive loop_steps {St A} : Loop St A -> Loop St A -> Prop :=
| loop_done (l : Loop St A) : loop_steps l l
| loop_more (l1 l2 l3 : Loop St A) :
    loop_step l1 l2 -> loop_steps l2 l3 -> loop_steps l1 l3.

Definition is_finished {St A} (c : Coroutine St A) : bool :=
  match c with Finished _ => true | Suspended _ => false end.

(** The loop holding one validation of [challenge_id] per payload. *)
Definition concurrent_validations (challenge_id : string)
    (payloads : list pyval) (e : DBIEngine.t) (w : World)
  : Loop DBIEngine.t pyval :=
  mkLoop
    (map (fun rd => coroutine_of
            (DBIEngine.validate_challenge_response challenge_id rd)) payloads)
    e w.

(** Resume the first suspended task, if any. *)
Fixpoint resume_first {St A} (ts : list (Coroutine St A)) (s : St) (w : World)
  : option (list (Coroutine St A) * St * World) :=
  match ts with
  | [] => None
  | Finished o :: ts' =>
      match resume_first ts' s w with
      | Some (ts'', s', w') => Some (Finished o :: ts'', s', w')
      | None => None
      end
  | Suspended resume :: ts' =>
      let '(c', s', w') := resume s w in Some (c' :: ts', s', w')
  end.

(** The loop run for at most [fuel] turns, in task order. *)
Fixpoint run_in_order {St A} (fuel : nat) (l : Loop St A) : Loop St A :=
  match fuel with
  | O => l
  | S fuel' =>
      match resume_first (tasks l) (attrs l) (world l) with
      | Some (ts, s, w) => run_in_order fuel' (mkLoop ts s w)
      | None => l
      end
  end.

(** A validation of [challenge_id] that the loop has not resumed yet. *)
Definition unstarted (challenge_id : string) (rd : pyval)
  : Coroutine DBIEngine.t pyval :=
  coroutine_of (DBIEngine.validate_challenge_response challenge_id rd).

(** What holds of the loop at every turn: either the challenge is still
    active and no task has run, or it is gone, one task holds the
    verdict, and every other task is unstarted or was answered with the
    not-found dict. *)
Definition loop_inv (challenge_id : string) (challenge : DBIChallenge.t)
    (payloads : list pyval) (l : Loop DBIEngine.t pyval) : Prop :=
  normal_world (world l) /\
  length (tasks l) = length payloads /\
  ((DBIEngine.active_challenges (attrs l) !! challenge_id = Some challenge /\
    forall j rd, payloads !! j = Some rd ->
      tasks l !! j = Some (unstarted challenge_id rd))
   \/
   (DBIEngine.active_challenges (attrs l) !! challenge_id = None /\
    exists i r,
      tasks l !! i = Some (Finished (Returns r)) /\
      is_verdict r = true /\ r <> DBIEngine.not_found /\
      forall j rd, j <> i -> payloads !! j = Some rd ->
        tasks l !! j = Some (unstarted challenge_id rd) \/
        tasks l !! j = Some (Finished (Returns DBIEngine.not_found)))).

(** ** The normal path of the trust score in closed form *)

(** The score a normal run of the [try] block returns, from the
    previous value, the three draws and the clock reading. *)
Definition normal_score (p u1 u2 u3 ts : Q) : TrustScore.t :=
  let v := (0.7 * p + 0.3 * (70 + (90 - 70) * u1))%Q in
  let lvl :=
    if Qgeb v 85 then ("HIGH", "ALLOW_SEAMLESS")
    else if Qgeb v 65 then ("MEDIUM", "ALLOW_WITH_MONITORING")
    else ("LOW", "REQUIRE_ADDITIONAL_VERIFICATION") in
  let rf :=
    ((if Qltb v 80 then ["Behavioral pattern variation detected"] else [])
     ++ (if Qltb u2 0.2 then ["New device fingerprint"] else []))%list in
  TrustScore.mk (round1 v) (fst lvl)
    (match rf with [] => ["All metrics within normal range"] | _ => rf end)
    (0.8 + (0.95 - 0.8) * u3)%Q (snd lvl) ts.

(** ** What an engine holds *)

(** The challenges that the calls of a log issued, in order. *)
Fixpoint issued_in (log : list (Call * Outcome Reply)) : list DBIChallenge.t :=
  match log with
  | [] => []
  | (_, Returns (Issued c)) :: log' => c :: issued_in log'
  | _ :: log' => issued_in log'
  end.

(** Every active challenge is filed under its own id and is in the
    history, and the active set is no larger than the history. *)
Definition engine_wf (e : DBIEngine.t) : Prop :=
  (forall id ch, DBIEngine.active_challenges e !! id = Some ch ->
     DBIChallenge.challenge_id ch = id /\ ch ∈ DBIEngine.challenge_history e) /\
  (size (DBIEngine.active_challenges e)
     <= length (DBIEngine.challenge_history e))%nat.

(** The instruction texts that [generate_challenge] can build for a
    challenge type. *)
Definition instruction_template (c : ChallengeType) (text : string) : Prop :=
  match c with
  | VISUAL_AUDIO =>
      exists (n1 n2 n3 : Z) (direction : string),
        (10 <= n1 <= 99)%Z /\ (10 <= n2 <= 99)%Z /\ (10 <= n3 <= 99)%Z /\
        direction ∈ ["top-left"; "top-right"; "bottom-left"; "bottom-right"] /\
        text = "Say the numbers '"
               +:+ String.concat "-" (map str_of_int [n1; n2; n3])
               +:+ "' while looking at the " +:+ direction +:+ " corner"
  | COGNITIVE_MOTOR =>
      exists phrase gesture : string,
        phrase ∈ ["Bank of Baroda"; "TrustNet 360"; "Secure Banking"] /\
        gesture ∈ ["touch your nose"; "raise your right hand"; "nod twice"] /\
        text = "Type '" +:+ phrase +:+ "' then " +:+ gesture
  | EMOTIONAL_RESPONSE =>
      text = "Look naturally at the screen. A surprise image will appear briefly."
  | ENVIRONMENTAL_CHECK =>
      exists action : string,
        action ∈ ["Turn your head slowly left and right";
                  "Move slightly closer to the camera";
                  "Ensure good lighting on your face"] /\
        text = action +:+ " for environmental verification"
  end.

(** ** Sequences of calls on one calculator *)

(** Score requests served one after the other. *)
Fixpoint run_scores (requests : list pyval) (st : TrustCalculator.t) (w : World)
  : list (Outcome TrustScore.t) * TrustCalculator.t * World :=
  match requests with
  | [] => ([], st, w)
  | behavioral_data :: requests' =>
      let '(o, st', w') :=
        TrustCalculator.calculate_trust_score behavioral_data st w in
      let '(os, st'', w'') := run_scores requests' st' w' in
      (o :: os, st'', w'')
  end.

(** The fallback result of [process_frame], read at time [t]. *)
Definition fallback_reading (t : Q) : BiometricResult.t :=
  BiometricResult.mk 75.0 true 0.8 0.1 0.9 t.

(** A reading whose four measures lie in the ranges they are drawn
    from. *)
Definition reading_in_range (r : BiometricResult.t) : Prop :=
  (68 <= BiometricResult.heart_rate r)%Q /\
  (BiometricResult.heart_rate r <= 85)%Q /\
  BiometricResult.face_detected r = true /\
  (0.85 <= BiometricResult.confidence r)%Q /\
  (BiometricResult.confidence r <= 0.95)%Q /\
  (0.05 <= BiometricResult.deepfake_probability r)%Q /\
  (BiometricResult.deepfake_probability r <= 0.15)%Q /\
  (0.88 <= BiometricResult.liveness_score r)%Q /\
  (BiometricResult.liveness_score r <= 0.96)%Q.

(** A world in which a draw that returns lies in [0, 1) and the clock
    never raises; the generator itself may raise. *)
Definition clock_sound_world (w : World) : Prop :=
  (forall k u, rng w k = Returns u -> (0 <= u)%Q /\ (u < 1)%Q) /\
  (forall k, exists t, clock w k = Returns t).

(** ** The application: module-level state and route handlers *)

(** What a route handler ends with: a JSON body, or the
    [HTTPException] it raises from its [except] block. *)
Inductive HttpOutcome (A : Type) : Type :=
| Responds (body : A)
| HTTPException (status_code : Z) (detail : string).
Arguments Responds {A} body.
Arguments HTTPException {A} status_code detail.

(** The values of the [get_stats] dict, which holds ints besides
    floats, strings and booleans. *)
Inductive statval : Type :=
| StatInt (n : Z)
| StatFloat (q : Q)
| StatStr (s : string)
| StatBool (b : bool).

Inductive Body : Type :=
| PyBody (v : pyval)
| StatsBody (d : list (string * statval)).

(** A value already computed, as a computation. *)
Definition of_outcome {St A} (o : Outcome A) : Eff St A := fun s w => (o, s, w).

Module App.

(** The module-level objects [dbi_engine], [biometric_processor],
    [trust_calculator] and [demo_stats]. *)
Record t : Type := mk {
  dbi_engine : DBIEngine.t;
  biometric_processor : BiometricProcessor.t;
  trust_calculator : TrustCalculator.t;
  demo_stats : gmap string Z
}.

(** The objects as the module creates them. *)
Definition init (cascade_available : bool) : t :=
  mk DBIEngine.init (BiometricProcessor.init cascade_available)
    TrustCalculator.init
    (<["sessions" := 0%Z]> (<["challenges" := 0%Z]> (<["validations" := 0%Z]> ∅))).

(** A method call on [dbi_engine]. *)
Definition on_engine {A} (m : Eff DBIEngine.t A) : Eff t A :=
  fun app w =>
    let '(o, e', w') := m (dbi_engine app) w in
    (o, mk e' (biometric_processor app) (trust_calculator app) (demo_stats app),
     w').

(** A method call on [biometric_processor]. *)
Definition on_processor {A} (m : Eff BiometricProcessor.t A) : Eff t A :=
  fun app w =>
    let '(o, p', w') := m (biometric_processor app) w in
    (o, mk (dbi_engine app) p' (trust_calculator app) (demo_stats app), w').

(** A method call on [trust_calculator]. *)
Definition on_calculator {A} (m : Eff TrustCalculator.t A) : Eff t A :=
  fun app w =>
    let '(o, c', w') := m (trust_calculator app) w in
    (o, mk (dbi_engine app) (biometric_processor app) c' (demo_stats app), w').

(** [demo_stats[key]]: a [KeyError] when the key is absent. *)
Definition stats_get (key : string) : Eff t Z :=
  app <- get ;;
  match demo_stats app !! key with
  | Some n => ret n
  | None => raise (KeyError key)
  end.

(** [demo_stats[key] += 1] *)
Definition stats_incr (key : string) : Eff t unit :=
  n <- stats_get key ;;
  app <- get ;;
  put (mk (dbi_engine app) (biometric_processor app) (trust_calculator app)
         (<[key := (n + 1)%Z]> (demo_stats app))).

Section Routes.

(** [json.loads] and [str] on an exception, as the libraries give
    them. *)
Variable json_loads : string -> Outcome pyval.
Variable exception_str : Exception -> string.

(** [POST /api/vkyc/challenge] *)
Definition generate_challenge : Eff t (HttpOutcome Body) :=
  try_except
    (challenge <- on_engine (DBIEngine.generate_challenge None) ;;
     stats_incr "challenges" ;;;
     ret (Responds (PyBody (PyDict [
       ("challenge_id", PyStr (DBIChallenge.challenge_id challenge));
       ("challenge_type",
          PyStr (ChallengeType_value (DBIChallenge.challenge_type challenge)));
       ("instruction", PyStr (DBIChallenge.instruction challenge));
       ("expected_duration", PyFloat (DBIChallenge.expected_duration challenge));
       ("timestamp", PyFloat (DBIChallenge.timestamp challenge))
     ]))))
    (fun e => ret (HTTPException 500 (exception_str e))).

(** [POST /api/vkyc/validate] *)
Definition validate_response (challenge_id response_data : string)
  : Eff t (HttpOutcome Body) :=
  try_except
    (response_dict <- of_outcome (json_loads response_data) ;;
     result <- on_engine
                 (DBIEngine.validate_challenge_response challenge_id
                    response_dict) ;;
     stats_incr "validations" ;;;
     ret (Responds (PyBody result)))
    (fun e => ret (HTTPException 500 (exception_str e))).

(** [POST /api/biometric/process-frame] *)
Definition process_frame (frame_data : string) : Eff t (HttpOutcome Body) :=
  try_except
    (result <- on_processor (BiometricProcessor.process_frame frame_data) ;;
     ret (Responds (PyBody (PyDict [
       ("heart_rate", PyFloat (BiometricResult.heart_rate result));
       ("face_detected", PyBool (BiometricResult.face_detected result));
       ("confidence", PyFloat (BiometricResult.confidence result));
       ("deepfake_probability",
          PyFloat (BiometricResult.deepfake_probability result));
       ("liveness_score", PyFloat (BiometricResult.liveness_score result));
       ("timestamp", PyFloat (BiometricResult.timestamp result))
     ]))))
    (fun e =>
       (* Return demo data on error *)
       timestamp <- time_time ;;
       ret (Responds (PyBody (PyDict [
         ("heart_rate", PyFloat 75.0);
         ("face_detected", PyBool true);
         ("confidence", PyFloat 0.85);
         ("deepfake_probability", PyFloat 0.1);
         ("liveness_score", PyFloat 0.9);
         ("timestamp", PyFloat timestamp)
       ])))).

(** [GET /api/trust/current-score] *)
Definition get_trust_score : Eff t (HttpOutcome Body) :=
  try_except
    (result <- on_calculator
                 (TrustCalculator.calculate_trust_score (PyDict [])) ;;
     ret (Responds (PyBody (PyDict [
       ("current_score", PyFloat (TrustScore.current_score result));
       ("trust_level", PyStr (TrustScore.trust_level result));
       ("risk_factors", PyList (map PyStr (TrustScore.risk_factors result)));
       ("confidence", PyFloat (TrustScore.confidence result));
       ("recommended_action", PyStr (TrustScore.recommended_action result));
       ("timestamp", PyFloat (TrustScore.timestamp result))
     ]))))
    (fun e =>
       timestamp <- time_time ;;
       ret (Responds (PyBody (PyDict [
         ("current_score", PyFloat 75.0);
         ("trust_level", PyStr "MEDIUM");
         ("risk_factors", PyList [PyStr "Demo mode active"]);
         ("confidence", PyFloat 0.8);
         ("recommended_action", PyStr "CONTINUE_MONITORING");
         ("timestamp", PyFloat timestamp)
       ])))).

(** [GET /api/demo/stats] *)
Definition get_stats : Eff t (HttpOutcome Body) :=
  sessions <- stats_get "sessions" ;;
  challenges <- stats_get "challenges" ;;
  validations <- stats_get "validations" ;;
  ret (Responds (StatsBody [
    ("deepfake_detection_rate", StatFloat 99.5);
    ("system_uptime", StatStr "99.98%");
    ("processing_speed", StatStr "<200ms");
    ("sessions", StatInt sessions);
    ("challenges", StatInt challenges);
    ("validations", StatInt validations);
    ("bank_ready", StatBool true)
  ])).

(** The requests the routes serve. *)
Inductive Request : Type :=
| PostChallenge
| PostValidate (challenge_id response_data : string)
| PostFrame (frame_data : string)
| GetTrustScore
| GetStats.

Definition serve (r : Request) : Eff t (HttpOutcome Body) :=
  match r with
  | PostChallenge => generate_challenge
  | PostValidate challenge_id response_data =>
      validate_response challenge_id response_data
  | PostFrame frame_data => process_frame frame_data
  | GetTrustScore => get_trust_score
  | GetStats => get_stats
  end.

(** Requests served one after the other. *)
Fixpoint serve_all (rs : list Request) (app : t) (w : World)
  : list (Request * Outcome (HttpOutcome Body)) * t * World :=
  match rs with
  | [] => ([], app, w)
  | r :: rs' =>
      let '(o, app', w') := serve r app w in
      let '(log, app'', w'') := serve_all rs' app' w' in
      ((r, o) :: log, app'', w'')
  end.

End Routes.

(** The number of log entries for a challenge request, or for a
    validation request, that were answered with a body. *)
Definition answered_challenge
    (entry : Request * Outcome (HttpOutcome Body)) : bool :=
  match entry with
  | (PostChallenge, Returns (Responds _)) => true
  | _ => false
  end.

Definition answered_validation
    (entry : Request * Outcome (HttpOutcome Body)) : bool :=
  match entry with
  | (PostValidate _ _, Returns (Responds _)) => true
  | _ => false
  end.

End App.

(** The [demo_stats] dict with the given three counters. *)
Definition stats_of (sessions challenges validations : Z) : gmap string Z :=
  <["sessions" := sessions]>
    (<["challenges" := challenges]> (<["validations" := validations]> ∅)).

(** The JSON body that [get_trust_score] builds from a score. *)
Definition trust_score_body (r : TrustScore.t) : Body :=
  PyBody (PyDict [
    ("current_score", PyFloat (TrustScore.current_score r));
    ("trust_level", PyStr (TrustScore.trust_level r));
    ("risk_factors", PyList (map PyStr (TrustScore.risk_factors r)));
    ("confidence", PyFloat (TrustScore.confidence r));
    ("recommended_action", PyStr (TrustScore.recommended_action r));
    ("timestamp", PyFloat (TrustScore.timestamp r))
  ]).

(** The JSON body that the [process_frame] route builds from a
    reading. *)
Definition reading_body (r : BiometricResult.t) : Body :=
  PyBody (PyDict [
    ("heart_rate", PyFloat (BiometricResult.heart_rate r));
    ("face_detected", PyBool (BiometricResult.face_detected r));
    ("confidence", PyFloat (BiometricResult.confidence r));
    ("deepfake_probability", PyFloat (BiometricResult.deepfake_probability r));
    ("liveness_score", PyFloat (BiometricResult.liveness_score r));
    ("timestamp", PyFloat (BiometricResult.timestamp r))
  ]).

(** The JSON body that the challenge route builds from a challenge. *)
Definition challenge_body (c : DBIChallenge.t) : Body :=
  PyBody (PyDict [
    ("challenge_id", PyStr (DBIChallenge.challenge_id c));
    ("challenge_type",
       PyStr (ChallengeType_value (DBIChallenge.challenge_type c)));
    ("instruction", PyStr (DBIChallenge.instruction c));
    ("expected_duration", PyFloat (DBIChallenge.expected_duration c));
    ("timestamp", PyFloat (DBIChallenge.timestamp c))
  ]).

(** One for [true], zero for [false]. *)
Definition one_if (b : bool) : Z := if b then 1%Z else 0%Z.

(** The number of entries of a log that satisfy [f]. *)
Definition count_entries {A} (f : A -> bool) (log : list A) : Z :=
  Z.of_nat (length (List.filter f log)).

(** The body of [get_stats] for the given counters. *)
Definition stats_body (sessions challenges validations : Z) : Body :=
  StatsBody [
    ("deepfake_detection_rate", StatFloat 99.5);
    ("system_uptime", StatStr "99.98%");
    ("processing_speed", StatStr "<200ms");
    ("sessions", StatInt sessions);
    ("challenges", StatInt challenges);
    ("validations", StatInt validations);
    ("bank_ready", StatBool true)
  ].

(** ** setup.py: reading the requirements file *)

Module Setup.

(** A character is a code point below 256.  [c.isspace()] for such a
    character: tab to carriage return, the four separators 28 to 31, the
    space, NEL and the no-break space. *)
Definition isspace (c : Ascii.ascii) : bool :=
  let n := Ascii.N_of_ascii c in
  ((9 <=? n) && (n <=? 13) || (28 <=? n) && (n <=? 32)
   || (n =? 133) || (n =? 160))%N.

(** The characters ['#'] and ['\n']. *)
Definition hash : Ascii.ascii := Ascii.ascii_of_N 35.
Definition newline : Ascii.ascii := Ascii.ascii_of_N 10.

(** [s.lstrip()] *)
Fixpoint lstrip (s : string) : string :=
  match s with
  | EmptyString => EmptyString
  | String c rest => if isspace c then lstrip rest else s
  end.

(** [s.rstrip()] *)
Fixpoint rstrip (s : string) : string :=
  match s with
  | EmptyString => EmptyString
  | String c rest =>
      match rstrip rest with
      | EmptyString => if isspace c then EmptyString else String c EmptyString
      | rest' => String c rest'
      end
  end.

(** [s.strip()] *)
Definition strip (s : string) : string := rstrip (lstrip s).

(** [s.startswith('#')] *)
Definition startswith_hash (s : string) : bool :=
  match s with
  | String c _ => Ascii.eqb c hash
  | EmptyString => false
  end.

(** The lines that iterating over a text file yields, from the text as
    Python reads it (line ends already translated to ['\n']): each line
    with its newline, except a last line that has none. *)
Fixpoint file_lines (text : string) : list string :=
  match text with
  | EmptyString => []
  | String c rest =>
      if Ascii.eqb c newline then String c EmptyString :: file_lines rest
      else match file_lines rest with
           | [] => [String c EmptyString]
           | line :: lines => String c line :: lines
           end
  end.

(** [bool(s)] on a string. *)
Definition nonempty (s : string) : bool :=
  match s with EmptyString => false | String _ _ => true end.

(** [read_requirements()], given the text of [requirements.txt], or
    [None] when [os.path.exists] says there is no such file. *)
Definition read_requirements (requirements_txt : option string) : list string :=
  let requirements := [] in
  match requirements_txt with
  | Some text =>
      map strip
        (List.filter
           (fun line => nonempty (strip line) && negb (startswith_hash line))
           (file_lines text))
  | None => requirements
  end.

(** [read_readme()], given the text of [README.md] if it exists.  The
    default's degree sign is written as its code point, 176. *)
Definition read_readme (readme_md : option string) : string :=
  match readme_md with
  | Some text => text
  | None =>
      "TrustNet 360" +:+ String (Ascii.ascii_of_N 176) EmptyString
      +:+ " - Revolutionary Identity Verification System"
  end.

(** The contents of a requirements file with one requirement per line,
    each followed by ['\n']. *)
Definition write_lines (requirements : list string) : string :=
  fold_right (fun r text => r +:+ String newline text) EmptyString requirements.

(** No character of the string is a newline. *)
Fixpoint single_line (s : string) : bool :=
  match s with
  | EmptyString => true
  | String c rest => negb (Ascii.eqb c newline) && single_line rest
  end.

(** The character ['\r']. *)
Definition carriage_return : Ascii.ascii := Ascii.ascii_of_N 13.

(** The text that [open(path, 'r')] gives for the contents of a file:
    in text mode with the default [newline=None], ['\r\n'] and a lone
    ['\r'] are both read as ['\n']. *)
Fixpoint open_read (contents : string) : string :=
  match contents with
  | EmptyString => EmptyString
  | String c rest =>
      if Ascii.eqb c carriage_return then
        match rest with
        | String c' _ =>
            if Ascii.eqb c' newline then open_read rest
            else String newline (open_read rest)
        | EmptyString => String newline EmptyString
        end
      else String c (open_read rest)
  end.

(** No character of the string is a carriage return. *)
Fixpoint no_carriage_return (s : string) : bool :=
  match s with
  | EmptyString => true
  | String c rest =>
      negb (Ascii.eqb c carriage_return) && no_carriage_return rest
  end.

End Setup.

(** ** More examples *)

(** A parser that knows the empty object only, and the text of an
    exception. *)
Definition example_json_loads (s : string) : Outcome pyval :=
  if String.eqb s "{}" then Returns (PyDict [])
  else Raises (RuntimeError "Expecting value").

Definition example_exception_str (e : Exception) : string :=
  match e with
  | KeyError k => k
  | IndexError => "list index out of range"
  | RuntimeError msg => msg
  end.

(** The application after one challenge was issued in the quiet
    world. *)
Definition example_app : App.t :=
  App.mk example_engine (BiometricProcessor.init true) TrustCalculator.init
    (stats_of 0 1 0).

(** The log entry is a validation request for this id. *)
Definition validates (id : string) (entry : Call * Outcome Reply) : bool :=
  match entry with
  | (Validate id' _, _) => String.eqb id' id
  | _ => false
  end.

(** * Properties *)

Import DBIEngine.

Lemma Qgtb_spec (x y : Q) : Qgtb x y = true <-> (y < x)%Q.
Proof.
  unfold Qgtb. rewrite negb_true_iff. split.
  - intros H. apply Qnot_le_lt. intros Hle.
    apply Qle_bool_iff in Hle. congruence.
  - intros H. destruct (Qle_bool x y) eqn:E; [|reflexivity].
    apply Qle_bool_iff in E. exfalso. lra.
Qed.

Lemma Qltb_spec (x y : Q) : Qltb x y = true <-> (x < y)%Q.
Proof. unfold Qltb. apply (Qgtb_spec y x). Qed.

Lemma Qgeb_spec (x y : Q) : Qgeb x y = true <-> (y <= x)%Q.
Proof. unfold Qgeb. apply Qle_bool_iff. Qed.

Lemma Qltb_false (x y : Q) : Qltb x y = false <-> (y <= x)%Q.
Proof.
  unfold Qltb. rewrite negb_false_iff. apply Qle_bool_iff.
Qed.

Lemma Qgeb_false (x y : Q) : Qgeb x y = false <-> (x < y)%Q.
Proof.
  unfold Qgeb. split.
  - intros H. apply Qnot_le_lt. intros Hle.
    apply Qle_bool_iff in Hle. congruence.
  - intros H. destruct (Qle_bool y x) eqn:E; [|reflexivity].
    apply Qle_bool_iff in E. exfalso. lra.
Qed.

Lemma const_world_normal (u t : Q) :
  (0 <= u)%Q -> (u < 1)%Q -> normal_world (const_world u t).
Proof.
  intros H0 H1. split; intros k; simpl.
  - exists u. destruct k; simpl; auto.
  - exists t. destruct k; reflexivity.
Qed.

(** What one validation does, by cases on the active set and the tape. *)
Lemma validate_not_active (e : DBIEngine.t) (w : World) id rd :
  active_challenges e !! id = None ->
  validate_challenge_response id rd e w = (Returns not_found, e, w).
Proof.
  intros H. unfold validate_challenge_response, bind, get, ret. simpl.
  rewrite H. reflexivity.
Qed.

Lemma validate_active (e : DBIEngine.t) (w : World) id rd ch u1 u2 :
  active_challenges e !! id = Some ch ->
  rng w (rng_pos w) = Returns u1 ->
  rng w (S (rng_pos w)) = Returns u2 ->
  validate_challenge_response id rd e w =
    (Returns (verdict (Qgtb u2 0.1) (0.8 + (0.95 - 0.8) * u1)
                (ChallengeType_value (DBIChallenge.challenge_type ch))),
     DBIEngine.mk (delete id (active_challenges e)) (challenge_history e),
     advance_rng (advance_rng w)).
Proof.
  intros H H1 H2.
  unfold validate_challenge_response, del_active, random_uniform,
    random_random, bind, get, put, ret. simpl.
  rewrite H, H1. simpl. rewrite H2. simpl. rewrite H. reflexivity.
Qed.

Lemma validate_active_outcome (e : DBIEngine.t) (w : World) id rd ch :
  active_challenges e !! id = Some ch ->
  fst (fst (validate_challenge_response id rd e w)) <> Returns not_found.
Proof.
  intros H.
  unfold validate_challenge_response, del_active, random_uniform,
    random_random, bind, get, put, ret. simpl.
  rewrite H.
  destruct (rng w (rng_pos w)); simpl; [|discriminate].
  destruct (rng w (S (rng_pos w))); simpl; [|discriminate].
  rewrite H. simpl. unfold not_found. intros Heq. inversion Heq.
Qed.

(** *** Reasoning about computations *)

Lemma bind_inv {St A B} (m : Eff St A) (f : A -> Eff St B) s w o s' w' :
  bind m f s w = (o, s', w') ->
  (exists e, m s w = (Raises e, s', w') /\ o = Raises e) \/
  (exists a s1 w1, m s w = (Returns a, s1, w1) /\ f a s1 w1 = (o, s', w')).
Proof.
  unfold bind. destruct (m s w) as [[[a|e] s1] w1]; intros H.
  - right. eauto.
  - left. inversion H; subst. eauto.
Qed.

Lemma reads_only_ret {St A} (a : A) : reads_only (@ret St A a).
Proof. intros s w. reflexivity. Qed.

Lemma reads_only_raise {St A} e : reads_only (@raise St A e).
Proof. intros s w. reflexivity. Qed.

Lemma reads_only_random {St} : reads_only (@random_random St).
Proof. intros s w. reflexivity. Qed.

Lemma reads_only_time {St} : reads_only (@time_time St).
Proof. intros s w. reflexivity. Qed.

Lemma reads_only_bind {St A B} (m : Eff St A) (f : A -> Eff St B) :
  reads_only m -> (forall a, reads_only (f a)) -> reads_only (bind m f).
Proof.
  intros Hm Hf s w. unfold bind. specialize (Hm s w).
  destruct (m s w) as [[[a|e] s1] w1]; simpl in *; subst; [apply Hf | done].
Qed.

Create HintDb reads.
#[local] Hint Resolve reads_only_ret reads_only_raise reads_only_random
  reads_only_time : reads.

Lemma reads_only_uniform {St} a b : reads_only (@random_uniform St a b).
Proof. apply reads_only_bind; auto with reads. Qed.

Lemma reads_only_randbelow {St} n : reads_only (@randbelow St n).
Proof. apply reads_only_bind; auto with reads. Qed.

Lemma reads_only_randint {St} a b : reads_only (@random_randint St a b).
Proof.
  apply reads_only_bind; auto using reads_only_randbelow with reads.
Qed.

Lemma reads_only_choice {St A} (l : list A) : reads_only (@random_choice St A l).
Proof.
  unfold random_choice. destruct l; [auto with reads|].
  apply reads_only_bind; [apply reads_only_randbelow|].
  intros k. destruct (list_getitem _ k); auto with reads.
Qed.

Lemma reads_only_replicate {St A} n (m : Eff St A) :
  reads_only m -> reads_only (replicate_eff n m).
Proof.
  intros Hm. induction n; simpl; [auto with reads|].
  apply reads_only_bind; [done|]. intros x.
  apply reads_only_bind; [done|]. auto with reads.
Qed.

#[local] Hint Resolve reads_only_uniform reads_only_randbelow
  reads_only_randint reads_only_choice reads_only_replicate : reads.

Lemma reads_only_make_instruction c : reads_only (make_instruction c).
Proof.
  destruct c; unfold make_instruction; cbv zeta;
    repeat first [ solve [auto with reads]
                 | apply reads_only_bind; [|intros ?] ].
Qed.

(** *** Normal operation *)

Lemma normal_world_advance_rng (w : World) :
  normal_world w -> normal_world (advance_rng w).
Proof. intros [H1 H2]. split; simpl; auto. Qed.

Lemma normal_world_advance_clock (w : World) :
  normal_world w -> normal_world (advance_clock w).
Proof. intros [H1 H2]. split; simpl; auto. Qed.

Lemma returns_with_ret {St A} (a : A) (P : A -> Prop) :
  P a -> returns_with (@ret St A a) P.
Proof. intros HP s w Hn. exists a, s, w. done. Qed.

Lemma returns_with_bind {St A B} (m : Eff St A) (f : A -> Eff St B)
    (P : A -> Prop) (R : B -> Prop) :
  returns_with m P ->
  (forall a, P a -> returns_with (f a) R) ->
  returns_with (bind m f) R.
Proof.
  intros Hm Hf s w Hn.
  destruct (Hm s w Hn) as (a & s1 & w1 & Em & Hn1 & Ha).
  destruct (Hf a Ha s1 w1 Hn1) as (b & s2 & w2 & Ef & Hn2 & Hb).
  exists b, s2, w2. unfold bind. rewrite Em. done.
Qed.

Lemma returns_with_weaken {St A} (m : Eff St A) (P R : A -> Prop) :
  returns_with m P -> (forall a, P a -> R a) -> returns_with m R.
Proof.
  intros Hm HPR s w Hn.
  destruct (Hm s w Hn) as (a & s1 & w1 & Em & Hn1 & Ha). eauto 10.
Qed.

Lemma returns_with_random {St} :
  returns_with (@random_random St) (fun u => (0 <= u)%Q /\ (u < 1)%Q).
Proof.
  intros s w Hn. destruct Hn as [Hr Hc].
  destruct (Hr (rng_pos w)) as (u & Eu & Hu).
  exists u, s, (advance_rng w). unfold random_random. rewrite Eu.
  split; [done|]. split; [|done]. split; simpl; auto.
Qed.

Lemma returns_with_time {St} : returns_with (@time_time St) (fun _ => True).
Proof.
  intros s w Hn. destruct Hn as [Hr Hc].
  destruct (Hc (clock_pos w)) as (t & Et).
  exists t, s, (advance_clock w). unfold time_time. rewrite Et.
  split; [done|]. split; [|done]. split; simpl; auto.
Qed.

(** [random.uniform(a, b)] with [a <= b] lies in [a, b]. *)
Lemma returns_with_uniform {St} (a b : Q) :
  (a <= b)%Q ->
  returns_with (@random_uniform St a b) (fun x => (a <= x)%Q /\ (x <= b)%Q).
Proof.
  intros Hab. unfold random_uniform.
  eapply returns_with_bind; [apply returns_with_random|].
  intros u [Hlo Hhi]. apply returns_with_ret. split; nra.
Qed.

(** [_randbelow(n)] with [n > 0] lies in [0, n). *)
Lemma returns_with_randbelow {St} (n : Z) :
  (0 < n)%Z ->
  returns_with (@randbelow St n) (fun k => (0 <= k)%Z /\ (k < n)%Z).
Proof.
  intros Hn. unfold randbelow.
  eapply returns_with_bind; [apply returns_with_random|].
  intros u [Hlo Hhi]. apply returns_with_ret.
  assert (Hnq : (0 < inject_Z n)%Q)
    by (change 0%Q with (inject_Z 0); rewrite <- Zlt_Qlt; done).
  split.
  - change 0%Z with (Qfloor 0). apply Qfloor_resp_le. nra.
  - rewrite Zlt_Qlt.
    eapply Qle_lt_trans; [apply Qfloor_le|]. nra.
Qed.

(** [random.randint(a, b)] with [a <= b] lies in [a, b]. *)
Lemma returns_with_randint {St} (a b : Z) :
  (a <= b)%Z ->
  returns_with (@random_randint St a b) (fun k => (a <= k)%Z /\ (k <= b)%Z).
Proof.
  intros Hab. unfold random_randint.
  eapply returns_with_bind; [apply returns_with_randbelow; lia|].
  intros k [Hlo Hhi]. apply returns_with_ret. lia.
Qed.

(** [random.choice(seq)] on a non-empty list is one of its elements. *)
Lemma returns_with_choice {St A} (seq : list A) :
  seq <> [] -> returns_with (@random_choice St A seq) (fun x => x ∈ seq).
Proof.
  intros Hne. unfold random_choice. destruct seq as [|x0 rest]; [done|].
  eapply returns_with_bind.
  { apply returns_with_randbelow. simpl. lia. }
  intros k [Hlo Hhi]. unfold list_getitem.
  destruct (k <? 0)%Z eqn:E; [apply Z.ltb_lt in E; lia|].
  destruct (lookup_lt_is_Some_2 (x0 :: rest) (Z.to_nat k)) as [x Hx]; [lia|].
  rewrite Hx. apply returns_with_ret. apply list_elem_of_lookup. eauto.
Qed.

Lemma returns_with_replicate {St A} n (m : Eff St A) (P : A -> Prop) :
  returns_with m P ->
  returns_with (replicate_eff n m) (fun xs => length xs = n /\ Forall P xs).
Proof.
  intros Hm. induction n as [|n IH]; simpl.
  - apply returns_with_ret. split; [done | constructor].
  - eapply returns_with_bind; [exact Hm|]. intros x Hx.
    eapply returns_with_bind; [exact IH|]. intros xs [Hlen Hxs].
    apply returns_with_ret. split; [simpl; lia | by constructor].
Qed.

(** A call of [generate_challenge] either raises before touching the
    engine, or returns the challenge it has stored under its id and
    appended to the history. *)
Lemma generate_challenge_effect uc (e : DBIEngine.t) w o e' w' :
  generate_challenge uc e w = (o, e', w') ->
  (exists ex, o = Raises ex /\ e' = e) \/
  (exists ch, o = Returns ch /\
     e' = DBIEngine.mk (<[DBIChallenge.challenge_id ch := ch]> (active_challenges e))
            (challenge_history e ++ [ch])).
Proof.
  unfold generate_challenge. intros H.
  repeat match type of H with
  | bind ?m _ ?s ?w0 = _ =>
      lazymatch m with set_active _ _ => fail | _ => idtac end;
      let Hro := fresh "Hro" in
      let Hm := fresh "Hm" in
      let s1 := fresh "s" in
      let ex := fresh "ex" in
      assert (Hro : reads_only m)
        by auto using reads_only_make_instruction with reads;
      apply bind_inv in H;
      destruct H as [(ex & Hm & ->) | (? & s1 & ? & Hm & H)];
      [ left; exists ex; split; [done|];
        specialize (Hro s w0); rewrite Hm in Hro; simpl in Hro; congruence
      | specialize (Hro s w0); rewrite Hm in Hro; simpl in Hro; subst s1;
        clear Hm; cbv beta zeta in H ]
  end.
  right. unfold set_active, append_history, bind, get, put, ret in H.
  simpl in H. inversion H; subst. eauto.
Qed.

Lemma returns_with_get {St} : returns_with (@get St) (fun _ => True).
Proof. intros s w Hn. exists s, s, w. done. Qed.

Lemma returns_with_put {St} (s' : St) : returns_with (put s') (fun _ => True).
Proof. intros s w Hn. exists tt, s', w. done. Qed.

Lemma make_instruction_returns c :
  returns_with (make_instruction c) (fun _ => True).
Proof.
  destruct c; unfold make_instruction; cbv zeta.
  - eapply returns_with_bind.
    { apply (returns_with_replicate 3), (returns_with_randint 10 99). lia. }
    intros numbers _.
    eapply returns_with_bind; [apply returns_with_choice; discriminate|].
    intros direction _. by apply returns_with_ret.
  - eapply returns_with_bind; [apply returns_with_choice; discriminate|].
    intros phrase _.
    eapply returns_with_bind; [apply returns_with_choice; discriminate|].
    intros gesture _. by apply returns_with_ret.
  - by apply returns_with_ret.
  - eapply returns_with_bind; [apply returns_with_choice; discriminate|].
    intros action _. by apply returns_with_ret.
Qed.

(** In normal operation [generate_challenge] returns a challenge of one
    of the four types, with an expected duration in [6, 15], and that
    challenge is then in the active set under its id. *)
Lemma generate_challenge_issues uc (e : DBIEngine.t) (w : World) :
  normal_world w ->
  exists ch e' w',
    generate_challenge uc e w = (Returns ch, e', w') /\
    normal_world w' /\
    active_challenges e' !! DBIChallenge.challenge_id ch = Some ch /\
    (6 <= DBIChallenge.expected_duration ch)%Q /\
    (DBIChallenge.expected_duration ch <= 15)%Q.
Proof.
  intros Hn.
  assert (Hret : returns_with (generate_challenge uc)
            (fun ch => (6 <= DBIChallenge.expected_duration ch)%Q /\
                       (DBIChallenge.expected_duration ch <= 15)%Q)).
  { unfold generate_challenge.
    eapply returns_with_bind; [apply returns_with_choice; discriminate|].
    intros challenge_type _.
    eapply returns_with_bind; [apply returns_with_time|]. intros now _.
    eapply returns_with_bind; [apply (returns_with_randint 1000 9999); lia|].
    intros suffix _. cbv zeta.
    eapply returns_with_bind; [apply make_instruction_returns|].
    intros instruction _.
    eapply returns_with_bind; [apply (returns_with_uniform 6.0 15.0); lra|].
    intros d [Hlo Hhi].
    eapply returns_with_bind; [apply returns_with_time|]. intros ts _.
    eapply returns_with_bind.
    { unfold set_active.
      eapply returns_with_bind; [apply returns_with_get|].
      intros self _. apply returns_with_put. }
    intros _ _.
    eapply returns_with_bind.
    { unfold append_history.
      eapply returns_with_bind; [apply returns_with_get|].
      intros self _. apply returns_with_put. }
    intros _ _. apply returns_with_ret. simpl. split; lra. }
  destruct (Hret e w Hn) as (ch & e' & w' & Hg & Hn' & Hlo & Hhi).
  exists ch, e', w'. split; [done|]. split; [done|]. split; [|done].
  apply generate_challenge_effect in Hg.
  destruct Hg as [(? & ? & _) | (ch' & [= <-] & ->)]; [discriminate|].
  simpl. apply lookup_insert_eq.
Qed.

(** A validation leaves the engine as it was or removes the validated id
    from the active set; nothing else changes. *)
Lemma validate_effect id rd (e : DBIEngine.t) w o e' w' :
  validate_challenge_response id rd e w = (o, e', w') ->
  e' = e \/
  e' = DBIEngine.mk (delete id (active_challenges e)) (challenge_history e).
Proof.
  unfold validate_challenge_response, del_active, random_uniform,
    random_random, bind, get, put, ret, raise. simpl.
  destruct (active_challenges e !! id) eqn:E.
  - destruct (rng w (rng_pos w)); simpl.
    + destruct (rng w (S (rng_pos w))); simpl.
      * rewrite E. intros H; inversion H; auto.
      * intros H; inversion H; auto.
    + intros H; inversion H; auto.
  - intros H; inversion H; auto.
Qed.

Lemma run_call_keeps_absent id c (e : DBIEngine.t) w o e' w' :
  active_challenges e !! id = None ->
  run_call c e w = (o, e', w') ->
  issues id (c, o) = false ->
  active_challenges e' !! id = None.
Proof.
  intros Habs Hrun Hiss. destruct c as [uc | id' rd]; simpl in Hrun.
  - apply bind_inv in Hrun.
    destruct Hrun as [(ex & Hg & ->) | (ch & s1 & w1 & Hg & Hret)].
    + apply generate_challenge_effect in Hg.
      destruct Hg as [(? & _ & ->) | (? & ? & _)]; [done | discriminate].
    + unfold ret in Hret. inversion Hret; subst. simpl in Hiss.
      apply generate_challenge_effect in Hg.
      destruct Hg as [(? & ? & _) | (ch' & Hch & ->)]; [discriminate|].
      inversion Hch; subst ch'. simpl.
      rewrite lookup_insert_ne; [done|].
      intros Heq. apply String.eqb_neq in Hiss. done.
  - apply bind_inv in Hrun.
    assert (e' = e \/ e' = DBIEngine.mk (delete id' (active_challenges e))
                              (challenge_history e)) as [-> | ->].
    { destruct Hrun as [(ex & Hv & ->) | (r & s1 & w1 & Hv & Hret)].
      - eapply validate_effect; eauto.
      - unfold ret in Hret. inversion Hret; subst.
        eapply validate_effect; eauto. }
    + done.
    + simpl. destruct (decide (id' = id)) as [-> | Hne].
      * apply lookup_delete_eq.
      * rewrite lookup_delete_ne; done.
Qed.

Lemma run_call_absent_rejected id rd (e : DBIEngine.t) w :
  active_challenges e !! id = None ->
  fst (fst (run_call (Validate id rd) e w)) = Returns (Validated not_found).
Proof.
  intros Habs. simpl. unfold bind.
  rewrite validate_not_active by done. reflexivity.
Qed.

(** An id that is out of the active set stays out of it for as long as
    no issuance produces it. *)
Lemma run_calls_keep_absent id (cs : list Call) :
  forall (e : DBIEngine.t) (w : World),
    active_challenges e !! id = None ->
    Forall (fun entry => issues id entry = false) (fst (fst (run_calls cs e w))) ->
    active_challenges (snd (fst (run_calls cs e w))) !! id = None.
Proof.
  induction cs as [|c cs IH]; intros e w Habs Hno; simpl in *; [done|].
  destruct (run_call c e w) as [[o e1] w1] eqn:Hc.
  specialize (IH e1 w1).
  destruct (run_calls cs e1 w1) as [[log e2] w2] eqn:Hcs. simpl in *.
  inversion Hno as [|? ? Hhd Htl]; subst.
  apply IH; [|done]. eapply run_call_keeps_absent; eauto.
Qed.

(** C3: [validate_challenge_response] returns the not-found dict
    [{"valid": False, "error": "Challenge not found", "confidence": 0.0}]
    (the spec's [{valid: false, reason: "not_found", confidence: 0}])
    exactly when the id is not in the active set; it is then returned,
    not raised, and the engine is left as it was.  This is the answer
    both for an id that no issuance has produced since the engine was
    created, and for an id whose challenge an earlier validation has
    consumed. *)
Theorem validate_not_found_iff :
  (forall (e : DBIEngine.t) (w : World) (challenge_id : string)
          (response_data : pyval),
     fst (fst (validate_challenge_response challenge_id response_data e w))
       = Returns not_found
     <-> active_challenges e !! challenge_id = None) /\
  (forall (e : DBIEngine.t) (w : World) (challenge_id : string)
          (response_data : pyval),
     active_challenges e !! challenge_id = None ->
     validate_challenge_response challenge_id response_data e w
       = (Returns (PyDict [("valid", PyBool false);
                           ("error", PyStr "Challenge not found");
                           ("confidence", PyFloat 0.0)]), e, w)) /\
  (forall (calls : list Call) (w0 w : World) (challenge_id : string)
          (response_data : pyval),
     Forall (fun entry => issues challenge_id entry = false)
       (fst (fst (run_calls calls DBIEngine.init w0))) ->
     fst (fst (validate_challenge_response challenge_id response_data
                 (snd (fst (run_calls calls DBIEngine.init w0))) w))
       = Returns not_found) /\
  (forall (e : DBIEngine.t) (w w' : World) (challenge_id : string)
          (challenge : DBIChallenge.t) (first_data replayed_data : pyval)
          (u1 u2 : Q),
     active_challenges e !! challenge_id = Some challenge ->
     rng w (rng_pos w) = Returns u1 ->
     rng w (S (rng_pos w)) = Returns u2 ->
     fst (fst (validate_challenge_response challenge_id replayed_data
                 (snd (fst (validate_challenge_response challenge_id
                              first_data e w))) w'))
       = Returns not_found).
Proof.
  split; [|split; [|split]].
  - intros e w challenge_id response_data. split.
    + intros Hr.
      destruct (active_challenges e !! challenge_id) eqn:E; [|done].
      exfalso. eapply validate_active_outcome; eauto.
    + intros H. rewrite validate_not_active by done. reflexivity.
  - intros e w challenge_id response_data H.
    rewrite validate_not_active by done. reflexivity.
  - intros calls w0 w challenge_id response_data Hno.
    rewrite validate_not_active; [reflexivity|].
    apply run_calls_keep_absent; [apply lookup_empty | done].
  - intros e w w' challenge_id challenge first_data replayed_data u1 u2
      Hact H1 H2.
    rewrite (validate_active e w challenge_id first_data challenge u1 u2)
      by done.
    simpl. rewrite validate_not_active; [reflexivity|].
    simpl. apply lookup_delete_eq.
Qed.

(** Once an id is out of the active set, every validation of it is
    rejected for as long as no issuance produces that id again. *)
Lemma replay_rejected id (cs : list Call) :
  forall (e : DBIEngine.t) (w : World),
    active_challenges e !! id = None ->
    Forall (fun entry => issues id entry = false) (fst (fst (run_calls cs e w))) ->
    Forall (rejected id) (fst (fst (run_calls cs e w))).
Proof.
  induction cs as [|c cs IH]; intros e w Habs Hno; simpl in *.
  - constructor.
  - destruct (run_call c e w) as [[o e1] w1] eqn:Hc.
    specialize (IH e1 w1).
    destruct (run_calls cs e1 w1) as [[log e2] w2] eqn:Hcs. simpl in *.
    inversion Hno as [|? ? Hhd Htl]; subst.
    constructor.
    + destruct c as [uc | id' rd]; simpl; [done|].
      intros ->.
      pose proof (run_call_absent_rejected id rd e w Habs) as Hr.
      rewrite Hc in Hr. done.
    + apply IH; [|done]. eapply run_call_keeps_absent; eauto.
Qed.

(** C1: when an issued challenge is validated for the first time, it is
    removed from the active set whatever the drawn outcome (pass or fail)
    and the call returns a pass/fail verdict, distinct from the not-found
    dict; in every later sequence of calls on the engine, each validation
    of the same id is answered with the not-found dict, as long as no
    later issuance generates that id again. *)
Theorem validate_consumes_challenge
    (e : DBIEngine.t) (w : World) (challenge_id : string)
    (challenge : DBIChallenge.t) (response_data : pyval) (u1 u2 : Q) :
  active_challenges e !! challenge_id = Some challenge ->
  rng w (rng_pos w) = Returns u1 ->
  rng w (S (rng_pos w)) = Returns u2 ->
  exists (r : pyval) (e1 : DBIEngine.t) (w1 : World),
    validate_challenge_response challenge_id response_data e w
      = (Returns r, e1, w1) /\
    is_verdict r = true /\
    r <> not_found /\
    active_challenges e1 = delete challenge_id (active_challenges e) /\
    active_challenges e1 !! challenge_id = None /\
    forall later : list Call,
      Forall (fun entry => issues challenge_id entry = false)
        (fst (fst (run_calls later e1 w1))) ->
      Forall (rejected challenge_id) (fst (fst (run_calls later e1 w1))).
Proof.
  intros Hact H1 H2.
  eexists _, _, _. split; [eapply validate_active; eauto|].
  split; [reflexivity|]. split; [discriminate|].
  split; [reflexivity|]. split; [apply lookup_delete_eq|].
  intros later. apply replay_rejected. simpl. apply lookup_delete_eq.
Qed.

(** C4: when the id is found in the active set (and the two draws
    return, the first one in [0, 1)), the returned dict carries
    ["valid"], true exactly when the second uniform draw exceeds 0.1;
    ["confidence"] in [0.80, 0.95]; ["challenge_type"], the kind of the
    found challenge; the three ["biometric_signals"] all [True]; and
    ["anomalies"], empty when valid and [["Suspicious timing pattern"]]
    when not. *)
Theorem validate_found_result
    (e : DBIEngine.t) (w : World) (challenge_id : string)
    (challenge : DBIChallenge.t) (response_data : pyval) (u1 u2 : Q) :
  active_challenges e !! challenge_id = Some challenge ->
  rng w (rng_pos w) = Returns u1 ->
  rng w (S (rng_pos w)) = Returns u2 ->
  (0 <= u1)%Q -> (u1 < 1)%Q ->
  exists (valid : bool) (confidence : Q),
    fst (fst (validate_challenge_response challenge_id response_data e w))
      = Returns (PyDict [
          ("valid", PyBool valid);
          ("confidence", PyFloat confidence);
          ("challenge_type",
             PyStr (ChallengeType_value (DBIChallenge.challenge_type challenge)));
          ("biometric_signals",
             PyDict [("voice_detected", PyBool true);
                     ("face_movement", PyBool true);
                     ("timing_natural", PyBool true)]);
          ("anomalies",
             PyList (if valid then [] else [PyStr "Suspicious timing pattern"]))
        ]) /\
    (0.80 <= confidence)%Q /\ (confidence <= 0.95)%Q /\
    (valid = true <-> (0.1 < u2)%Q).
Proof.
  intros Hact H1 H2 Hlo Hhi.
  exists (Qgtb u2 0.1), (0.8 + (0.95 - 0.8) * u1)%Q.
  rewrite (validate_active e w challenge_id response_data challenge u1 u2)
    by done.
  split; [reflexivity|]. split; [lra|]. split; [lra|]. apply Qgtb_spec.
Qed.

(** C8: the result of [process_frame] does not depend on [frame_data],
    and the result of [validate_challenge_response] does not depend on
    [response_data]: run from the same attributes and the same world
    (hence the same random draws and clock readings), two calls that
    differ only in the payload give the same outcome, the same attributes
    and the same world afterwards. *)
Theorem payloads_not_inspected :
  (forall (p : BiometricProcessor.t) (w : World) (frame_data1 frame_data2 : string),
     BiometricProcessor.process_frame frame_data1 p w
       = BiometricProcessor.process_frame frame_data2 p w) /\
  (forall (e : DBIEngine.t) (w : World) (challenge_id : string)
          (response_data1 response_data2 : pyval),
     validate_challenge_response challenge_id response_data1 e w
       = validate_challenge_response challenge_id response_data2 e w).
Proof. split; intros; reflexivity. Qed.

Import TrustCalculator.

Lemma calculate_body_normal bd (st : TrustCalculator.t) (w : World) u1 u2 u3 ts :
  rng w (rng_pos w) = Returns u1 ->
  rng w (S (rng_pos w)) = Returns u2 ->
  rng w (S (S (rng_pos w))) = Returns u3 ->
  clock w (clock_pos w) = Returns ts ->
  exists h,
    calculate_trust_score_body bd st w =
      (Returns (normal_score (current_score st) u1 u2 u3 ts),
       TrustCalculator.mk
         (0.7 * current_score st + 0.3 * (70 + (90 - 70) * u1))%Q h,
       advance_clock (advance_rng (advance_rng (advance_rng w)))).
Proof.
  intros H1 H2 H3 Ht.
  unfold calculate_trust_score_body, set_current_score, record_history,
    random_uniform, random_random, time_time, bind, get, put, ret.
  simpl. rewrite H1. simpl.
  unfold normal_score.
  set (v := (0.7 * current_score st + 0.3 * (70 + (90 - 70) * u1))%Q).
  destruct (Qgeb v 85) eqn:E85; [|destruct (Qgeb v 65) eqn:E65];
    simpl; rewrite H2; simpl; rewrite H3; simpl; rewrite Ht; simpl;
    destruct (Qltb v 80), (Qltb u2 0.2); simpl; eexists; reflexivity.
Qed.

Lemma normal_world_rng (w : World) k :
  normal_world w -> exists u, rng w k = Returns u /\ (0 <= u)%Q /\ (u < 1)%Q.
Proof. intros [H _]. apply H. Qed.

Lemma normal_world_clock (w : World) k :
  normal_world w -> exists t, clock w k = Returns t.
Proof. intros [_ H]. apply H. Qed.

(** Whatever happens after the first draw, the stored value is the
    smoothed one: no later step of the method writes [current_score]. *)
Lemma calculate_stored_value bd (st : TrustCalculator.t) (w : World) u1 :
  rng w (rng_pos w) = Returns u1 ->
  current_score (snd (fst (calculate_trust_score bd st w)))
    = (0.7 * current_score st + 0.3 * (70 + (90 - 70) * u1))%Q.
Proof.
  intros H1.
  unfold calculate_trust_score, try_except, calculate_trust_score_fallback,
    calculate_trust_score_body, set_current_score, record_history,
    random_uniform, random_random, time_time, bind, get, put, ret.
  simpl. rewrite H1. simpl.
  set (v := (0.7 * current_score st + 0.3 * (70 + (90 - 70) * u1))%Q).
  destruct (Qgeb v 85); [|destruct (Qgeb v 65)]; simpl;
    (destruct (rng w (S (rng_pos w))); simpl;
     [ destruct (rng w (S (S (rng_pos w)))); simpl;
       [ destruct (clock w (clock_pos w)); simpl;
         [ reflexivity
         | destruct (clock w (S (clock_pos w))); reflexivity ]
       | destruct (clock w (clock_pos w)); reflexivity ]
     | destruct (clock w (clock_pos w)); reflexivity ]).
Qed.

(** C2: one call of [calculate_trust_score] from the stored value [p],
    with a first draw [u] in [0, 1), stores [0.7 * p + 0.3 * s] for the
    sample [s = 70 + 20 * u], which lies in [70, 90]; hence the new value
    lies between [min p 70] and [max p 90]. *)
Theorem trust_score_update_convex
    (st : TrustCalculator.t) (w : World) (behavioral_data : pyval) (u : Q) :
  rng w (rng_pos w) = Returns u ->
  (0 <= u)%Q -> (u < 1)%Q ->
  let p := current_score st in
  let s := (70 + (90 - 70) * u)%Q in
  let v := current_score (snd (fst (calculate_trust_score behavioral_data st w))) in
  (70 <= s)%Q /\ (s <= 90)%Q /\
  (v == 0.7 * p + 0.3 * s)%Q /\
  (Qmin p 70 <= v)%Q /\ (v <= Qmax p 90)%Q.
Proof.
  intros H1 Hlo Hhi p s v.
  assert (Hv : v = (0.7 * p + 0.3 * s)%Q)
    by (apply calculate_stored_value; done).
  rewrite Hv. subst s.
  split; [lra|]. split; [lra|]. split; [reflexivity|].
  split.
  - destruct (Q.min_spec p 70) as [[Hlt ->] | [Hle ->]]; lra.
  - destruct (Q.max_spec p 90) as [[Hlt ->] | [Hle ->]]; lra.
Qed.

Lemma calculate_of_body bd (st : TrustCalculator.t) w r st' w' :
  calculate_trust_score_body bd st w = (Returns r, st', w') ->
  calculate_trust_score bd st w = (Returns r, st', w').
Proof. intros H. unfold calculate_trust_score, try_except. rewrite H. done. Qed.

Lemma calculate_of_fault bd (st : TrustCalculator.t) w e st' w' :
  calculate_trust_score_body bd st w = (Raises e, st', w') ->
  calculate_trust_score bd st w = calculate_trust_score_fallback e st' w'.
Proof. intros H. unfold calculate_trust_score, try_except. rewrite H. done. Qed.

(** The [try] block either finds its four tape cells returning, or
    raises, having moved the tape positions only. *)
Lemma calculate_body_cases bd (st : TrustCalculator.t) (w : World) :
  (exists u1 u2 u3 ts,
     rng w (rng_pos w) = Returns u1 /\
     rng w (S (rng_pos w)) = Returns u2 /\
     rng w (S (S (rng_pos w))) = Returns u3 /\
     clock w (clock_pos w) = Returns ts) \/
  (exists e st1 w1,
     calculate_trust_score_body bd st w = (Raises e, st1, w1) /\
     clock w1 = clock w /\
     (clock_pos w1 = clock_pos w \/
      clock_pos w1 = S (clock_pos w) /\ clock w (clock_pos w) = Raises e)).
Proof.
  destruct (rng w (rng_pos w)) as [u1|e1] eqn:H1.
  2:{ right. exists e1, st, (advance_rng w).
      unfold calculate_trust_score_body, random_uniform, random_random, bind.
      simpl. rewrite H1. auto. }
  unfold calculate_trust_score_body, set_current_score, record_history,
    random_uniform, random_random, time_time, bind, get, put, ret.
  simpl. rewrite H1. simpl.
  set (v := (0.7 * current_score st + 0.3 * (70 + (90 - 70) * u1))%Q).
  destruct (rng w (S (rng_pos w))) as [u2|e2] eqn:H2.
  2:{ right. destruct (Qgeb v 85); [|destruct (Qgeb v 65)]; simpl;
        rewrite H2; simpl; eexists _, _, _; simpl; auto. }
  destruct (rng w (S (S (rng_pos w)))) as [u3|e3] eqn:H3.
  2:{ right. destruct (Qgeb v 85); [|destruct (Qgeb v 65)]; simpl;
        rewrite H2; simpl; rewrite H3; simpl; eexists _, _, _; simpl; auto. }
  destruct (clock w (clock_pos w)) as [ts|e4] eqn:H4.
  2:{ right. destruct (Qgeb v 85); [|destruct (Qgeb v 65)]; simpl;
        rewrite H2; simpl; rewrite H3; simpl; rewrite H4; simpl;
        eexists _, _, _; simpl; auto. }
  left. eauto 10.
Qed.

(** C5: under normal operation the call returns; the value it stores
    is the smoothed one, [0.7 * p + 0.3 * s] for the stored value [p]
    before the call and the sample [s = 70 + 20 * u] of the first draw
    [u], and the returned level and recommended action are fixed by that
    updated stored value: [>= 85] gives HIGH / ALLOW_SEAMLESS, [>= 65] and
    [< 85] gives MEDIUM / ALLOW_WITH_MONITORING, [< 65] gives LOW /
    REQUIRE_ADDITIONAL_VERIFICATION. *)
Theorem trust_level_thresholds
    (st : TrustCalculator.t) (w : World) (behavioral_data : pyval) :
  normal_world w ->
  exists (r : TrustScore.t) (st' : TrustCalculator.t) (w' : World) (u : Q),
    rng w (rng_pos w) = Returns u /\ (0 <= u)%Q /\ (u < 1)%Q /\
    calculate_trust_score behavioral_data st w = (Returns r, st', w') /\
    let value := current_score st' in
    (value == 0.7 * current_score st + 0.3 * (70 + (90 - 70) * u))%Q /\
    ((85 <= value)%Q ->
       TrustScore.trust_level r = "HIGH" /\
       TrustScore.recommended_action r = "ALLOW_SEAMLESS") /\
    ((65 <= value)%Q /\ (value < 85)%Q ->
       TrustScore.trust_level r = "MEDIUM" /\
       TrustScore.recommended_action r = "ALLOW_WITH_MONITORING") /\
    ((value < 65)%Q ->
       TrustScore.trust_level r = "LOW" /\
       TrustScore.recommended_action r = "REQUIRE_ADDITIONAL_VERIFICATION").
Proof.
  intros Hn.
  destruct (normal_world_rng w (rng_pos w) Hn) as (u1 & H1 & Hlo & Hhi).
  destruct (normal_world_rng w (S (rng_pos w)) Hn) as (u2 & H2 & _).
  destruct (normal_world_rng w (S (S (rng_pos w))) Hn) as (u3 & H3 & _).
  destruct (normal_world_clock w (clock_pos w) Hn) as (ts & Ht).
  destruct (calculate_body_normal behavioral_data st w u1 u2 u3 ts H1 H2 H3 Ht)
    as (h & Hb).
  eexists _, _, _, u1. split; [exact H1|]. split; [exact Hlo|].
  split; [exact Hhi|]. split; [apply calculate_of_body, Hb|].
  simpl. split; [reflexivity|]. unfold normal_score.
  set (v := (0.7 * current_score st + 0.3 * (70 + (90 - 70) * u1))%Q).
  destruct (Qgeb v 85) eqn:E85; [|destruct (Qgeb v 65) eqn:E65]; simpl.
  - apply Qgeb_spec in E85. repeat split; intros; exfalso; lra.
  - apply Qgeb_false in E85. apply Qgeb_spec in E65.
    repeat split; intros; exfalso; lra.
  - apply Qgeb_false in E85. apply Qgeb_false in E65.
    repeat split; intros; exfalso; lra.
Qed.

(** C6: every call of [calculate_trust_score] that can read the clock
    returns a score whose [risk_factors] list is not empty.  When the
    three draws of the [try] block return, [u1], [u2] and [u3] in this
    order, the call takes the normal path: it stores the smoothed value
    [0.7 * p + 0.3 * (70 + 20 * u1)], and the list contains
    "Behavioral pattern variation detected" when that updated value is
    below 80, contains "New device fingerprint" exactly when the second
    draw is below 0.2, and is the single element
    ["All metrics within normal range"] exactly when neither was
    triggered; the list is fixed in each of the four cases.  When one of
    the three draws raises, the call takes the fallback path and the list
    is ["System error"]. *)
Theorem risk_factors_never_empty
    (st : TrustCalculator.t) (w : World) (behavioral_data : pyval) :
  (forall k, exists t, clock w k = Returns t) ->
  exists (r : TrustScore.t) (st' : TrustCalculator.t) (w' : World),
    calculate_trust_score behavioral_data st w = (Returns r, st', w') /\
    TrustScore.risk_factors r <> [] /\
    (forall u1 u2 u3,
       rng w (rng_pos w) = Returns u1 ->
       rng w (S (rng_pos w)) = Returns u2 ->
       rng w (S (S (rng_pos w))) = Returns u3 ->
       let value := current_score st' in
       let factors := TrustScore.risk_factors r in
       calculate_trust_score_body behavioral_data st w = (Returns r, st', w') /\
       (value == 0.7 * current_score st + 0.3 * (70 + (90 - 70) * u1))%Q /\
       ((value < 80)%Q ->
          In "Behavioral pattern variation detected" factors) /\
       (In "New device fingerprint" factors <-> (u2 < 0.2)%Q) /\
       (factors = ["All metrics within normal range"]
          <-> (80 <= value)%Q /\ (0.2 <= u2)%Q) /\
       ((value < 80)%Q /\ (u2 < 0.2)%Q ->
          factors = ["Behavioral pattern variation detected";
                     "New device fingerprint"]) /\
       ((value < 80)%Q /\ (0.2 <= u2)%Q ->
          factors = ["Behavioral pattern variation detected"]) /\
       ((80 <= value)%Q /\ (u2 < 0.2)%Q ->
          factors = ["New device fingerprint"])) /\
    (forall e,
       rng w (rng_pos w) = Raises e \/
       rng w (S (rng_pos w)) = Raises e \/
       rng w (S (S (rng_pos w))) = Raises e ->
       TrustScore.risk_factors r = ["System error"]).
Proof.
  intros Hclock.
  destruct (calculate_body_cases behavioral_data st w)
    as [(u1 & u2 & u3 & ts & H1 & H2 & H3 & Ht)
       | (e & st1 & w1 & Hb & Hck & Hpos)].
  - destruct (calculate_body_normal behavioral_data st w u1 u2 u3 ts H1 H2 H3 Ht)
      as (h & Hb).
    eexists _, _, _. split; [apply calculate_of_body, Hb|].
    simpl. unfold normal_score.
    set (v := (0.7 * current_score st + 0.3 * (70 + (90 - 70) * u1))%Q).
    assert (Hcases :
      (Qltb v 80 = true /\ (v < 80)%Q \/ Qltb v 80 = false /\ (80 <= v)%Q) /\
      (Qltb u2 0.2 = true /\ (u2 < 0.2)%Q \/
       Qltb u2 0.2 = false /\ (0.2 <= u2)%Q)).
    { split.
      - destruct (Qltb v 80) eqn:E; [left | right]; split; try done.
        + by apply Qltb_spec. + by apply Qltb_false.
      - destruct (Qltb u2 0.2) eqn:E; [left | right]; split; try done.
        + by apply Qltb_spec. + by apply Qltb_false. }
    split.
    { destruct Hcases as [[[-> _] | [-> _]] [[-> _] | [-> _]]]; discriminate. }
    split.
    2:{ intros e0 [He0 | [He0 | He0]]; congruence. }
    intros u1' u2' u3' H1' H2' H3'.
    assert (u1' = u1) by congruence. assert (u2' = u2) by congruence.
    assert (u3' = u3) by congruence. subst u1' u2' u3'.
    split.
    { rewrite Hb. unfold normal_score. reflexivity. }
    split; [reflexivity|].
    destruct Hcases as [[[-> Hv] | [-> Hv]] [[-> Hu] | [-> Hu]]]; simpl.
    all: repeat split; intros; auto.
    all: try lra.
    all: try (exfalso; lra).
    all: repeat match goal with
         | H : _ \/ _ |- _ => destruct H
         | H : _ /\ _ |- _ => destruct H
         end; try discriminate; try done; try lra.
  - assert (exists t, clock w1 (clock_pos w1) = Returns t) as [t Ht].
    { rewrite Hck. apply Hclock. }
    eexists _, _, _. split.
    { rewrite (calculate_of_fault _ _ _ _ _ _ Hb).
      unfold calculate_trust_score_fallback, time_time, bind, ret.
      rewrite Ht. reflexivity. }
    simpl. split; [discriminate|].
    split; [|reflexivity].
    intros u1 u2 u3 H1 H2 H3.
    destruct (Hclock (clock_pos w)) as [ts Hts].
    destruct (calculate_body_normal behavioral_data st w u1 u2 u3 ts
                H1 H2 H3 Hts) as (h & Hr).
    rewrite Hr in Hb. discriminate.
Qed.

(** C7: if the [try] block of [calculate_trust_score] raises, the
    outcome of the call is that of the one clock reading the handler
    makes for the fallback's timestamp: when it returns [t], the call does
    not raise and returns the fixed fallback score, value 50, level
    MEDIUM, risk factors ["System error"], confidence 0, action
    REQUIRE_MANUAL_REVIEW, timestamp [t]; when it raises, the call raises
    that exception.  A raise in the block only happens outside normal
    operation: under normal operation the block returns, and the call
    returns what the block returned. *)
Theorem fault_degrades_to_fallback
    (st : TrustCalculator.t) (w : World) (behavioral_data : pyval)
    (e : Exception) (st1 : TrustCalculator.t) (w1 : World) :
  calculate_trust_score_body behavioral_data st w = (Raises e, st1, w1) ->
  (forall t : Q,
     clock w1 (clock_pos w1) = Returns t ->
     calculate_trust_score behavioral_data st w
       = (Returns (TrustScore.mk 50.0 "MEDIUM" ["System error"] 0.0
                     "REQUIRE_MANUAL_REVIEW" t),
          st1, advance_clock w1)) /\
  (forall e' : Exception,
     clock w1 (clock_pos w1) = Raises e' ->
     calculate_trust_score behavioral_data st w
       = (Raises e', st1, advance_clock w1)) /\
  ~ normal_world w /\
  (forall (st0 : TrustCalculator.t) (w0 : World),
     normal_world w0 ->
     exists (r : TrustScore.t) (st' : TrustCalculator.t) (w' : World),
       calculate_trust_score_body behavioral_data st0 w0 = (Returns r, st', w') /\
       calculate_trust_score behavioral_data st0 w0 = (Returns r, st', w')).
Proof.
  intros Hb.
  assert (Hnormal : forall (st0 : TrustCalculator.t) (w0 : World),
    normal_world w0 ->
    exists (r : TrustScore.t) (st' : TrustCalculator.t) (w' : World),
      calculate_trust_score_body behavioral_data st0 w0 = (Returns r, st', w')).
  { intros st0 w0 Hn.
    destruct (normal_world_rng w0 (rng_pos w0) Hn) as (u1 & H1 & _).
    destruct (normal_world_rng w0 (S (rng_pos w0)) Hn) as (u2 & H2 & _).
    destruct (normal_world_rng w0 (S (S (rng_pos w0))) Hn) as (u3 & H3 & _).
    destruct (normal_world_clock w0 (clock_pos w0) Hn) as (ts & Hts).
    destruct (calculate_body_normal behavioral_data st0 w0 u1 u2 u3 ts
                H1 H2 H3 Hts) as (h & Hr).
    eauto. }
  split; [|split; [|split]].
  - intros t Ht. rewrite (calculate_of_fault _ _ _ _ _ _ Hb).
    unfold calculate_trust_score_fallback, time_time, bind, ret.
    rewrite Ht. reflexivity.
  - intros e' He'. rewrite (calculate_of_fault _ _ _ _ _ _ Hb).
    unfold calculate_trust_score_fallback, time_time, bind, ret.
    rewrite He'. reflexivity.
  - intros Hn. destruct (Hnormal st w Hn) as (r & st' & w' & Hr).
    rewrite Hr in Hb. discriminate.
  - intros st0 w0 Hn. destruct (Hnormal st0 w0 Hn) as (r & st' & w' & Hr).
    exists r, st', w'. split; [exact Hr | apply calculate_of_body, Hr].
Qed.

(** *** Concurrent validations *)

Section OneWinner.

Variable challenge_id : string.
Variable challenge : DBIChallenge.t.
Variable payloads : list pyval.

Lemma loop_inv_step l1 l2 :
  loop_inv challenge_id challenge payloads l1 -> loop_step l1 l2 ->
  loop_inv challenge_id challenge payloads l2.
Proof.
  intros (Hn & Hlen & Hst) Hstep.
  destruct Hstep as [l k resume c' s' w' Hk Hres].
  assert (Hklt : (k < length (tasks l))%nat)
    by (apply lookup_lt_is_Some; eauto).
  destruct (lookup_lt_is_Some_2 payloads k) as [rd Hrd]; [lia|].
  destruct Hst as [(Hact & Hall) | (Habs & i & r & Hi & Hv & Hnf & Hoth)].
  - (* the first task to run finds the challenge and consumes it *)
    rewrite (Hall k rd Hrd) in Hk. injection Hk as Hk. subst resume.
    destruct (normal_world_rng (world l) (rng_pos (world l)) Hn)
      as (u1 & H1 & _).
    destruct (normal_world_rng (world l) (S (rng_pos (world l))) Hn)
      as (u2 & H2 & _).
    rewrite (validate_active _ _ _ _ _ u1 u2 Hact H1 H2) in Hres.
    injection Hres as <- <- <-.
    split; [simpl; auto using normal_world_advance_rng|].
    split; [simpl; rewrite length_insert; done|].
    right. simpl. split; [apply lookup_delete_eq|].
    eexists k, _. split; [apply list_lookup_insert_eq; done|].
    split; [reflexivity|]. split; [discriminate|].
    intros j rd' Hne Hrd'. left.
    rewrite list_lookup_insert_ne by done. auto.
  - (* every later task finds nothing *)
    assert (Hki : k <> i) by (intros ->; rewrite Hi in Hk; discriminate).
    destruct (Hoth k rd Hki Hrd) as [Hun | Hfin];
      [|rewrite Hfin in Hk; discriminate].
    rewrite Hun in Hk. injection Hk as Hk. subst resume.
    rewrite (validate_not_active _ _ _ _ Habs) in Hres.
    injection Hres as <- <- <-.
    split; [done|]. split; [simpl; rewrite length_insert; done|].
    right. simpl. split; [done|].
    exists i, r. split; [rewrite list_lookup_insert_ne; done|].
    split; [done|]. split; [done|].
    intros j rd' Hne Hrd'.
    destruct (decide (j = k)) as [-> | Hjk].
    + right. apply list_lookup_insert_eq. done.
    + rewrite list_lookup_insert_ne by done. auto.
Qed.

Lemma loop_inv_steps l1 l2 :
  loop_steps l1 l2 ->
  loop_inv challenge_id challenge payloads l1 ->
  loop_inv challenge_id challenge payloads l2.
Proof.
  induction 1 as [|l1 l2 l3 Hstep _ IH]; [done|].
  intros Hinv. apply IH. eapply loop_inv_step; eauto.
Qed.

Lemma loop_inv_init (e : DBIEngine.t) (w : World) :
  active_challenges e !! challenge_id = Some challenge ->
  normal_world w ->
  loop_inv challenge_id challenge payloads
    (concurrent_validations challenge_id payloads e w).
Proof.
  intros Hact Hn. split; [done|]. split; [simpl; apply length_map|].
  left. split; [done|]. intros j rd Hrd. simpl.
  rewrite list_lookup_fmap, Hrd. reflexivity.
Qed.

End OneWinner.

Lemma loop_steps_trans {St A} (l1 l2 l3 : Loop St A) :
  loop_steps l1 l2 -> loop_steps l2 l3 -> loop_steps l1 l3.
Proof.
  induction 1; [done|]. intros. eapply loop_more; eauto.
Qed.

(** Resuming the first suspended task is one turn of the loop. *)
Lemma resume_first_step {St A} (ts : list (Coroutine St A)) s w ts' s' w' :
  resume_first ts s w = Some (ts', s', w') ->
  loop_step (mkLoop ts s w) (mkLoop ts' s' w').
Proof.
  intros H.
  assert (exists i resume c',
            ts !! i = Some (Suspended resume) /\
            resume s w = (c', s', w') /\ ts' = <[i := c']> ts)
    as (i & resume & c' & Hi & Hr & ->).
  { revert ts' H. induction ts as [|c ts IH]; intros ts' H; [done|].
    destruct c as [o | resume]; simpl in H.
    - destruct (resume_first ts s w) as [[[ts1 s1] w1]|] eqn:E; [|done].
      injection H as <- <- <-.
      destruct (IH ts1 eq_refl) as (i & resume & c' & Hi & Hr & ->).
      exists (S i), resume, c'. done.
    - destruct (resume s w) as [[c1 s1] w1] eqn:E.
      injection H as <- <- <-. exists 0%nat, resume, c1. done. }
  exact (loop_resume (mkLoop ts s w) i resume c' s' w' Hi Hr).
Qed.

Lemma run_in_order_steps {St A} fuel (l : Loop St A) :
  loop_steps l (run_in_order fuel l).
Proof.
  revert l. induction fuel as [|fuel IH]; intros l; simpl; [constructor|].
  destruct (resume_first (tasks l) (attrs l) (world l))
    as [[[ts s] w]|] eqn:E; [|constructor].
  eapply loop_more; [|apply IH].
  destruct l as [ts0 s0 w0]. simpl in E. by apply resume_first_step.
Qed.

(** Served in task order, coroutines without suspension points are all
    finished after as many turns as there are tasks. *)
Lemma run_in_order_finishes {St A} (bodies : list (Eff St A)) :
  forall (done : list (Coroutine St A)) s w,
    Forall (fun c => is_finished c = true) done ->
    Forall (fun c => is_finished c = true)
      (tasks (run_in_order (length bodies)
                (mkLoop (done ++ map coroutine_of bodies)%list s w))).
Proof.
  induction bodies as [|m bodies IH]; intros done s w Hdone.
  - simpl. by rewrite app_nil_r.
  - simpl.
    assert (Hrf : forall rest,
              resume_first (done ++ coroutine_of m :: rest)%list s w
              = let '(o, s', w') := m s w in
                Some ((done ++ Finished o :: rest)%list, s', w')).
    { intros rest. induction Hdone as [|c done Hc _ IHd]; simpl.
      - destruct (m s w) as [[o s'] w']. reflexivity.
      - destruct c as [oc | rs]; [|discriminate]. rewrite IHd.
        destruct (m s w) as [[o s'] w']. reflexivity. }
    rewrite Hrf. destruct (m s w) as [[o s'] w'].
    replace (done ++ Finished o :: map coroutine_of bodies)%list
      with ((done ++ [Finished o]) ++ map coroutine_of bodies)%list
      by (rewrite <- app_assoc; reflexivity).
    apply IH. apply Forall_app. split; [done|]. by constructor.
Qed.

(** C9: [n] validations of the same issued id, resumed by the event
    loop in any order, can always be run to the end, and however they
    are, exactly one of them returns a verdict and the other [n - 1]
    return the not-found dict.  The method has no suspension point, so
    each call is one turn of the loop: its test of the active set and its
    removal of the challenge cannot be separated by another call. *)
Theorem one_validation_wins
    (e : DBIEngine.t) (w : World) (challenge_id : string)
    (challenge : DBIChallenge.t) (payloads : list pyval) :
  active_challenges e !! challenge_id = Some challenge ->
  normal_world w ->
  payloads <> [] ->
  (exists l', loop_steps (concurrent_validations challenge_id payloads e w) l' /\
              Forall (fun c => is_finished c = true) (tasks l')) /\
  forall l',
    loop_steps (concurrent_validations challenge_id payloads e w) l' ->
    Forall (fun c => is_finished c = true) (tasks l') ->
    length (tasks l') = length payloads /\
    exists (winner : nat) (r : pyval),
      tasks l' !! winner = Some (Finished (Returns r)) /\
      is_verdict r = true /\ r <> not_found /\
      forall j, (j < length payloads)%nat -> j <> winner ->
        tasks l' !! j = Some (Finished (Returns not_found)).
Proof.
  intros Hact Hn Hne. split.
  - exists (run_in_order (length payloads)
              (concurrent_validations challenge_id payloads e w)).
    split; [apply run_in_order_steps|].
    pose proof (run_in_order_finishes
      (map (fun rd => validate_challenge_response challenge_id rd) payloads)
      [] e w (List.Forall_nil _)) as H.
    rewrite length_map in H. simpl in H. rewrite map_map in H. exact H.
  - intros l' Hsteps Hfin.
    pose proof (loop_inv_steps challenge_id challenge payloads _ _ Hsteps
                  (loop_inv_init challenge_id challenge payloads e w Hact Hn))
      as (_ & Hlen & Hst).
    split; [done|].
    rewrite Forall_lookup in Hfin.
    destruct Hst as [(_ & Hall) | (_ & i & r & Hi & Hv & Hnf & Hoth)].
    + destruct payloads as [|rd rest]; [done|].
      specialize (Hall 0%nat rd eq_refl).
      specialize (Hfin 0%nat _ Hall). discriminate.
    + exists i, r. split; [done|]. split; [done|]. split; [done|].
      intros j Hj Hji.
      destruct (lookup_lt_is_Some_2 payloads j Hj) as [rd Hrd].
      destruct (Hoth j rd Hji Hrd) as [Hun | Hf]; [|done].
      specialize (Hfin j _ Hun). discriminate.
Qed.

(** * Further properties of the engine *)

(** What one call does to the engine, in terms of what it answers. *)
Lemma run_call_effect c (e : DBIEngine.t) w o e' w' :
  run_call c e w = (o, e', w') ->
  match c with
  | Generate _ =>
      (exists ex, o = Raises ex /\ e' = e) \/
      (exists ch, o = Returns (Issued ch) /\
         e' = DBIEngine.mk
                (<[DBIChallenge.challenge_id ch := ch]> (active_challenges e))
                (challenge_history e ++ [ch]))
  | Validate id _ =>
      issued_in [(c, o)] = [] /\
      (e' = e \/
       e' = DBIEngine.mk (delete id (active_challenges e)) (challenge_history e))
  end.
Proof.
  intros Hrun. destruct c as [uc | id rd]; simpl in Hrun.
  - apply bind_inv in Hrun.
    destruct Hrun as [(ex & Hg & ->) | (ch & s1 & w1 & Hg & Hret)].
    + apply generate_challenge_effect in Hg.
      destruct Hg as [(? & _ & ->) | (? & ? & _)]; [eauto | discriminate].
    + unfold ret in Hret. injection Hret as <- <- <-.
      apply generate_challenge_effect in Hg.
      destruct Hg as [(? & ? & _) | (ch' & [= <-] & ->)]; [discriminate|eauto].
  - apply bind_inv in Hrun.
    destruct Hrun as [(ex & Hv & ->) | (r & s1 & w1 & Hv & Hret)].
    + split; [done|]. eapply validate_effect; eauto.
    + unfold ret in Hret. injection Hret as <- <- <-.
      split; [done|]. eapply validate_effect; eauto.
Qed.

Lemma run_call_history c (e : DBIEngine.t) w o e' w' :
  run_call c e w = (o, e', w') ->
  challenge_history e' = (challenge_history e ++ issued_in [(c, o)])%list.
Proof.
  intros Hrun. apply run_call_effect in Hrun.
  destruct c as [uc | id rd].
  - destruct Hrun as [(ex & -> & ->) | (ch & -> & ->)]; simpl;
      by rewrite ?app_nil_r.
  - destruct Hrun as [-> [-> | ->]]; simpl; by rewrite app_nil_r.
Qed.

(** X1: the history is append-only and records exactly the issuances:
    after any sequence of calls, served from any engine in any world, the
    history is the earlier history followed by the challenges that the
    calls issued, in order.  A validation never touches it, and neither
    does a call that raises. *)
Theorem history_records_issuances (cs : list Call) :
  forall (e : DBIEngine.t) (w : World),
    challenge_history (snd (fst (run_calls cs e w)))
      = (challenge_history e ++ issued_in (fst (fst (run_calls cs e w))))%list.
Proof.
  induction cs as [|c cs IH]; intros e w; simpl.
  - by rewrite app_nil_r.
  - destruct (run_call c e w) as [[o e1] w1] eqn:Hc.
    specialize (IH e1 w1).
    destruct (run_calls cs e1 w1) as [[log e2] w2] eqn:Hcs. simpl in *.
    rewrite IH, (run_call_history _ _ _ _ _ _ Hc).
    destruct o as [[ch | r] | ex]; simpl; rewrite ?app_nil_r, <- ?app_assoc; done.
Qed.

Lemma run_call_wf c (e : DBIEngine.t) w o e' w' :
  engine_wf e -> run_call c e w = (o, e', w') -> engine_wf e'.
Proof.
  intros [Hkeys Hsize] Hrun. apply run_call_effect in Hrun.
  destruct c as [uc | id rd].
  - destruct Hrun as [(ex & _ & ->) | (ch & _ & ->)]; [done|].
    split; simpl.
    + intros id ch' Hl.
      destruct (decide (DBIChallenge.challenge_id ch = id)) as [<- | Hne].
      * rewrite lookup_insert_eq in Hl. injection Hl as <-.
        split; [done|]. apply elem_of_app. right. by apply list_elem_of_singleton.
      * rewrite lookup_insert_ne in Hl by done.
        destruct (Hkeys id ch' Hl) as [? ?]. split; [done|].
        apply elem_of_app. by left.
    + rewrite map_size_insert, length_app. simpl.
      destruct (active_challenges e !! DBIChallenge.challenge_id ch); simpl; lia.
  - destruct Hrun as [_ [-> | ->]]; [done|]. split; simpl.
    + intros id' ch' Hl.
      destruct (decide (id = id')) as [<- | Hne].
      * rewrite lookup_delete_eq in Hl. discriminate.
      * rewrite lookup_delete_ne in Hl by done. by apply Hkeys.
    + rewrite map_size_delete.
      destruct (active_challenges e !! id); simpl; lia.
Qed.

(** X2: whatever calls an engine has served since it was created, in
    whatever world, every active challenge is filed under its own id and
    is in the history, and the active set is no larger than the
    history. *)
Theorem engine_stays_well_formed (cs : list Call) (w : World) :
  let e := snd (fst (run_calls cs DBIEngine.init w)) in
  (forall id ch, active_challenges e !! id = Some ch ->
     DBIChallenge.challenge_id ch = id /\ ch ∈ challenge_history e) /\
  (size (active_challenges e) <= length (challenge_history e))%nat.
Proof.
  assert (Hgen : forall e w0, engine_wf e ->
            engine_wf (snd (fst (run_calls cs e w0)))).
  { induction cs as [|c cs IH]; intros e w0 Hwf; simpl; [done|].
    destruct (run_call c e w0) as [[o e1] w1] eqn:Hc.
    specialize (IH e1 w1 (run_call_wf _ _ _ _ _ _ Hwf Hc)).
    destruct (run_calls cs e1 w1) as [[log e2] w2]. done. }
  apply (Hgen DBIEngine.init w). split; simpl.
  - intros id ch Hl. rewrite lookup_empty in Hl. discriminate.
  - rewrite map_size_empty. lia.
Qed.

Lemma make_instruction_template c :
  returns_with (make_instruction c) (instruction_template c).
Proof.
  destruct c; unfold make_instruction; cbv zeta.
  - eapply returns_with_bind.
    { apply (returns_with_replicate 3), (returns_with_randint 10 99). lia. }
    intros numbers [Hlen Hall].
    destruct numbers as [|n1 [|n2 [|n3 [|]]]]; try discriminate.
    inversion Hall as [|? ? H1 Hall1]; subst.
    inversion Hall1 as [|? ? H2 Hall2]; subst.
    inversion Hall2 as [|? ? H3 _]; subst.
    eapply returns_with_bind; [apply returns_with_choice; discriminate|].
    intros direction Hd. apply returns_with_ret.
    exists n1, n2, n3, direction. done.
  - eapply returns_with_bind; [apply returns_with_choice; discriminate|].
    intros phrase Hp.
    eapply returns_with_bind; [apply returns_with_choice; discriminate|].
    intros gesture Hg. apply returns_with_ret. exists phrase, gesture. done.
  - by apply returns_with_ret.
  - eapply returns_with_bind; [apply returns_with_choice; discriminate|].
    intros action Ha. apply returns_with_ret. exists action. done.
Qed.

Lemma generate_challenge_shape uc :
  returns_with (generate_challenge uc)
    (fun ch =>
       (exists (now : Q) (suffix : Z),
          (1000 <= suffix <= 9999)%Z /\
          DBIChallenge.challenge_id ch
            = "dbi_" +:+ str_of_int (int_of_float now) +:+ "_"
              +:+ str_of_int suffix) /\
       DBIChallenge.challenge_type ch ∈ ChallengeType_members /\
       instruction_template (DBIChallenge.challenge_type ch)
         (DBIChallenge.instruction ch) /\
       (6 <= DBIChallenge.expected_duration ch)%Q /\
       (DBIChallenge.expected_duration ch <= 15)%Q /\
       DBIChallenge.validation_criteria ch = PyDict [("generated", PyBool true)]).
Proof.
  unfold generate_challenge.
  eapply returns_with_bind; [apply returns_with_choice; discriminate|].
  intros challenge_type Hty.
  eapply returns_with_bind; [apply returns_with_time|]. intros now _.
  eapply returns_with_bind; [apply (returns_with_randint 1000 9999); lia|].
  intros suffix Hsuf. cbv zeta.
  eapply returns_with_bind; [apply make_instruction_template|].
  intros instruction Hins.
  eapply returns_with_bind; [apply (returns_with_uniform 6.0 15.0); lra|].
  intros d [Hlo Hhi].
  eapply returns_with_bind; [apply returns_with_time|]. intros ts _.
  eapply returns_with_bind.
  { unfold set_active.
    eapply returns_with_bind; [apply returns_with_get|].
    intros self _. apply returns_with_put. }
  intros _ _.
  eapply returns_with_bind.
  { unfold append_history.
    eapply returns_with_bind; [apply returns_with_get|].
    intros self _. apply returns_with_put. }
  intros _ _. apply returns_with_ret. simpl.
  split; [exists now, suffix; split; [exact Hsuf | reflexivity]|].
  split; [exact Hty|]. split; [done|].
  split; [lra|]. split; [lra|done].
Qed.

(** *** The tape cells an issuance reads *)

Lemma keeps_clock_ret {St A} (a : A) : keeps_clock (@ret St A a).
Proof. intros s w. done. Qed.

Lemma keeps_clock_raise {St A} e : keeps_clock (@raise St A e).
Proof. intros s w. done. Qed.

Lemma keeps_clock_random {St} : keeps_clock (@random_random St).
Proof. intros s w. done. Qed.

Lemma keeps_clock_bind {St A B} (m : Eff St A) (f : A -> Eff St B) :
  keeps_clock m -> (forall a, keeps_clock (f a)) -> keeps_clock (bind m f).
Proof.
  intros Hm Hf s w. unfold bind. specialize (Hm s w).
  destruct (m s w) as [[[a|e] s1] w1]; simpl in *; [|done].
  destruct (Hf a s1 w1) as [-> ->]. done.
Qed.

Create HintDb clock.
#[local] Hint Resolve keeps_clock_ret keeps_clock_raise keeps_clock_random
  : clock.

Lemma keeps_clock_uniform {St} a b : keeps_clock (@random_uniform St a b).
Proof. apply keeps_clock_bind; auto with clock. Qed.

Lemma keeps_clock_randbelow {St} n : keeps_clock (@randbelow St n).
Proof. apply keeps_clock_bind; auto with clock. Qed.

Lemma keeps_clock_randint {St} a b : keeps_clock (@random_randint St a b).
Proof.
  apply keeps_clock_bind; auto using keeps_clock_randbelow with clock.
Qed.

Lemma keeps_clock_choice {St A} (l : list A) : keeps_clock (@random_choice St A l).
Proof.
  unfold random_choice. destruct l as [|x l]; [auto with clock|].
  apply keeps_clock_bind; [apply keeps_clock_randbelow|].
  intros k. destruct (list_getitem (x :: l) k); auto with clock.
Qed.

Lemma keeps_clock_replicate {St A} n (m : Eff St A) :
  keeps_clock m -> keeps_clock (replicate_eff n m).
Proof.
  intros Hm. induction n as [|n IH]; simpl; [auto with clock|].
  apply keeps_clock_bind; [done|]. intros x.
  apply keeps_clock_bind; [done|]. auto with clock.
Qed.

#[local] Hint Resolve keeps_clock_uniform keeps_clock_randbelow
  keeps_clock_randint keeps_clock_choice keeps_clock_replicate : clock.

Lemma keeps_clock_make_instruction c : keeps_clock (make_instruction c).
Proof.
  destruct c; unfold make_instruction; cbv zeta;
    repeat first [ solve [auto with clock]
                 | apply keeps_clock_bind; [|intros ?] ].
Qed.

Lemma time_time_inv {St} (s : St) w t s' w' :
  time_time s w = (Returns t, s', w') ->
  clock w (clock_pos w) = Returns t /\ s' = s /\ w' = advance_clock w.
Proof. unfold time_time. intros [= -> <- <-]. done. Qed.

Lemma randbelow_inv {St} n (s : St) w k s' w' :
  randbelow n s w = (Returns k, s', w') ->
  exists u, rng w (rng_pos w) = Returns u /\ k = Qfloor (u * inject_Z n) /\
    s' = s /\ w' = advance_rng w.
Proof.
  unfold randbelow, random_random, bind, ret.
  destruct (rng w (rng_pos w)) as [u|ex]; [|discriminate].
  intros [= <- <- <-]. eauto.
Qed.

Lemma random_randint_inv {St} a b (s : St) w k s' w' :
  random_randint a b s w = (Returns k, s', w') ->
  exists u, rng w (rng_pos w) = Returns u /\
    k = (a + Qfloor (u * inject_Z (b - a + 1)))%Z /\
    s' = s /\ w' = advance_rng w.
Proof.
  unfold random_randint. intros H. apply bind_inv in H.
  destruct H as [(ex & _ & ?) | (k0 & s1 & w1 & Hm & H)]; [discriminate|].
  apply randbelow_inv in Hm. destruct Hm as (u & Hu & -> & -> & ->).
  unfold ret in H. injection H as <- <- <-. eauto.
Qed.

Lemma random_choice_inv {St A} (l : list A) (s : St) w x s' w' :
  random_choice l s w = (Returns x, s', w') ->
  exists u, rng w (rng_pos w) = Returns u /\
    list_getitem l (Qfloor (u * inject_Z (Z.of_nat (List.length l)))) = Some x /\
    s' = s /\ w' = advance_rng w.
Proof.
  unfold random_choice. destruct l as [|x0 l]; [discriminate|].
  intros H. apply bind_inv in H.
  destruct H as [(ex & _ & ?) | (k & s1 & w1 & Hm & H)]; [discriminate|].
  apply randbelow_inv in Hm. destruct Hm as (u & Hu & -> & -> & ->).
  destruct (list_getitem _ _) as [y|] eqn:Hy; [|discriminate].
  unfold ret in H. injection H as <- <- <-. eauto.
Qed.

(** An issuance that returns has read the first two cells of the random
    tape for the type and the suffix, and the first two cells of the
    clock for the id and the timestamp. *)
Lemma generate_challenge_readings uc (e : DBIEngine.t) w ch e' w' :
  generate_challenge uc e w = (Returns ch, e', w') ->
  exists (u0 now u1 stamp : Q),
    rng w (rng_pos w) = Returns u0 /\
    clock w (clock_pos w) = Returns now /\
    rng w (S (rng_pos w)) = Returns u1 /\
    clock w (S (clock_pos w)) = Returns stamp /\
    list_getitem ChallengeType_members (Qfloor (u0 * inject_Z 4))
      = Some (DBIChallenge.challenge_type ch) /\
    DBIChallenge.challenge_id ch
      = "dbi_" +:+ str_of_int (int_of_float now) +:+ "_"
        +:+ str_of_int (1000 + Qfloor (u1 * inject_Z 9000)) /\
    DBIChallenge.timestamp ch = stamp.
Proof.
  unfold generate_challenge. intros H.
  apply bind_inv in H.
  destruct H as [(ex & _ & ?) | (ct & s1 & w1 & Hm & H)]; [discriminate|].
  apply random_choice_inv in Hm. destruct Hm as (u0 & Hu0 & Hct & -> & ->).
  apply bind_inv in H.
  destruct H as [(ex & _ & ?) | (now & s1 & w1 & Hm & H)]; [discriminate|].
  apply time_time_inv in Hm. destruct Hm as (Hnow & -> & ->).
  apply bind_inv in H.
  destruct H as [(ex & _ & ?) | (suffix & s1 & w1 & Hm & H)]; [discriminate|].
  apply random_randint_inv in Hm. destruct Hm as (u1 & Hu1 & -> & -> & ->).
  cbv zeta in H. apply bind_inv in H.
  destruct H as [(ex & _ & ?) | (ins & s1 & w1 & Hm & H)]; [discriminate|].
  pose proof (keeps_clock_make_instruction ct e
                (advance_rng (advance_clock (advance_rng w)))) as [Hc1 Hp1].
  rewrite Hm in Hc1, Hp1. simpl in Hc1, Hp1.
  apply bind_inv in H.
  destruct H as [(ex & _ & ?) | (d & s2 & w2 & Hm2 & H)]; [discriminate|].
  pose proof (keeps_clock_uniform 6.0 15.0 s1 w1) as [Hc2 Hp2].
  rewrite Hm2 in Hc2, Hp2. simpl in Hc2, Hp2.
  apply bind_inv in H.
  destruct H as [(ex & _ & ?) | (stamp & s3 & w3 & Hm3 & H)]; [discriminate|].
  apply time_time_inv in Hm3. destruct Hm3 as (Hstamp & -> & ->).
  rewrite Hc2, Hp2, Hc1, Hp1 in Hstamp.
  unfold set_active, append_history, bind, get, put, ret in H.
  simpl in H. injection H as <- _ _.
  exists u0, now, u1, stamp. simpl. done.
Qed.


(** X4: in normal operation the instruction of an issued challenge
    follows the template of its type: for VISUAL_AUDIO three numbers
    between 10 and 99 joined by hyphens and one of the four corners, for
    COGNITIVE_MOTOR one of three phrases and one of three gestures, for
    EMOTIONAL_RESPONSE the fixed sentence, for ENVIRONMENTAL_CHECK one of
    three actions followed by " for environmental verification". *)
Theorem generate_challenge_instruction
    (user_context : option pyval) (e : DBIEngine.t) (w : World) :
  normal_world w ->
  exists (ch : DBIChallenge.t) (e' : DBIEngine.t) (w' : World),
    generate_challenge user_context e w = (Returns ch, e', w') /\
    match DBIChallenge.challenge_type ch with
    | VISUAL_AUDIO =>
        exists (n1 n2 n3 : Z) (direction : string),
          (10 <= n1 <= 99)%Z /\ (10 <= n2 <= 99)%Z /\ (10 <= n3 <= 99)%Z /\
          direction ∈ ["top-left"; "top-right"; "bottom-left"; "bottom-right"] /\
          DBIChallenge.instruction ch
            = "Say the numbers '"
              +:+ String.concat "-" (map str_of_int [n1; n2; n3])
              +:+ "' while looking at the " +:+ direction +:+ " corner"
    | COGNITIVE_MOTOR =>
        exists phrase gesture : string,
          phrase ∈ ["Bank of Baroda"; "TrustNet 360"; "Secure Banking"] /\
          gesture ∈ ["touch your nose"; "raise your right hand"; "nod twice"] /\
          DBIChallenge.instruction ch
            = "Type '" +:+ phrase +:+ "' then " +:+ gesture
    | EMOTIONAL_RESPONSE =>
        DBIChallenge.instruction ch
          = "Look naturally at the screen. A surprise image will appear briefly."
    | ENVIRONMENTAL_CHECK =>
        exists action : string,
          action ∈ ["Turn your head slowly left and right";
                    "Move slightly closer to the camera";
                    "Ensure good lighting on your face"] /\
          DBIChallenge.instruction ch
            = action +:+ " for environmental verification"
    end.
Proof.
  intros Hn.
  destruct (generate_challenge_shape user_context e w Hn)
    as (ch & e' & w' & Hg & _ & _ & _ & Hins & _).
  exists ch, e', w'. split; [done|].
  unfold instruction_template in Hins.
  destruct (DBIChallenge.challenge_type ch); exact Hins.
Qed.

(** X5: issuing a challenge and then validating its id is a round trip
    on the active set.  In normal operation the validation returns a
    verdict that carries the type of the challenge just issued, and the
    active set is then the one before the issuance without that id: the
    same set when the id was fresh.  The history keeps the challenge. *)
Theorem issue_then_validate_round_trip
    (user_context : option pyval) (response_data : pyval)
    (e : DBIEngine.t) (w : World) :
  normal_world w ->
  exists (ch : DBIChallenge.t) (e1 e2 : DBIEngine.t) (w1 w2 : World)
         (valid : bool) (confidence : Q),
    generate_challenge user_context e w = (Returns ch, e1, w1) /\
    validate_challenge_response (DBIChallenge.challenge_id ch) response_data
      e1 w1
      = (Returns (verdict valid confidence
                    (ChallengeType_value (DBIChallenge.challenge_type ch))),
         e2, w2) /\
    active_challenges e2
      = delete (DBIChallenge.challenge_id ch) (active_challenges e) /\
    (active_challenges e !! DBIChallenge.challenge_id ch = None ->
     active_challenges e2 = active_challenges e) /\
    challenge_history e2 = (challenge_history e ++ [ch])%list.
Proof.
  intros Hn.
  destruct (generate_challenge_issues user_context e w Hn)
    as (ch & e1 & w1 & Hg & Hn1 & Hact & _).
  destruct (normal_world_rng w1 (rng_pos w1) Hn1) as (u1 & H1 & _).
  destruct (normal_world_rng w1 (S (rng_pos w1)) Hn1) as (u2 & H2 & _).
  eexists ch, e1, _, w1, _, _, _. split; [exact Hg|].
  split; [apply (validate_active e1 w1 _ response_data ch u1 u2); done|].
  apply generate_challenge_effect in Hg.
  destruct Hg as [(? & ? & _) | (ch' & [= <-] & ->)]; [discriminate|].
  simpl. rewrite delete_insert_eq. split; [done|]. split; [|done].
  intros Hfresh. by apply delete_id.
Qed.

(** X6: a [generate_challenge] that raises has stored and logged
    nothing: the engine is exactly what it was. *)
Theorem generate_challenge_raise_leaves_engine
    (user_context : option pyval) (e e' : DBIEngine.t) (w w' : World)
    (ex : Exception) :
  generate_challenge user_context e w = (Raises ex, e', w') ->
  e' = e.
Proof.
  intros Hg. apply generate_challenge_effect in Hg.
  destruct Hg as [(? & _ & ->) | (? & ? & _)]; [done | discriminate].
Qed.

(** X7: a validation that raises has consumed nothing.  When the id is
    active and one of the two draws raises, the call raises that
    exception and the engine is exactly what it was, so the challenge can
    still be validated by a later call. *)
Theorem validate_raise_keeps_challenge
    (e : DBIEngine.t) (w : World) (challenge_id : string)
    (challenge : DBIChallenge.t) (response_data : pyval) (ex : Exception) :
  active_challenges e !! challenge_id = Some challenge ->
  rng w (rng_pos w) = Raises ex \/
  (exists u, rng w (rng_pos w) = Returns u) /\
  rng w (S (rng_pos w)) = Raises ex ->
  fst (fst (validate_challenge_response challenge_id response_data e w))
    = Raises ex /\
  snd (fst (validate_challenge_response challenge_id response_data e w)) = e /\
  forall (w' : World) (later_data : pyval) (u1 u2 : Q),
    rng w' (rng_pos w') = Returns u1 ->
    rng w' (S (rng_pos w')) = Returns u2 ->
    exists (r : pyval) (e2 : DBIEngine.t) (w2 : World),
      validate_challenge_response challenge_id later_data
        (snd (fst (validate_challenge_response challenge_id response_data e w)))
        w' = (Returns r, e2, w2) /\
      is_verdict r = true.
Proof.
  intros Hact Hfault.
  assert (Hrun : fst (fst (validate_challenge_response challenge_id
                             response_data e w)) = Raises ex /\
                 snd (fst (validate_challenge_response challenge_id
                             response_data e w)) = e).
  { unfold validate_challenge_response, del_active, random_uniform,
      random_random, bind, get, put, ret. simpl. rewrite Hact.
    destruct Hfault as [H1 | [[u H1] H2]]; rewrite H1; simpl; [done|].
    rewrite H2. done. }
  destruct Hrun as [Hr He]. split; [done|]. split; [done|].
  intros w' later_data u1 u2 H1 H2. rewrite He.
  rewrite (validate_active e w' challenge_id later_data challenge u1 u2)
    by done.
  eexists _, _, _. split; reflexivity.
Qed.

(** X8: an issuance whose id is already active replaces the earlier
    challenge.  The active set keeps its size, the id now leads to the new
    challenge, and the next validation of that id is answered for the new
    challenge and leaves neither of the two active. *)
Theorem colliding_issuance_replaces
    (user_context : option pyval) (response_data : pyval)
    (e e1 : DBIEngine.t) (w w1 : World) (old new : DBIChallenge.t)
    (u1 u2 : Q) :
  generate_challenge user_context e w = (Returns new, e1, w1) ->
  active_challenges e !! DBIChallenge.challenge_id new = Some old ->
  rng w1 (rng_pos w1) = Returns u1 ->
  rng w1 (S (rng_pos w1)) = Returns u2 ->
  size (active_challenges e1) = size (active_challenges e) /\
  active_challenges e1 !! DBIChallenge.challenge_id new = Some new /\
  exists (e2 : DBIEngine.t) (w2 : World) (valid : bool) (confidence : Q),
    validate_challenge_response (DBIChallenge.challenge_id new) response_data
      e1 w1
      = (Returns (verdict valid confidence
                    (ChallengeType_value (DBIChallenge.challenge_type new))),
         e2, w2) /\
    active_challenges e2 !! DBIChallenge.challenge_id new = None /\
    size (active_challenges e2) = pred (size (active_challenges e)).
Proof.
  intros Hg Hold H1 H2.
  apply generate_challenge_effect in Hg.
  destruct Hg as [(? & ? & _) | (ch' & [= <-] & ->)]; [discriminate|].
  simpl. split; [rewrite map_size_insert, Hold; done|].
  split; [apply lookup_insert_eq|].
  eexists _, _, _, _. split.
  { apply (validate_active _ w1 _ response_data new u1 u2); [|done|done].
    simpl. apply lookup_insert_eq. }
  simpl. split; [apply lookup_delete_eq|].
  rewrite delete_insert_eq, map_size_delete, Hold. done.
Qed.

(** X9: an active challenge never expires.  Through any sequence of
    calls, in any world, in which its id is neither validated nor issued
    again, the challenge stays in the active set, however many other
    challenges are issued and validated and however long
    [expected_duration] has passed. *)
Theorem unvalidated_challenge_stays_active
    (challenge_id : string) (challenge : DBIChallenge.t) (cs : list Call) :
  forall (e : DBIEngine.t) (w : World),
    active_challenges e !! challenge_id = Some challenge ->
    Forall (fun entry => validates challenge_id entry = false /\
                         issues challenge_id entry = false)
      (fst (fst (run_calls cs e w))) ->
    active_challenges (snd (fst (run_calls cs e w))) !! challenge_id
      = Some challenge.
Proof.
  induction cs as [|c cs IH]; intros e w Hact Hlog; simpl in *; [done|].
  destruct (run_call c e w) as [[o e1] w1] eqn:Hc.
  specialize (IH e1 w1).
  destruct (run_calls cs e1 w1) as [[log e2] w2] eqn:Hcs. simpl in *.
  inversion Hlog as [|? ? [Hval Hiss] Htl]; subst.
  apply IH; [|done]. clear IH Htl.
  apply run_call_effect in Hc. destruct c as [uc | id rd].
  - destruct Hc as [(ex & -> & ->) | (ch & -> & ->)]; [done|].
    simpl in *. apply String.eqb_neq in Hiss.
    by rewrite lookup_insert_ne.
  - simpl in Hval. apply String.eqb_neq in Hval.
    destruct Hc as [_ [-> | ->]]; [done|]. simpl.
    by rewrite lookup_delete_ne.
Qed.

(** * Further properties of the processor and the calculator *)

Lemma rng_pos_offsets (w : World) :
  (rng_pos w + 0 = rng_pos w /\ rng_pos w + 1 = S (rng_pos w) /\
   rng_pos w + 2 = S (S (rng_pos w)) /\
   rng_pos w + 3 = S (S (S (rng_pos w))))%nat.
Proof. lia. Qed.

(** X10: [process_frame] always answers when the clock can be read,
    whatever the generator does, and leaves the processor untouched.  Its
    answer is stamped with that clock reading and is either a reading
    whose measures lie in [68, 85], [0.85, 0.95], [0.05, 0.15] and
    [0.88, 0.96] with the face detected, when the four draws return, or
    the fixed fallback (75, detected, 0.8, 0.1, 0.9), when one of them
    raises.  The two are told apart by the confidence: a fallback has
    0.8, below every drawn confidence. *)
Theorem process_frame_reading_or_fallback
    (frame_data : string) (p : BiometricProcessor.t) (w : World) :
  clock_sound_world w ->
  exists (r : BiometricResult.t) (w' : World) (t : Q),
    BiometricProcessor.process_frame frame_data p w = (Returns r, p, w') /\
    clock w (clock_pos w) = Returns t /\
    BiometricResult.timestamp r = t /\
    ((forall j, (j < 4)%nat -> exists u, rng w (rng_pos w + j) = Returns u) ->
     reading_in_range r) /\
    ((exists j e, (j < 4)%nat /\ rng w (rng_pos w + j) = Raises e) ->
     r = fallback_reading t) /\
    (reading_in_range r \/ r = fallback_reading t) /\
    ~ (reading_in_range r /\ r = fallback_reading t).
Proof.
  intros [Hr Hc]. destruct (Hc (clock_pos w)) as [t Ht].
  destruct (rng_pos_offsets w) as (P0 & P1 & P2 & P3).
  assert (Hexcl : forall r, ~ (reading_in_range r /\ r = fallback_reading t)).
  { intros r [(_ & _ & _ & Hconf & _) ->]. simpl in Hconf. lra. }
  unfold BiometricProcessor.process_frame, try_except, random_uniform,
    random_random, time_time, bind, ret. simpl.
  destruct (rng w (rng_pos w)) as [u0|e0] eqn:E0; simpl.
  2:{ rewrite Ht. eexists _, _, t. split; [reflexivity|].
      split; [done|]. split; [done|].
      split; [|split; [done|split; [by right | apply Hexcl]]].
      intros Hall. destruct (Hall 0%nat ltac:(lia)) as [u Hu].
      rewrite P0 in Hu. congruence. }
  destruct (rng w (S (rng_pos w))) as [u1|e1] eqn:E1; simpl.
  2:{ rewrite Ht. eexists _, _, t. split; [reflexivity|].
      split; [done|]. split; [done|].
      split; [|split; [done|split; [by right | apply Hexcl]]].
      intros Hall. destruct (Hall 1%nat ltac:(lia)) as [u Hu].
      rewrite P1 in Hu. congruence. }
  destruct (rng w (S (S (rng_pos w)))) as [u2|e2] eqn:E2; simpl.
  2:{ rewrite Ht. eexists _, _, t. split; [reflexivity|].
      split; [done|]. split; [done|].
      split; [|split; [done|split; [by right | apply Hexcl]]].
      intros Hall. destruct (Hall 2%nat ltac:(lia)) as [u Hu].
      rewrite P2 in Hu. congruence. }
  destruct (rng w (S (S (S (rng_pos w))))) as [u3|e3] eqn:E3; simpl.
  2:{ rewrite Ht. eexists _, _, t. split; [reflexivity|].
      split; [done|]. split; [done|].
      split; [|split; [done|split; [by right | apply Hexcl]]].
      intros Hall. destruct (Hall 3%nat ltac:(lia)) as [u Hu].
      rewrite P3 in Hu. congruence. }
  rewrite Ht. simpl.
  destruct (Hr _ _ E0), (Hr _ _ E1), (Hr _ _ E2), (Hr _ _ E3).
  assert (Hrange : reading_in_range
            (BiometricResult.mk (68 + (85 - 68) * u0) true
               (0.85 + (0.95 - 0.85) * u1) (0.05 + (0.15 - 0.05) * u2)
               (0.88 + (0.96 - 0.88) * u3) t)).
  { unfold reading_in_range. simpl. repeat split; lra. }
  eexists _, _, t. split; [reflexivity|].
  split; [done|]. split; [done|]. split; [done|].
  split; [|split; [by left | apply Hexcl]].
  intros (j & e & Hj & Hraise).
  destruct j as [|[|[|[|j]]]]; try lia;
    rewrite ?P0, ?P1, ?P2, ?P3 in Hraise; congruence.
Qed.

(** One call in normal operation, with everything it leaves behind. *)
Lemma calculate_normal bd (st : TrustCalculator.t) (w : World) :
  normal_world w ->
  exists u1 u2 u3 ts,
    rng w (rng_pos w) = Returns u1 /\ (0 <= u1)%Q /\ (u1 < 1)%Q /\
    rng w (S (rng_pos w)) = Returns u2 /\
    rng w (S (S (rng_pos w))) = Returns u3 /\ (0 <= u3)%Q /\ (u3 < 1)%Q /\
    clock w (clock_pos w) = Returns ts /\
    let r := normal_score (current_score st) u1 u2 u3 ts in
    let h := (score_history st ++ [r])%list in
    calculate_trust_score bd st w =
      (Returns r,
       TrustCalculator.mk
         (0.7 * current_score st + 0.3 * (70 + (90 - 70) * u1))%Q
         (if (100 <? List.length h)%nat then tail h else h),
       advance_clock (advance_rng (advance_rng (advance_rng w)))).
Proof.
  intros Hn.
  destruct (normal_world_rng w (rng_pos w) Hn) as (u1 & H1 & Hlo1 & Hhi1).
  destruct (normal_world_rng w (S (rng_pos w)) Hn) as (u2 & H2 & _).
  destruct (normal_world_rng w (S (S (rng_pos w))) Hn) as (u3 & H3 & Hlo3 & Hhi3).
  destruct (normal_world_clock w (clock_pos w) Hn) as (ts & Ht).
  exists u1, u2, u3, ts. repeat (split; [done|]).
  unfold calculate_trust_score, try_except, calculate_trust_score_body,
    set_current_score, record_history, random_uniform, random_random,
    time_time, bind, get, put, ret.
  simpl. rewrite H1. simpl. unfold normal_score.
  set (v := (0.7 * current_score st + 0.3 * (70 + (90 - 70) * u1))%Q).
  destruct (Qgeb v 85) eqn:E85; [|destruct (Qgeb v 65) eqn:E65];
    simpl; rewrite H2; simpl; rewrite H3; simpl; rewrite Ht; simpl;
    destruct (Qltb v 80), (Qltb u2 0.2); reflexivity.
Qed.

Lemma normal_world_after_score (w : World) :
  normal_world w ->
  normal_world (advance_clock (advance_rng (advance_rng (advance_rng w)))).
Proof.
  intros Hn. apply normal_world_advance_clock.
  by do 3 apply normal_world_advance_rng.
Qed.

(** The window that the history keeps of the scores returned so far. *)
Lemma history_window_step (all h : list TrustScore.t) (r : TrustScore.t) :
  h = drop (length all - 100) all ->
  (if (100 <? length (h ++ [r]))%nat then tail (h ++ [r]) else (h ++ [r])%list)
    = drop (length (all ++ [r]) - 100) (all ++ [r]).
Proof.
  intros ->. rewrite !length_app, length_drop. simpl.
  destruct (decide (length all < 100)%nat) as [Hlt | Hge].
  - replace (length all - 100)%nat with 0%nat by lia. simpl.
    replace (length all + 1 - 100)%nat with 0%nat by lia. simpl.
    destruct (100 <? length all - 0 + 1)%nat eqn:E; [|done].
    apply Nat.ltb_lt in E. lia.
  - destruct (100 <? length all - (length all - 100) + 1)%nat eqn:E.
    2:{ apply Nat.ltb_ge in E. lia. }
    replace (length all + 1 - 100)%nat with (S (length all - 100)) by lia.
    rewrite <- (drop_app_le all [r]) by lia.
    generalize (length all - 100)%nat. intros k.
    change (S k) with (1 + k)%nat. rewrite Nat.add_comm, <- drop_drop.
    by destruct (drop k (all ++ [r])).
Qed.

Lemma run_scores_window (requests : list pyval) :
  forall (prev : list TrustScore.t) (st : TrustCalculator.t) (w : World),
    normal_world w ->
    score_history st = drop (length prev - 100) prev ->
    exists scores,
      fst (fst (run_scores requests st w)) = map Returns scores /\
      length scores = length requests /\
      score_history (snd (fst (run_scores requests st w)))
        = drop (length (prev ++ scores) - 100) (prev ++ scores).
Proof.
  induction requests as [|bd requests IH]; intros prev st w Hn Hh; simpl.
  - exists []. by rewrite app_nil_r.
  - destruct (calculate_normal bd st w Hn)
      as (u1 & u2 & u3 & ts & _ & _ & _ & _ & _ & _ & _ & _ & Hc).
    cbv zeta in Hc. rewrite Hc.
    set (r := normal_score (current_score st) u1 u2 u3 ts) in *.
    match goal with
    | |- context [run_scores requests ?st1 ?w1] =>
        destruct (IH (prev ++ [r])%list st1 w1) as (scores & Hrs & Hlen & Hhist);
          [by apply normal_world_after_score
          |simpl; by apply history_window_step|];
        destruct (run_scores requests st1 w1) as [[os st2] w2]
    end.
    simpl in *. exists (r :: scores). split; [by rewrite Hrs|].
    split; [simpl; by rewrite Hlen|].
    by rewrite Hhist, <- app_assoc.
Qed.

(** X11: the history is a sliding window of the last hundred returned
    scores.  After any number of requests served in normal operation by a
    fresh calculator, every request has returned a score and the history
    is the list of those scores in order, without the oldest ones once
    there are more than a hundred. *)
Theorem score_history_keeps_last_hundred (requests : list pyval) (w : World) :
  normal_world w ->
  exists scores : list TrustScore.t,
    fst (fst (run_scores requests TrustCalculator.init w))
      = map Returns scores /\
    length scores = length requests /\
    score_history (snd (fst (run_scores requests TrustCalculator.init w)))
      = drop (length scores - 100) scores /\
    length (score_history
              (snd (fst (run_scores requests TrustCalculator.init w))))
      = Nat.min (length requests) 100.
Proof.
  intros Hn.
  destruct (run_scores_window requests [] TrustCalculator.init w Hn eq_refl)
    as (scores & Hrs & Hlen & Hhist).
  simpl in Hhist. exists scores. repeat (split; [done|]).
  rewrite Hhist, length_drop. lia.
Qed.

(** Rounding never crosses an integer. *)
Lemma round_half_even_ge (n : Z) (x : Q) :
  (inject_Z n <= x)%Q -> (n <= round_half_even x)%Z.
Proof.
  intros Hx. unfold round_half_even.
  assert (Hf : (n <= Qfloor x)%Z).
  { rewrite <- (Qfloor_Z n). by apply Qfloor_resp_le. }
  destruct (x - inject_Z (Qfloor x) ?= 1 # 2)%Q; [destruct (Z.even _)| |]; lia.
Qed.

Lemma round_half_even_le (n : Z) (x : Q) :
  (x <= inject_Z n)%Q -> (round_half_even x <= n)%Z.
Proof.
  intros Hx. unfold round_half_even.
  pose proof (Qfloor_le x) as Hlo.
  assert (Hf : (Qfloor x <= n)%Z) by (rewrite Zle_Qle; lra).
  set (f := Qfloor x) in *.
  assert (Hup : (1 # 2 <= x - inject_Z f)%Q -> (f + 1 <= n)%Z).
  { intros Hr. assert (Hlt : (f < n)%Z) by (rewrite Zlt_Qlt; lra). lia. }
  destruct (x - inject_Z f ?= 1 # 2)%Q eqn:E.
  - apply Qeq_alt in E. destruct (Z.even f); [done|]. apply Hup. lra.
  - done.
  - apply Qgt_alt in E. apply Hup. lra.
Qed.

Lemma round1_band (x : Q) :
  (70 <= x)%Q -> (x <= 90)%Q -> (70 <= round1 x)%Q /\ (round1 x <= 90)%Q.
Proof.
  intros Hlo Hhi. unfold round1.
  assert (H1 : (700 <= round_half_even (x * 10))%Z)
    by (apply round_half_even_ge; change (inject_Z 700) with 700%Q; lra).
  assert (H2 : (round_half_even (x * 10) <= 900)%Z)
    by (apply round_half_even_le; change (inject_Z 900) with 900%Q; lra).
  rewrite Zle_Qle in H1, H2.
  change (inject_Z 700) with 700%Q in H1.
  change (inject_Z 900) with 900%Q in H2.
  set (n := inject_Z (round_half_even (x * 10))) in *.
  change (n / 10)%Q with (n * (1 # 10))%Q. split; lra.
Qed.

(** X12: a calculator whose stored value is in [70, 90), as that of a
    fresh calculator is, stays there.  After any number of requests
    served in normal operation the stored value is still in [70, 90),
    every returned score is between 70 and 90, and its level is HIGH or
    MEDIUM: the LOW level and REQUIRE_ADDITIONAL_VERIFICATION are never
    returned. *)
Theorem trust_score_stays_in_band
    (requests : list pyval) (st : TrustCalculator.t) (w : World) :
  normal_world w ->
  (70 <= current_score st)%Q -> (current_score st < 90)%Q ->
  exists scores : list TrustScore.t,
    fst (fst (run_scores requests st w)) = map Returns scores /\
    Forall (fun r =>
              (TrustScore.trust_level r = "HIGH" /\
               TrustScore.recommended_action r = "ALLOW_SEAMLESS" \/
               TrustScore.trust_level r = "MEDIUM" /\
               TrustScore.recommended_action r = "ALLOW_WITH_MONITORING") /\
              (70 <= TrustScore.current_score r)%Q /\
              (TrustScore.current_score r <= 90)%Q) scores /\
    (70 <= current_score (snd (fst (run_scores requests st w))))%Q /\
    (current_score (snd (fst (run_scores requests st w))) < 90)%Q.
Proof.
  revert st w. induction requests as [|bd requests IH];
    intros st w Hn Hlo Hhi; simpl.
  - exists []. split; [done|]. split; [constructor | done].
  - destruct (calculate_normal bd st w Hn)
      as (u1 & u2 & u3 & ts & _ & Hu0 & Hu1 & _ & _ & _ & _ & _ & Hc).
    cbv zeta in Hc. rewrite Hc.
    set (v := (0.7 * current_score st + 0.3 * (70 + (90 - 70) * u1))%Q) in *.
    assert (Hv : (70 <= v)%Q /\ (v < 90)%Q) by (subst v; split; lra).
    destruct Hv as [Hvlo Hvhi].
    match goal with
    | |- context [run_scores requests ?st1 ?w1] =>
        destruct (IH st1 w1) as (scores & Hrs & Hall & Hlo' & Hhi');
          [by apply normal_world_after_score | done | done |];
        destruct (run_scores requests st1 w1) as [[os st2] w2]
    end.
    simpl in *. eexists (_ :: scores). split; [by rewrite Hrs|].
    split; [|done]. constructor; [|done].
    unfold normal_score. fold v. simpl.
    split; [|apply round1_band; lra].
    destruct (Qgeb v 85) eqn:E85; [by left|].
    destruct (Qgeb v 65) eqn:E65; [by right|].
    apply Qgeb_false in E65. lra.
Qed.

(** X14: the fields of a score returned in normal operation agree with
    each other.  The risk factors are one of four lists, the confidence
    lies in [0.80, 0.95], a HIGH score never lists "Behavioral pattern
    variation detected" and a LOW score always does. *)
Theorem trust_score_fields_consistent
    (st : TrustCalculator.t) (w : World) (behavioral_data : pyval) :
  normal_world w ->
  exists (r : TrustScore.t) (st' : TrustCalculator.t) (w' : World),
    calculate_trust_score behavioral_data st w = (Returns r, st', w') /\
    (TrustScore.risk_factors r = ["Behavioral pattern variation detected"] \/
     TrustScore.risk_factors r
       = ["Behavioral pattern variation detected"; "New device fingerprint"] \/
     TrustScore.risk_factors r = ["New device fingerprint"] \/
     TrustScore.risk_factors r = ["All metrics within normal range"]) /\
    (0.80 <= TrustScore.confidence r)%Q /\
    (TrustScore.confidence r <= 0.95)%Q /\
    (TrustScore.trust_level r = "HIGH" ->
     ~ In "Behavioral pattern variation detected" (TrustScore.risk_factors r)) /\
    (TrustScore.trust_level r = "LOW" ->
     In "Behavioral pattern variation detected" (TrustScore.risk_factors r)).
Proof.
  intros Hn.
  destruct (calculate_normal behavioral_data st w Hn)
    as (u1 & u2 & u3 & ts & _ & _ & _ & _ & _ & Hu0 & Hu1 & _ & Hc).
  cbv zeta in Hc. eexists _, _, _. split; [exact Hc|].
  unfold normal_score. simpl.
  set (v := (0.7 * current_score st + 0.3 * (70 + (90 - 70) * u1))%Q).
  split; [destruct (Qltb v 80), (Qltb u2 0.2); simpl; auto|].
  split; [lra|]. split; [lra|].
  destruct (Qgeb v 85) eqn:E85; [|destruct (Qgeb v 65) eqn:E65]; simpl.
  - apply Qgeb_spec in E85.
    assert (Qltb v 80 = false) as -> by (apply Qltb_false; lra).
    split; [|discriminate].
    intros _. destruct (Qltb u2 0.2); simpl; intros [H | []]; discriminate.
  - split; discriminate.
  - apply Qgeb_false in E65.
    assert (Qltb v 80 = true) as -> by (apply Qltb_spec; lra).
    split; [discriminate|]. intros _.
    destruct (Qltb u2 0.2); simpl; auto.
Qed.

(** X15: a fallback score is never recorded.  When the [try] block
    raises, the history is what it was, and so is the fallback the call
    returns in place; if it was the first draw that raised, the stored
    value is untouched as well. *)
Theorem fallback_score_not_recorded
    (st st1 : TrustCalculator.t) (w w1 : World) (behavioral_data : pyval)
    (e : Exception) :
  calculate_trust_score_body behavioral_data st w = (Raises e, st1, w1) ->
  score_history st1 = score_history st /\
  snd (fst (calculate_trust_score behavioral_data st w)) = st1 /\
  (forall e0, rng w (rng_pos w) = Raises e0 -> st1 = st).
Proof.
  intros Hb.
  assert (Hst : snd (fst (calculate_trust_score behavioral_data st w)) = st1).
  { rewrite (calculate_of_fault _ _ _ _ _ _ Hb).
    unfold calculate_trust_score_fallback, time_time, bind, ret.
    destruct (clock w1 (clock_pos w1)); reflexivity. }
  split; [|split; [exact Hst|]].
  - revert Hb.
    unfold calculate_trust_score_body, set_current_score, record_history,
      random_uniform, random_random, time_time, bind, get, put, ret.
    simpl. destruct (rng w (rng_pos w)) as [u1|e1]; simpl.
    2:{ intros [= <- <- <-]. done. }
    set (v := (0.7 * current_score st + 0.3 * (70 + (90 - 70) * u1))%Q).
    destruct (Qgeb v 85); [|destruct (Qgeb v 65)]; simpl;
      (destruct (rng w (S (rng_pos w))); simpl;
       [ destruct (rng w (S (S (rng_pos w)))); simpl;
         [ destruct (clock w (clock_pos w)); simpl;
           [ discriminate | intros [= <- <- <-]; done ]
         | intros [= <- <- <-]; done ]
       | intros [= <- <- <-]; done ]).
  - intros e0 H0. revert Hb.
    unfold calculate_trust_score_body, random_uniform, random_random, bind.
    simpl. rewrite H0. intros [= <- <- <-]. done.
Qed.

(** * Properties of the route handlers *)

Section RouteProperties.

Variable json_loads : string -> Outcome pyval.
Variable exception_str : Exception -> string.

Lemma stats_of_lookup (s c v : Z) :
  stats_of s c v !! "sessions" = Some s /\
  stats_of s c v !! "challenges" = Some c /\
  stats_of s c v !! "validations" = Some v.
Proof.
  unfold stats_of. split; [|split].
  - by rewrite lookup_insert_eq.
  - by rewrite lookup_insert_ne, lookup_insert_eq.
  - by rewrite 2!lookup_insert_ne, lookup_insert_eq.
Qed.

Lemma stats_of_incr_challenges (s c v : Z) :
  <["challenges" := (c + 1)%Z]> (stats_of s c v) = stats_of s (c + 1) v.
Proof.
  unfold stats_of. rewrite (insert_insert_ne _ "challenges" "sessions") by done.
  by rewrite insert_insert_eq.
Qed.

Lemma stats_of_incr_validations (s c v : Z) :
  <["validations" := (v + 1)%Z]> (stats_of s c v) = stats_of s c (v + 1).
Proof.
  unfold stats_of.
  rewrite (insert_insert_ne _ "validations" "sessions") by done.
  rewrite (insert_insert_ne _ "validations" "challenges") by done.
  by rewrite insert_insert_eq.
Qed.

(** A validation that raises leaves the engine as it was. *)
Lemma validate_raise_effect id rd (e : DBIEngine.t) w ex e' w' :
  validate_challenge_response id rd e w = (Raises ex, e', w') -> e' = e.
Proof.
  unfold validate_challenge_response, del_active, random_uniform,
    random_random, bind, get, put, ret, raise. simpl.
  destruct (active_challenges e !! id) eqn:E; [|discriminate].
  destruct (rng w (rng_pos w)); simpl.
  - destruct (rng w (S (rng_pos w))); simpl.
    + rewrite E. discriminate.
    + by intros [= _ <- _].
  - by intros [= _ <- _].
Qed.

(** What serving one request does to the counters and to the engine's
    history. *)
Lemma serve_effect r (app : App.t) w o app' w' (s c v : Z) :
  App.demo_stats app = stats_of s c v ->
  App.serve json_loads exception_str r app w = (o, app', w') ->
  App.demo_stats app'
    = stats_of s (c + one_if (App.answered_challenge (r, o)))
        (v + one_if (App.answered_validation (r, o))) /\
  Z.of_nat (length (challenge_history (App.dbi_engine app')))
    = (Z.of_nat (length (challenge_history (App.dbi_engine app)))
       + one_if (App.answered_challenge (r, o)))%Z.
Proof.
  intros Hstats Hserve.
  destruct (stats_of_lookup s c v) as (Hs & Hc & Hv).
  destruct r as [| id data | fd | |]; simpl in Hserve.
  - (* POST /api/vkyc/challenge *)
    unfold App.generate_challenge, try_except, bind, App.on_engine in Hserve.
    destruct (generate_challenge None (App.dbi_engine app) w)
      as [[og e1] w1] eqn:Hg.
    apply generate_challenge_effect in Hg.
    destruct Hg as [(ex & -> & ->) | (ch & -> & ->)].
    + injection Hserve as <- <- <-. simpl.
      rewrite !Z.add_0_r. destruct app; done.
    + unfold App.stats_incr, App.stats_get, bind, get, put, ret in Hserve.
      simpl in Hserve. rewrite Hstats, Hc in Hserve.
      injection Hserve as <- <- <-. simpl.
      rewrite stats_of_incr_challenges, Z.add_0_r, length_app. simpl.
      split; [done | lia].
  - (* POST /api/vkyc/validate *)
    unfold App.validate_response, try_except, bind, of_outcome, App.on_engine
      in Hserve.
    destruct (json_loads data) as [rd | ex].
    2:{ injection Hserve as <- <- <-. simpl. by rewrite !Z.add_0_r. }
    destruct (validate_challenge_response id rd (App.dbi_engine app) w)
      as [[[r | ex] e1] w1] eqn:Hval.
    + assert (challenge_history e1 = challenge_history (App.dbi_engine app))
        as Hh by (apply validate_effect in Hval; destruct Hval as [-> | ->];
                  done).
      unfold App.stats_incr, App.stats_get, bind, get, put, ret in Hserve.
      simpl in Hserve. rewrite Hstats, Hv in Hserve.
      injection Hserve as <- <- <-. simpl.
      rewrite stats_of_incr_validations, Z.add_0_r, Hh. split; [done | lia].
    + apply validate_raise_effect in Hval. subst e1.
      injection Hserve as <- <- <-. simpl.
      rewrite !Z.add_0_r. destruct app; done.
  - (* POST /api/biometric/process-frame *)
    unfold App.process_frame, try_except, bind, App.on_processor, time_time, ret
      in Hserve.
    destruct (BiometricProcessor.process_frame fd (App.biometric_processor app) w)
      as [[[r | ex] p1] w1].
    + injection Hserve as <- <- <-. simpl. by rewrite !Z.add_0_r.
    + destruct (clock w1 (clock_pos w1));
        injection Hserve as <- <- <-; simpl; by rewrite !Z.add_0_r.
  - (* GET /api/trust/current-score *)
    unfold App.get_trust_score, try_except, bind, App.on_calculator, time_time,
      ret in Hserve.
    destruct (calculate_trust_score (PyDict []) (App.trust_calculator app) w)
      as [[[r | ex] c1] w1].
    + injection Hserve as <- <- <-. simpl. by rewrite !Z.add_0_r.
    + destruct (clock w1 (clock_pos w1));
        injection Hserve as <- <- <-; simpl; by rewrite !Z.add_0_r.
  - (* GET /api/demo/stats *)
    unfold App.get_stats, App.stats_get, bind, get, ret in Hserve.
    simpl in Hserve. rewrite Hstats, Hs in Hserve. simpl in Hserve.
    rewrite Hstats, Hc in Hserve. simpl in Hserve.
    rewrite Hstats, Hv in Hserve.
    injection Hserve as <- <- <-. simpl. by rewrite !Z.add_0_r.
Qed.

Lemma count_entries_cons {A} (f : A -> bool) (x : A) (log : list A) :
  count_entries f (x :: log) = (one_if (f x) + count_entries f log)%Z.
Proof.
  unfold count_entries, one_if. simpl. destruct (f x); simpl; lia.
Qed.

Lemma serve_all_effect (rs : list App.Request) :
  forall (app : App.t) (w : World) (s c v : Z),
    App.demo_stats app = stats_of s c v ->
    let log := fst (fst (App.serve_all json_loads exception_str rs app w)) in
    let app' := snd (fst (App.serve_all json_loads exception_str rs app w)) in
    App.demo_stats app'
      = stats_of s (c + count_entries App.answered_challenge log)
          (v + count_entries App.answered_validation log) /\
    Z.of_nat (length (challenge_history (App.dbi_engine app')))
      = (Z.of_nat (length (challenge_history (App.dbi_engine app)))
         + count_entries App.answered_challenge log)%Z.
Proof.
  induction rs as [|r rs IH]; intros app w s c v Hstats; simpl.
  - unfold count_entries. simpl. by rewrite !Z.add_0_r.
  - destruct (App.serve json_loads exception_str r app w)
      as [[o app1] w1] eqn:Hserve.
    destruct (serve_effect _ _ _ _ _ _ _ _ _ Hstats Hserve) as [Hs1 Hh1].
    specialize (IH app1 w1 _ _ _ Hs1).
    destruct (App.serve_all json_loads exception_str rs app1 w1)
      as [[log app2] w2].
    cbn [fst snd] in *. destruct IH as [Hs2 Hh2].
    rewrite !count_entries_cons, Hs2, Hh2, Hh1.
    split; [f_equal; lia | lia].
Qed.

(** X16: the counters count the answered requests.  Whatever requests
    the application has served since start-up, in whatever world,
    ["challenges"] is the number of challenge requests answered with a
    body, which is also the length of the engine's history,
    ["validations"] is the number of validation requests answered with a
    body (not-found answers included, HTTP 500 answers excluded), and
    ["sessions"] is still 0; [get_stats] then returns exactly these,
    without raising. *)
Theorem counters_count_answered_requests
    (rs : list App.Request) (cascade_available : bool) (w : World) :
  let log :=
    fst (fst (App.serve_all json_loads exception_str rs
                (App.init cascade_available) w)) in
  let app :=
    snd (fst (App.serve_all json_loads exception_str rs
                (App.init cascade_available) w)) in
  let challenges := count_entries App.answered_challenge log in
  let validations := count_entries App.answered_validation log in
  App.demo_stats app = stats_of 0 challenges validations /\
  Z.of_nat (length (challenge_history (App.dbi_engine app))) = challenges /\
  forall w',
    App.get_stats app w'
      = (Returns (Responds (stats_body 0 challenges validations)), app, w').
Proof.
  cbv zeta.
  destruct (serve_all_effect rs (App.init cascade_available) w 0 0 0 eq_refl)
    as [Hs Hh].
  cbv zeta in Hs, Hh.
  set (log := fst (fst (App.serve_all json_loads exception_str rs
                          (App.init cascade_available) w))) in *.
  set (app := snd (fst (App.serve_all json_loads exception_str rs
                          (App.init cascade_available) w))) in *.
  change (Z.of_nat (length (challenge_history
                              (App.dbi_engine (App.init cascade_available)))))
    with 0%Z in Hh.
  set (challenges := count_entries App.answered_challenge log) in *.
  set (validations := count_entries App.answered_validation log) in *.
  change (0 + challenges)%Z with challenges in Hs, Hh.
  change (0 + validations)%Z with validations in Hs.
  split; [done|]. split; [done|].
  intros w'.
  destruct (stats_of_lookup 0 challenges validations) as (H1 & H2 & H3).
  unfold App.get_stats, App.stats_get, bind, get, ret.
  cbn beta iota. rewrite Hs, H1. cbn beta iota. rewrite Hs, H2.
  cbn beta iota. rewrite Hs, H3. reflexivity.
Qed.

(** X17: a validation request whose payload is not valid JSON is
    answered with HTTP 500 carrying the parser's message, before the
    engine is reached: the application and the world are exactly what
    they were, so no draw is made, the counter does not move and the
    challenge is not consumed.  A request for the same id that follows
    with a well-formed payload is still answered with the verdict, and
    only then is the challenge gone and ["validations"] one higher. *)
Theorem malformed_payload_keeps_challenge
    (challenge_id bad_data good_data : string) (app : App.t) (w : World)
    (ex : Exception) (payload : pyval) (challenge : DBIChallenge.t)
    (v : Z) (u1 u2 : Q) :
  json_loads bad_data = Raises ex ->
  json_loads good_data = Returns payload ->
  active_challenges (App.dbi_engine app) !! challenge_id = Some challenge ->
  App.demo_stats app !! "validations" = Some v ->
  rng w (rng_pos w) = Returns u1 ->
  rng w (S (rng_pos w)) = Returns u2 ->
  App.validate_response json_loads exception_str challenge_id bad_data app w
    = (Returns (HTTPException 500 (exception_str ex)), app, w) /\
  exists (valid : bool) (confidence : Q) (app' : App.t) (w' : World),
    App.validate_response json_loads exception_str challenge_id good_data
      app w
      = (Returns (Responds (PyBody
           (verdict valid confidence
              (ChallengeType_value (DBIChallenge.challenge_type challenge))))),
         app', w') /\
    active_challenges (App.dbi_engine app') !! challenge_id = None /\
    App.demo_stats app' !! "validations" = Some (v + 1)%Z.
Proof.
  intros Hbad Hgood Hact Hv H1 H2. split.
  - unfold App.validate_response, try_except, bind, of_outcome.
    rewrite Hbad. reflexivity.
  - unfold App.validate_response, try_except, bind, of_outcome, App.on_engine.
    rewrite Hgood, (validate_active _ _ _ _ _ u1 u2 Hact H1 H2).
    unfold App.stats_incr, App.stats_get, bind, get, put, ret. simpl.
    rewrite Hv. eexists _, _, _, _. split; [reflexivity|]. simpl.
    split; [apply lookup_delete_eq | apply lookup_insert_eq].
Qed.

(** X18: a validation request for an id that is not active is answered
    with a body, the not-found dict, not with an HTTP error; it counts
    in ["validations"] like an accepted one and changes nothing else. *)
Theorem validate_route_counts_rejections
    (challenge_id response_data : string) (app : App.t) (w : World)
    (payload : pyval) (v : Z) :
  json_loads response_data = Returns payload ->
  active_challenges (App.dbi_engine app) !! challenge_id = None ->
  App.demo_stats app !! "validations" = Some v ->
  App.validate_response json_loads exception_str challenge_id response_data
    app w
    = (Returns (Responds (PyBody not_found)),
       App.mk (App.dbi_engine app) (App.biometric_processor app)
         (App.trust_calculator app)
         (<["validations" := (v + 1)%Z]> (App.demo_stats app)),
       w).
Proof.
  intros Hjson Habs Hv.
  unfold App.validate_response, try_except, bind, of_outcome, App.on_engine.
  rewrite Hjson, (validate_not_active _ _ _ _ Habs).
  unfold App.stats_incr, App.stats_get, bind, get, put, ret. simpl.
  rewrite Hv. destruct (App.dbi_engine app). reflexivity.
Qed.

Lemma calculate_returns_if_clock bd (st : TrustCalculator.t) (w : World) :
  (forall k, exists t, clock w k = Returns t) ->
  exists r st' w', calculate_trust_score bd st w = (Returns r, st', w').
Proof.
  intros Hclock.
  destruct (calculate_body_cases bd st w)
    as [(u1 & u2 & u3 & ts & H1 & H2 & H3 & Ht)
       | (e & st1 & w1 & Hb & Hck & _)].
  - destruct (calculate_body_normal bd st w u1 u2 u3 ts H1 H2 H3 Ht)
      as (h & Hb).
    eexists _, _, _. apply calculate_of_body, Hb.
  - assert (exists t, clock w1 (clock_pos w1) = Returns t) as [t Ht]
      by (rewrite Hck; apply Hclock).
    eexists _, _, _. rewrite (calculate_of_fault _ _ _ _ _ _ Hb).
    unfold calculate_trust_score_fallback, time_time, bind, ret.
    rewrite Ht. reflexivity.
Qed.

Lemma process_frame_returns_if_clock fd (p : BiometricProcessor.t) (w : World) :
  (forall k, exists t, clock w k = Returns t) ->
  exists r w', BiometricProcessor.process_frame fd p w = (Returns r, p, w').
Proof.
  intros Hclock. destruct (Hclock (clock_pos w)) as [t Ht].
  unfold BiometricProcessor.process_frame, try_except, random_uniform,
    random_random, time_time, bind, ret. simpl.
  destruct (rng w (rng_pos w)); simpl;
    [|rewrite Ht; eexists _, _; reflexivity].
  destruct (rng w (S (rng_pos w))); simpl;
    [|rewrite Ht; eexists _, _; reflexivity].
  destruct (rng w (S (S (rng_pos w)))); simpl;
    [|rewrite Ht; eexists _, _; reflexivity].
  destruct (rng w (S (S (S (rng_pos w))))); simpl;
    [|rewrite Ht; eexists _, _; reflexivity].
  rewrite Ht. eexists _, _. reflexivity.
Qed.

(** X19: the fallback answers written in the two routes are not
    reachable while the clock can be read.  [get_trust_score] then
    answers with the fields of the score that [calculate_trust_score]
    returns, and the [process_frame] route with the fields of the reading
    that the method returns, the methods' own fallbacks included; the
    routes' "Demo mode active" score and 0.85-confidence reading are never
    sent, and neither route touches anything but its own component. *)
Theorem route_fallbacks_unreachable
    (frame_data : string) (app : App.t) (w : World) :
  (forall k, exists t, clock w k = Returns t) ->
  (exists (r : TrustScore.t) (c' : TrustCalculator.t) (w' : World),
     calculate_trust_score (PyDict []) (App.trust_calculator app) w
       = (Returns r, c', w') /\
     App.get_trust_score app w
       = (Returns (Responds (trust_score_body r)),
          App.mk (App.dbi_engine app) (App.biometric_processor app) c'
            (App.demo_stats app),
          w')) /\
  (exists (r : BiometricResult.t) (w' : World),
     BiometricProcessor.process_frame frame_data (App.biometric_processor app) w
       = (Returns r, App.biometric_processor app, w') /\
     App.process_frame frame_data app w
       = (Returns (Responds (reading_body r)), app, w')).
Proof.
  intros Hclock. split.
  - destruct (calculate_returns_if_clock (PyDict []) (App.trust_calculator app)
                w Hclock) as (r & c' & w' & Hc).
    exists r, c', w'. split; [done|].
    unfold App.get_trust_score, try_except, bind, App.on_calculator, ret.
    rewrite Hc. reflexivity.
  - destruct (process_frame_returns_if_clock frame_data
                (App.biometric_processor app) w Hclock) as (r & w' & Hp).
    exists r, w'. split; [done|].
    unfold App.process_frame, try_except, bind, App.on_processor, ret.
    rewrite Hp. destruct app. reflexivity.
Qed.

(** X20: the challenge route follows the engine.  When
    [generate_challenge] returns a challenge, the route answers with its
    id, type, instruction, expected duration and timestamp, the challenge
    is active in the engine and ["challenges"] has moved up by one; when
    it raises, the route answers HTTP 500 with the exception's text and
    the application is exactly what it was. *)
Theorem challenge_route_follows_engine (app : App.t) (w : World) (c : Z) :
  App.demo_stats app !! "challenges" = Some c ->
  match generate_challenge None (App.dbi_engine app) w with
  | (Returns ch, e', w') =>
      App.generate_challenge exception_str app w
        = (Returns (Responds (challenge_body ch)),
           App.mk e' (App.biometric_processor app) (App.trust_calculator app)
             (<["challenges" := (c + 1)%Z]> (App.demo_stats app)),
           w') /\
      active_challenges e' !! DBIChallenge.challenge_id ch = Some ch
  | (Raises ex, e', w') =>
      App.generate_challenge exception_str app w
        = (Returns (HTTPException 500 (exception_str ex)), app, w')
  end.
Proof.
  intros Hc.
  unfold App.generate_challenge, try_except, bind, App.on_engine.
  destruct (generate_challenge None (App.dbi_engine app) w)
    as [[[ch | ex] e'] w'] eqn:Hg.
  - unfold App.stats_incr, App.stats_get, bind, get, put, ret. simpl.
    rewrite Hc. split; [reflexivity|].
    apply generate_challenge_effect in Hg.
    destruct Hg as [(? & ? & _) | (ch' & [= <-] & ->)]; [discriminate|].
    simpl. apply lookup_insert_eq.
  - apply generate_challenge_effect in Hg.
    destruct Hg as [(? & _ & ->) | (? & ? & _)]; [|discriminate].
    destruct app. reflexivity.
Qed.

(** X21: the two challenge routes compose.  In normal operation a
    challenge request is answered with a challenge, and a validation
    request that then sends the id of that answer with a well-formed
    payload is answered with a verdict carrying the type of that
    challenge; afterwards the id is no longer active and each of the two
    counters is one higher. *)
Theorem routes_issue_then_validate
    (response_data : string) (payload : pyval) (app : App.t) (w : World)
    (c v : Z) :
  normal_world w ->
  json_loads response_data = Returns payload ->
  App.demo_stats app !! "challenges" = Some c ->
  App.demo_stats app !! "validations" = Some v ->
  exists (ch : DBIChallenge.t) (app1 app2 : App.t) (w1 w2 : World)
         (valid : bool) (confidence : Q),
    App.generate_challenge exception_str app w
      = (Returns (Responds (challenge_body ch)), app1, w1) /\
    App.validate_response json_loads exception_str
      (DBIChallenge.challenge_id ch) response_data app1 w1
      = (Returns (Responds (PyBody
           (verdict valid confidence
              (ChallengeType_value (DBIChallenge.challenge_type ch))))),
         app2, w2) /\
    active_challenges (App.dbi_engine app2) !! DBIChallenge.challenge_id ch
      = None /\
    App.demo_stats app2 !! "challenges" = Some (c + 1)%Z /\
    App.demo_stats app2 !! "validations" = Some (v + 1)%Z.
Proof.
  intros Hn Hjson Hc Hv.
  destruct (generate_challenge_issues None (App.dbi_engine app) w Hn)
    as (ch & e1 & w1 & Hg & Hn1 & Hact & _).
  destruct (normal_world_rng w1 (rng_pos w1) Hn1) as (u1 & H1 & _).
  destruct (normal_world_rng w1 (S (rng_pos w1)) Hn1) as (u2 & H2 & _).
  eexists ch, _, _, w1, _, _, _. split.
  { unfold App.generate_challenge, try_except, bind, App.on_engine.
    rewrite Hg. unfold App.stats_incr, App.stats_get, bind, get, put, ret.
    simpl. rewrite Hc. reflexivity. }
  split.
  { unfold App.validate_response, try_except, bind, of_outcome, App.on_engine.
    rewrite Hjson. simpl.
    rewrite (validate_active _ _ _ _ _ u1 u2 Hact H1 H2).
    unfold App.stats_incr, App.stats_get, bind, get, put, ret. simpl.
    rewrite lookup_insert_ne by done. rewrite Hv. reflexivity. }
  simpl. split; [apply lookup_delete_eq|].
  split; [by rewrite lookup_insert_ne, lookup_insert_eq
         | by rewrite lookup_insert_eq].
Qed.

End RouteProperties.

(** * Properties of setup.py *)

Lemma isspace_newline : Setup.isspace Setup.newline = true.
Proof. reflexivity. Qed.

Lemma lstrip_head (s : string) :
  Setup.lstrip s = EmptyString \/
  exists c rest, Setup.lstrip s = String c rest /\ Setup.isspace c = false.
Proof.
  induction s as [|c s IH]; simpl; [by left|].
  destruct (Setup.isspace c) eqn:E; [done|]. right. eauto.
Qed.

Lemma rstrip_cons_nonspace (c : Ascii.ascii) (s : string) :
  Setup.isspace c = false ->
  Setup.rstrip (String c s) = String c (Setup.rstrip s).
Proof. intros E. simpl. rewrite E. by destruct (Setup.rstrip s). Qed.

Lemma rstrip_idemp (s : string) : Setup.rstrip (Setup.rstrip s) = Setup.rstrip s.
Proof.
  induction s as [|c s IH]; simpl; [done|].
  destruct (Setup.rstrip s) as [|d r] eqn:E.
  - destruct (Setup.isspace c) eqn:Ec; simpl; [done|]. by rewrite Ec.
  - change (Setup.rstrip (String c (String d r)))
      with (match Setup.rstrip (String d r) with
            | EmptyString =>
                if Setup.isspace c then EmptyString else String c EmptyString
            | rest' => String c rest'
            end).
    by rewrite IH.
Qed.

Lemma strip_idemp (s : string) : Setup.strip (Setup.strip s) = Setup.strip s.
Proof.
  unfold Setup.strip.
  destruct (lstrip_head s) as [-> | (c & rest & -> & Ec)]; [done|].
  rewrite (rstrip_cons_nonspace c rest Ec). simpl Setup.lstrip. rewrite Ec.
  rewrite (rstrip_cons_nonspace c _ Ec). by rewrite rstrip_idemp.
Qed.

Lemma nonempty_true (s : string) : Setup.nonempty s = true <-> s <> EmptyString.
Proof. destruct s; simpl; split; done. Qed.

Lemma read_requirements_elem (text r : string) :
  r ∈ Setup.read_requirements (Some text) <->
  exists line, line ∈ Setup.file_lines text /\
    r = Setup.strip line /\ r <> EmptyString /\
    Setup.startswith_hash line = false.
Proof.
  unfold Setup.read_requirements.
  rewrite list_elem_of_In, in_map_iff. split.
  - intros (line & <- & Hin). apply filter_In in Hin as [Hin Hkeep].
    apply andb_true_iff in Hkeep as [Hne Hhash].
    exists line. split; [by apply list_elem_of_In|]. split; [done|].
    split; [by apply nonempty_true | by apply negb_true_iff].
  - intros (line & Hin & -> & Hne & Hhash).
    exists line. split; [done|]. apply filter_In.
    split; [by apply list_elem_of_In|].
    apply andb_true_iff. split; [by apply nonempty_true|].
    by apply negb_true_iff.
Qed.

(** X22: [read_requirements] returns the lines of the file that are
    not blank and do not start with ['#'], each one stripped: an entry is
    returned exactly when it is the stripped form of such a line.  So
    every entry is non-empty and has no whitespace at either end, there
    are no more entries than lines, and without the file the list is
    empty. *)
Theorem read_requirements_entries (text : string) :
  (forall r,
     r ∈ Setup.read_requirements (Some text) <->
     exists line, line ∈ Setup.file_lines text /\
       r = Setup.strip line /\ r <> EmptyString /\
       Setup.startswith_hash line = false) /\
  (forall r, r ∈ Setup.read_requirements (Some text) ->
     r <> EmptyString /\ Setup.strip r = r) /\
  (length (Setup.read_requirements (Some text))
     <= length (Setup.file_lines text))%nat /\
  Setup.read_requirements None = [].
Proof.
  split; [apply read_requirements_elem|]. split; [|split; [|reflexivity]].
  - intros r Hr. apply read_requirements_elem in Hr as (line & _ & -> & Hne & _).
    split; [done | apply strip_idemp].
  - unfold Setup.read_requirements. rewrite length_map.
    apply List.filter_length_le.
Qed.

Lemma file_lines_line (r rest : string) :
  Setup.single_line r = true ->
  Setup.file_lines (r +:+ String Setup.newline rest)
    = (r +:+ String Setup.newline EmptyString) :: Setup.file_lines rest.
Proof.
  induction r as [|c r IH]; intros Hr; [reflexivity|].
  simpl in Hr. apply andb_true_iff in Hr as [Hc Hr].
  apply negb_true_iff in Hc.
  change (String c r +:+ String Setup.newline rest)
    with (String c (r +:+ String Setup.newline rest)).
  simpl Setup.file_lines. rewrite Hc, (IH Hr). reflexivity.
Qed.

Lemma lstrip_length (s : string) :
  (String.length (Setup.lstrip s) <= String.length s)%nat.
Proof.
  induction s as [|c s IH]; simpl; [lia|].
  destruct (Setup.isspace c); simpl; lia.
Qed.

Lemma rstrip_length (s : string) :
  (String.length (Setup.rstrip s) <= String.length s)%nat.
Proof.
  induction s as [|c s IH]; simpl; [lia|].
  destruct (Setup.rstrip s); [destruct (Setup.isspace c)|]; simpl in *; lia.
Qed.

(** A non-empty string that stripping leaves alone starts with a
    character that is not whitespace and has nothing to strip at its
    end. *)
Lemma stripped_shape (r : string) :
  r <> EmptyString -> Setup.strip r = r ->
  exists c r0, r = String c r0 /\ Setup.isspace c = false /\ Setup.rstrip r = r.
Proof.
  intros Hne Hs. destruct r as [|c r0]; [done|].
  exists c, r0. split; [done|].
  unfold Setup.strip in Hs. simpl Setup.lstrip in Hs.
  destruct (Setup.isspace c) eqn:Ec; [|done].
  exfalso.
  pose proof (rstrip_length (Setup.lstrip r0)) as H1.
  pose proof (lstrip_length r0) as H2.
  rewrite Hs in H1. simpl in H1. lia.
Qed.

Lemma rstrip_app_newline (s : string) :
  Setup.rstrip (s +:+ String Setup.newline EmptyString) = Setup.rstrip s.
Proof.
  induction s as [|c s IH]; [reflexivity|].
  change (String c s +:+ String Setup.newline EmptyString)
    with (String c (s +:+ String Setup.newline EmptyString)).
  simpl. by rewrite IH.
Qed.

Lemma strip_line_of_stripped (r : string) :
  r <> EmptyString -> Setup.strip r = r ->
  Setup.strip (r +:+ String Setup.newline EmptyString) = r.
Proof.
  intros Hne Hs.
  destruct (stripped_shape r Hne Hs) as (c & r0 & -> & Ec & Hr).
  unfold Setup.strip.
  change (String c r0 +:+ String Setup.newline EmptyString)
    with (String c (r0 +:+ String Setup.newline EmptyString)).
  simpl Setup.lstrip. rewrite Ec.
  change (String c (r0 +:+ String Setup.newline EmptyString))
    with (String c r0 +:+ String Setup.newline EmptyString).
  by rewrite rstrip_app_newline.
Qed.

Lemma open_read_plain (s : string) :
  Setup.no_carriage_return s = true -> Setup.open_read s = s.
Proof.
  induction s as [|c rest IH]; [done|]. simpl.
  destruct (Ascii.eqb c Setup.carriage_return); [discriminate|].
  simpl. intros H. by rewrite IH.
Qed.

Lemma no_carriage_return_app (s1 s2 : string) :
  Setup.no_carriage_return s1 = true -> Setup.no_carriage_return s2 = true ->
  Setup.no_carriage_return (s1 +:+ s2) = true.
Proof.
  intros H1 H2. induction s1 as [|c rest IH]; [done|]. simpl in *.
  destruct (Ascii.eqb c Setup.carriage_return); [discriminate|].
  simpl in *. auto.
Qed.

Lemma no_carriage_return_write_lines (requirements : list string) :
  Forall (fun r => Setup.no_carriage_return r = true) requirements ->
  Setup.no_carriage_return (Setup.write_lines requirements) = true.
Proof.
  induction 1 as [|r rs Hr _ IH]; [done|].
  simpl Setup.write_lines. apply no_carriage_return_app; [done|].
  simpl. exact IH.
Qed.

(** The lines written one per requirement are read as the requirements. *)
Lemma read_requirements_written (requirements : list string) :
  Forall (fun r => r <> EmptyString /\ Setup.strip r = r /\
                   Setup.single_line r = true /\
                   Setup.startswith_hash r = false) requirements ->
  Setup.read_requirements (Some (Setup.write_lines requirements))
    = requirements.
Proof.
  unfold Setup.read_requirements.
  induction 1 as [|r rs (Hne & Hs & Hl & Hh) _ IH]; [reflexivity|].
  simpl Setup.write_lines. rewrite (file_lines_line r _ Hl).
  simpl List.filter.
  rewrite (strip_line_of_stripped r Hne Hs).
  assert (Setup.startswith_hash (r +:+ String Setup.newline EmptyString)
          = false) as -> by (destruct r; [done | exact Hh]).
  assert (Setup.nonempty r = true) as -> by (by apply nonempty_true).
  simpl. rewrite (strip_line_of_stripped r Hne Hs). by rewrite IH.
Qed.

(** X23: writing requirements one per line, each followed by ['\n'],
    and reading the file back with [open(path, 'r')] gives the same
    list, provided each requirement is non-empty, has no whitespace at
    either end, holds no newline and no carriage return, and does not
    start with ['#'].  (A carriage return inside a requirement would be
    read as a line end.) *)
Theorem read_requirements_round_trip (requirements : list string) :
  Forall (fun r => r <> EmptyString /\ Setup.strip r = r /\
                   Setup.single_line r = true /\
                   Setup.no_carriage_return r = true /\
                   Setup.startswith_hash r = false) requirements ->
  Setup.read_requirements
    (Some (Setup.open_read (Setup.write_lines requirements)))
    = requirements.
Proof.
  intros H.
  rewrite open_read_plain.
  - apply read_requirements_written.
    eapply Forall_impl; [exact H|]. simpl. intros r (? & ? & ? & _ & ?). done.
  - apply no_carriage_return_write_lines.
    eapply Forall_impl; [exact H|]. simpl. intros r (_ & _ & _ & ? & _). done.
Qed.

(** X24: the comment test looks at the raw line, not at the stripped
    one.  A line that begins with whitespace and whose stripped form
    begins with ['#'] is not taken for a comment: its stripped form, hash
    sign included, is returned as a requirement. *)
Theorem indented_comment_is_returned
    (text : string) (c : Ascii.ascii) (rest : string) :
  String c rest ∈ Setup.file_lines text ->
  Setup.isspace c = true ->
  Setup.startswith_hash (Setup.strip (String c rest)) = true ->
  Setup.strip (String c rest) ∈ Setup.read_requirements (Some text).
Proof.
  intros Hin Hc Hhash. apply read_requirements_elem.
  exists (String c rest). split; [done|]. split; [done|]. split.
  - intros Heq. rewrite Heq in Hhash. discriminate.
  - simpl. destruct (Ascii.eqb c Setup.hash) eqn:E; [|done].
    apply Ascii.eqb_eq in E. subst c. discriminate.
Qed.

(** * Instances *)

(** The embedding runs: an issuance on the tape of [collision_world]. *)
Example generate_challenge_visual_audio :
  match fst (fst (generate_challenge None DBIEngine.init collision_world)) with
  | Returns ch =>
      DBIChallenge.challenge_id ch = "dbi_1700000000_5500" /\
      DBIChallenge.challenge_type ch = VISUAL_AUDIO /\
      DBIChallenge.instruction ch =
        "Say the numbers '34-12-87' while looking at the bottom-left corner"
  | Raises _ => False
  end.
Proof. vm_compute. auto. Qed.

(** [round(x, 1)] at a tie goes to the even tenth: 70.25 and 76.75 are
    ties, as floats too. *)
Example round1_ties :
  (round1 70.25 == 70.2)%Q /\ (round1 76.75 == 76.8)%Q /\
  (round1 76.56 == 76.6)%Q.
Proof. vm_compute. auto. Qed.

(** The level is read off the stored value, the returned score is the
    rounded one: a stored 84.96 is returned as 85.0 with level MEDIUM. *)
Example rounded_score_crosses_threshold :
  match fst (fst (calculate_trust_score PyNone (TrustCalculator.mk 84.96 [])
               (const_world 0.748 0))) with
  | Returns r =>
      (TrustScore.current_score r == 85)%Q /\
      TrustScore.trust_level r = "MEDIUM"
  | Raises _ => False
  end.
Proof. vm_compute. auto. Qed.

(** With a raise after the update, the fallback score is returned while
    the stored value has already moved. *)
Example fallback_keeps_updated_value :
  let '(o, st, _) :=
    calculate_trust_score PyNone TrustCalculator.init faulty_world in
  (exists r, o = Returns r /\ TrustScore.risk_factors r = ["System error"]) /\
  (current_score st == 76.5)%Q.
Proof. vm_compute. eauto. Qed.


Lemma example_world_normal : normal_world example_world.
Proof. apply const_world_normal; lra. Defined.

Lemma validate_consumes_challenge_witness :
  exists (r : pyval) (e1 : DBIEngine.t) (w1 : World),
    validate_challenge_response example_id (PyStr "spoken") example_engine
      example_world = (Returns r, e1, w1) /\
    is_verdict r = true /\
    r <> not_found /\
    active_challenges e1 = delete example_id (active_challenges example_engine) /\
    active_challenges e1 !! example_id = None /\
    forall later : list Call,
      Forall (fun entry => issues example_id entry = false)
        (fst (fst (run_calls later e1 w1))) ->
      Forall (rejected example_id) (fst (fst (run_calls later e1 w1))).
Proof.
  eapply (validate_consumes_challenge example_engine example_world example_id
            _ (PyStr "spoken") 0.5 0.5);
    vm_compute; reflexivity.
Defined.

(** The id of a consumed challenge is issued again within the same
    second; the validation that follows is answered with a verdict, not
    with the not-found dict. *)
Lemma reissued_id_validated_again :
  exists (ch : DBIChallenge.t) (e1 e2 : DBIEngine.t) (w1 w2 : World) (r : pyval),
    generate_challenge None DBIEngine.init collision_world
      = (Returns ch, e1, w1) /\
    DBIChallenge.challenge_id ch = example_id /\
    active_challenges e1 !! example_id = Some ch /\
    validate_challenge_response example_id PyNone e1 w1 = (Returns r, e2, w2) /\
    is_verdict r = true /\
    ~ Forall (rejected example_id)
        (fst (fst (run_calls [Generate None; Validate example_id PyNone] e2 w2))).
Proof.
  eexists _, _, _, _, _, _.
  split; [vm_compute; reflexivity|].
  split; [reflexivity|].
  split; [vm_compute; reflexivity|].
  split; [vm_compute; reflexivity|].
  split; [reflexivity|].
  intros H. vm_compute in H.
  inversion H as [|? ? _ H2]; subst.
  inversion H2 as [|? ? Hrej _]; subst.
  specialize (Hrej eq_refl). discriminate.
Qed.

Lemma validate_found_result_witness :
  exists (valid : bool) (confidence : Q),
    fst (fst (validate_challenge_response example_id (PyStr "spoken")
                example_engine example_world))
      = Returns (PyDict [
          ("valid", PyBool valid);
          ("confidence", PyFloat confidence);
          ("challenge_type", PyStr "emotional_response");
          ("biometric_signals",
             PyDict [("voice_detected", PyBool true);
                     ("face_movement", PyBool true);
                     ("timing_natural", PyBool true)]);
          ("anomalies",
             PyList (if valid then [] else [PyStr "Suspicious timing pattern"]))
        ]) /\
    (0.80 <= confidence)%Q /\ (confidence <= 0.95)%Q /\
    (valid = true <-> (0.1 < 0.5)%Q).
Proof.
  apply (validate_found_result example_engine example_world example_id
           (DBIChallenge.mk example_id EMOTIONAL_RESPONSE
              "Look naturally at the screen. A surprise image will appear briefly."
              (6.0 + (15.0 - 6.0) * 0.5) (PyDict [("generated", PyBool true)])
              1700000000)
           (PyStr "spoken") 0.5 0.5);
    [vm_compute; reflexivity | reflexivity | reflexivity | lra | lra].
Defined.

Lemma trust_score_update_convex_witness :
  let st := TrustCalculator.mk 40 [] in
  let p := current_score st in
  let s := (70 + (90 - 70) * 0.5)%Q in
  let v := current_score
             (snd (fst (calculate_trust_score PyNone st example_world))) in
  (70 <= s)%Q /\ (s <= 90)%Q /\
  (v == 0.7 * p + 0.3 * s)%Q /\
  (Qmin p 70 <= v)%Q /\ (v <= Qmax p 90)%Q.
Proof.
  apply (trust_score_update_convex (TrustCalculator.mk 40 []) example_world
           PyNone 0.5); [reflexivity | lra | lra].
Defined.

Lemma trust_level_thresholds_witness :
  (exists (r : TrustScore.t) (st' : TrustCalculator.t) (w' : World),
     calculate_trust_score PyNone (TrustCalculator.mk 95 []) example_world
       = (Returns r, st', w') /\
     (current_score st' == 90.5)%Q /\
     TrustScore.trust_level r = "HIGH" /\
     TrustScore.recommended_action r = "ALLOW_SEAMLESS") /\
  (exists (r : TrustScore.t) (st' : TrustCalculator.t) (w' : World),
     calculate_trust_score PyNone TrustCalculator.init example_world
       = (Returns r, st', w') /\
     (current_score st' == 76.5)%Q /\
     TrustScore.trust_level r = "MEDIUM" /\
     TrustScore.recommended_action r = "ALLOW_WITH_MONITORING") /\
  (exists (r : TrustScore.t) (st' : TrustCalculator.t) (w' : World),
     calculate_trust_score PyNone (TrustCalculator.mk 40 []) example_world
       = (Returns r, st', w') /\
     (current_score st' == 52)%Q /\
     TrustScore.trust_level r = "LOW" /\
     TrustScore.recommended_action r = "REQUIRE_ADDITIONAL_VERIFICATION").
Proof.
  split; [|split].
  - destruct (trust_level_thresholds (TrustCalculator.mk 95 []) example_world
                PyNone example_world_normal)
      as (r & st' & w' & u & Hu & _ & _ & Hc & Hv & Hhigh & _ & _).
    injection Hu as <-. simpl in Hv.
    exists r, st', w'. split; [exact Hc|]. split; [lra|]. apply Hhigh. lra.
  - destruct (trust_level_thresholds TrustCalculator.init example_world
                PyNone example_world_normal)
      as (r & st' & w' & u & Hu & _ & _ & Hc & Hv & _ & Hmedium & _).
    injection Hu as <-. simpl in Hv.
    exists r, st', w'. split; [exact Hc|]. split; [lra|]. apply Hmedium.
    split; lra.
  - destruct (trust_level_thresholds (TrustCalculator.mk 40 []) example_world
                PyNone example_world_normal)
      as (r & st' & w' & u & Hu & _ & _ & Hc & Hv & _ & _ & Hlow).
    injection Hu as <-. simpl in Hv.
    exists r, st', w'. split; [exact Hc|]. split; [lra|]. apply Hlow. lra.
Defined.

Lemma faulty_world_clock : forall k, exists t, clock faulty_world k = Returns t.
Proof. intros k. exists 1700000000%Q. destruct k; reflexivity. Defined.

Lemma risk_factors_never_empty_witness :
  (exists (r : TrustScore.t) (st' : TrustCalculator.t) (w' : World),
     calculate_trust_score PyNone TrustCalculator.init example_world
       = (Returns r, st', w') /\
     calculate_trust_score_body PyNone TrustCalculator.init example_world
       = (Returns r, st', w') /\
     (current_score st' == 76.5)%Q /\
     TrustScore.risk_factors r = ["Behavioral pattern variation detected"]) /\
  (exists (r : TrustScore.t) (st' : TrustCalculator.t) (w' : World),
     calculate_trust_score PyNone TrustCalculator.init faulty_world
       = (Returns r, st', w') /\
     TrustScore.risk_factors r = ["System error"]).
Proof.
  split.
  - destruct (risk_factors_never_empty TrustCalculator.init example_world PyNone
                (fun k => normal_world_clock example_world k example_world_normal))
      as (r & st' & w' & Hc & _ & Hnormal & _).
    destruct (Hnormal 0.5%Q 0.5%Q 0.5%Q eq_refl eq_refl eq_refl)
      as (Hb & Hv & _ & _ & _ & _ & Hcase & _).
    simpl in Hv.
    exists r, st', w'. split; [exact Hc|]. split; [exact Hb|].
    split; [lra|]. apply Hcase. split; lra.
  - destruct (risk_factors_never_empty TrustCalculator.init faulty_world PyNone
                faulty_world_clock)
      as (r & st' & w' & Hc & _ & _ & Hfallback).
    exists r, st', w'. split; [exact Hc|].
    apply (Hfallback (RuntimeError "entropy source failed")).
    right. left. reflexivity.
Defined.

Lemma fault_degrades_to_fallback_witness :
  calculate_trust_score PyNone TrustCalculator.init faulty_world
    = (Returns (TrustScore.mk 50.0 "MEDIUM" ["System error"] 0.0
                  "REQUIRE_MANUAL_REVIEW" 1700000000),
       TrustCalculator.mk (0.7 * 75.0 + 0.3 * (70 + (90 - 70) * 0.5)) [],
       advance_clock (advance_rng (advance_rng faulty_world))) /\
  ~ normal_world faulty_world.
Proof.
  assert (Hfault :
    calculate_trust_score_body PyNone TrustCalculator.init faulty_world
      = (Raises (RuntimeError "entropy source failed"),
         TrustCalculator.mk (0.7 * 75.0 + 0.3 * (70 + (90 - 70) * 0.5)) [],
         advance_rng (advance_rng faulty_world))) by reflexivity.
  destruct (fault_degrades_to_fallback TrustCalculator.init faulty_world PyNone
              _ _ _ Hfault) as (Hreturns & _ & Hnot & _).
  split; [apply Hreturns; reflexivity | exact Hnot].
Defined.

(** The clock fails while the [try] block reads it and fails again
    when the handler reads it for the fallback's timestamp: a fault has
    occurred during the computation, and the call raises. *)
Lemma fallback_handler_can_raise :
  exists (e e' : Exception) (st1 st2 : TrustCalculator.t) (w1 w2 : World),
    calculate_trust_score_body PyNone TrustCalculator.init broken_clock_world
      = (Raises e, st1, w1) /\
    calculate_trust_score PyNone TrustCalculator.init broken_clock_world
      = (Raises e', st2, w2).
Proof.
  eexists _, _, _, _, _, _. split; vm_compute; reflexivity.
Qed.

Lemma one_validation_wins_witness :
  let payloads := [PyStr "first"; PyStr "second"; PyStr "third"] in
  (exists l',
     loop_steps (concurrent_validations example_id payloads example_engine
                   example_world) l' /\
     Forall (fun c => is_finished c = true) (tasks l')) /\
  forall l',
    loop_steps (concurrent_validations example_id payloads example_engine
                  example_world) l' ->
    Forall (fun c => is_finished c = true) (tasks l') ->
    length (tasks l') = length payloads /\
    exists (winner : nat) (r : pyval),
      tasks l' !! winner = Some (Finished (Returns r)) /\
      is_verdict r = true /\ r <> not_found /\
      forall j, (j < length payloads)%nat -> j <> winner ->
        tasks l' !! j = Some (Finished (Returns not_found)).
Proof.
  eapply (one_validation_wins example_engine example_world example_id _
            [PyStr "first"; PyStr "second"; PyStr "third"]).
  - vm_compute. reflexivity.
  - exact example_world_normal.
  - discriminate.
Defined.

(** * Instances of the further properties *)

Lemma faulty_world_clock_sound : clock_sound_world faulty_world.
Proof.
  split.
  - intros k u. destruct k as [|[|k]]; simpl.
    + intros [= <-]. split; lra.
    + discriminate.
    + destruct k; intros [= <-]; split; lra.
  - intros k. exists 1700000000%Q. destruct k; reflexivity.
Defined.


Lemma generate_challenge_instruction_witness :
  exists (ch : DBIChallenge.t) (e' : DBIEngine.t) (w' : World),
    DBIEngine.generate_challenge None DBIEngine.init example_world
      = (Returns ch, e', w') /\
    instruction_template (DBIChallenge.challenge_type ch)
      (DBIChallenge.instruction ch).
Proof.
  destruct (generate_challenge_instruction None DBIEngine.init example_world
              example_world_normal) as (ch & e' & w' & Hg & Hins).
  exists ch, e', w'. split; [exact Hg|].
  unfold instruction_template.
  destruct (DBIChallenge.challenge_type ch); exact Hins.
Defined.

Lemma issue_then_validate_round_trip_witness :
  exists (ch : DBIChallenge.t) (e1 e2 : DBIEngine.t) (w1 w2 : World),
    DBIEngine.generate_challenge None DBIEngine.init example_world
      = (Returns ch, e1, w1) /\
    is_verdict
      (match fst (fst (DBIEngine.validate_challenge_response
                         (DBIChallenge.challenge_id ch) (PyStr "spoken") e1 w1))
       with Returns r => r | Raises _ => PyNone end) = true /\
    DBIEngine.active_challenges e2 = DBIEngine.active_challenges DBIEngine.init.
Proof.
  destruct (issue_then_validate_round_trip None (PyStr "spoken") DBIEngine.init
              example_world example_world_normal)
    as (ch & e1 & e2 & w1 & w2 & valid & conf & Hg & Hv & _ & Hfresh & _).
  exists ch, e1, e2, w1, w2. split; [exact Hg|]. split.
  - rewrite Hv. reflexivity.
  - apply Hfresh. apply lookup_empty.
Defined.

Lemma generate_challenge_raise_leaves_engine_witness :
  snd (fst (DBIEngine.generate_challenge None example_engine faulty_world))
    = example_engine.
Proof.
  apply (generate_challenge_raise_leaves_engine None example_engine _
           faulty_world
           (snd (DBIEngine.generate_challenge None example_engine faulty_world))
           (RuntimeError "entropy source failed")).
  vm_compute. reflexivity.
Defined.

Lemma validate_raise_keeps_challenge_witness :
  fst (fst (DBIEngine.validate_challenge_response example_id (PyStr "spoken")
              example_engine faulty_world))
    = Raises (RuntimeError "entropy source failed") /\
  snd (fst (DBIEngine.validate_challenge_response example_id (PyStr "spoken")
              example_engine faulty_world)) = example_engine.
Proof.
  destruct (validate_raise_keeps_challenge example_engine faulty_world
              example_id
              (DBIChallenge.mk example_id EMOTIONAL_RESPONSE
                 "Look naturally at the screen. A surprise image will appear briefly."
                 (6.0 + (15.0 - 6.0) * 0.5) (PyDict [("generated", PyBool true)])
                 1700000000)
              (PyStr "spoken") (RuntimeError "entropy source failed"))
    as (Hr & He & _).
  - vm_compute. reflexivity.
  - right. split; [exists 0.5%Q; reflexivity | reflexivity].
  - split; [exact Hr | exact He].
Defined.

Lemma colliding_issuance_replaces_witness :
  size (DBIEngine.active_challenges
          (snd (fst (DBIEngine.generate_challenge None example_engine
                       example_world))))
    = size (DBIEngine.active_challenges example_engine).
Proof.
  eapply (colliding_issuance_replaces None (PyStr "spoken") example_engine _
            example_world _ _ _ 0.5 0.5).
  - vm_compute. reflexivity.
  - vm_compute. reflexivity.
  - reflexivity.
  - reflexivity.
Defined.

Lemma process_frame_reading_or_fallback_witness :
  exists (r : BiometricResult.t) (w' : World),
    BiometricProcessor.process_frame "frame" (BiometricProcessor.init true)
      faulty_world = (Returns r, BiometricProcessor.init true, w') /\
    r = fallback_reading 1700000000.
Proof.
  destruct (process_frame_reading_or_fallback "frame"
              (BiometricProcessor.init true) faulty_world
              faulty_world_clock_sound)
    as (r & w' & t & Hp & Ht & _ & _ & Hfb & _).
  exists r, w'. split; [exact Hp|].
  injection Ht as <-. apply Hfb.
  exists 1%nat, (RuntimeError "entropy source failed").
  split; [lia | reflexivity].
Defined.

Lemma score_history_keeps_last_hundred_witness :
  exists scores : list TrustScore.t,
    fst (fst (run_scores [PyNone; PyNone; PyNone] TrustCalculator.init
                example_world)) = map Returns scores /\
    TrustCalculator.score_history
      (snd (fst (run_scores [PyNone; PyNone; PyNone] TrustCalculator.init
                   example_world))) = scores.
Proof.
  destruct (score_history_keeps_last_hundred [PyNone; PyNone; PyNone]
              example_world example_world_normal)
    as (scores & Hrs & Hlen & Hh & _).
  exists scores. split; [exact Hrs|].
  rewrite Hh, Hlen. reflexivity.
Defined.

Lemma trust_score_stays_in_band_witness :
  (70 <= TrustCalculator.current_score
           (snd (fst (run_scores [PyNone; PyNone; PyNone] TrustCalculator.init
                        example_world))))%Q /\
  (TrustCalculator.current_score
     (snd (fst (run_scores [PyNone; PyNone; PyNone] TrustCalculator.init
                  example_world))) < 90)%Q.
Proof.
  destruct (trust_score_stays_in_band [PyNone; PyNone; PyNone]
              TrustCalculator.init example_world example_world_normal)
    as (scores & _ & _ & Hlo & Hhi).
  - simpl. lra.
  - simpl. lra.
  - split; [exact Hlo | exact Hhi].
Defined.

Lemma trust_score_fields_consistent_witness :
  exists (r : TrustScore.t) (st' : TrustCalculator.t) (w' : World),
    TrustCalculator.calculate_trust_score PyNone TrustCalculator.init
      example_world = (Returns r, st', w') /\
    (0.80 <= TrustScore.confidence r)%Q /\
    (TrustScore.confidence r <= 0.95)%Q.
Proof.
  destruct (trust_score_fields_consistent TrustCalculator.init example_world
              PyNone example_world_normal)
    as (r & st' & w' & Hc & _ & Hlo & Hhi & _).
  exists r, st', w'. auto.
Defined.

Lemma fallback_score_not_recorded_witness :
  TrustCalculator.score_history
    (snd (fst (TrustCalculator.calculate_trust_score PyNone
                 TrustCalculator.init faulty_world))) = [].
Proof.
  destruct (fallback_score_not_recorded TrustCalculator.init
              (TrustCalculator.mk (0.7 * 75.0 + 0.3 * (70 + (90 - 70) * 0.5)) [])
              faulty_world (advance_rng (advance_rng faulty_world)) PyNone
              (RuntimeError "entropy source failed") eq_refl)
    as (Hh & Hst & _).
  rewrite Hst. exact Hh.
Defined.

Lemma malformed_payload_keeps_challenge_witness :
  App.validate_response example_json_loads example_exception_str example_id
    "{not json" example_app example_world
    = (Returns (HTTPException 500 "Expecting value"), example_app,
       example_world).
Proof.
  eapply (malformed_payload_keeps_challenge example_json_loads
            example_exception_str example_id "{not json" "{}" example_app
            example_world (RuntimeError "Expecting value") (PyDict []) _ 0
            0.5 0.5).
  - reflexivity.
  - reflexivity.
  - vm_compute. reflexivity.
  - vm_compute. reflexivity.
  - reflexivity.
  - reflexivity.
Defined.

Lemma validate_route_counts_rejections_witness :
  fst (fst (App.validate_response example_json_loads example_exception_str
              "dbi_0_0000" "{}" example_app example_world))
    = Returns (Responds (PyBody DBIEngine.not_found)).
Proof.
  rewrite (validate_route_counts_rejections example_json_loads
             example_exception_str "dbi_0_0000" "{}" example_app example_world
             (PyDict []) 0).
  - reflexivity.
  - reflexivity.
  - vm_compute. reflexivity.
  - vm_compute. reflexivity.
Defined.

Lemma route_fallbacks_unreachable_witness :
  exists (r : TrustScore.t) (c' : TrustCalculator.t) (w' : World),
    TrustCalculator.calculate_trust_score (PyDict [])
      (App.trust_calculator example_app) faulty_world = (Returns r, c', w') /\
    fst (fst (App.get_trust_score example_app faulty_world))
      = Returns (Responds (trust_score_body r)).
Proof.
  destruct (route_fallbacks_unreachable "frame" example_app faulty_world
              faulty_world_clock) as [(r & c' & w' & Hc & Hroute) _].
  exists r, c', w'. split; [exact Hc|]. rewrite Hroute. reflexivity.
Defined.

Lemma challenge_route_follows_engine_witness :
  match DBIEngine.generate_challenge None (App.dbi_engine example_app)
          example_world with
  | (Returns ch, e', w') =>
      App.generate_challenge example_exception_str example_app example_world
        = (Returns (Responds (challenge_body ch)),
           App.mk e' (App.biometric_processor example_app)
             (App.trust_calculator example_app)
             (<["challenges" := (1 + 1)%Z]> (App.demo_stats example_app)),
           w') /\
      DBIEngine.active_challenges e' !! DBIChallenge.challenge_id ch = Some ch
  | (Raises ex, e', w') =>
      App.generate_challenge example_exception_str example_app example_world
        = (Returns (HTTPException 500 (example_exception_str ex)),
           example_app, w')
  end.
Proof.
  apply (challenge_route_follows_engine example_exception_str example_app
           example_world 1).
  vm_compute. reflexivity.
Defined.

Lemma read_requirements_round_trip_witness :
  Setup.read_requirements
    (Some (Setup.open_read
             (Setup.write_lines ["fastapi==0.104.1"; "uvicorn[standard]"])))
    = ["fastapi==0.104.1"; "uvicorn[standard]"].
Proof.
  apply read_requirements_round_trip.
  repeat constructor; try discriminate; reflexivity.
Defined.

(** A carriage return inside a requirement is read as a line end: the
    file written from one requirement is read as two. *)
Example carriage_return_splits_requirement :
  let r := "a" +:+ String Setup.carriage_return "b" in
  Setup.read_requirements (Some (Setup.open_read (Setup.write_lines [r])))
    = ["a"; "b"].
Proof. vm_compute. reflexivity. Qed.

Lemma indented_comment_is_returned_witness :
  "# pinned for the demo"
    ∈ Setup.read_requirements
        (Some (Setup.write_lines ["numpy"; "  # pinned for the demo"])).
Proof.
  apply (indented_comment_is_returned
           (Setup.write_lines ["numpy"; "  # pinned for the demo"])
           (Ascii.ascii_of_N 32)
           (" # pinned for the demo" +:+ String Setup.newline EmptyString)).
  - vm_compute. apply list_elem_of_In. right. left. reflexivity.
  - reflexivity.
  - reflexivity.
Defined.

Lemma unvalidated_challenge_stays_active_witness :
  exists ch : DBIChallenge.t,
    DBIEngine.active_challenges
      (snd (fst (run_calls
                   [Generate None; Validate "dbi_1700000009_5500" PyNone;
                    Validate "dbi_0_0000" PyNone]
                   example_engine (const_world 0.5 1700000009))))
      !! example_id = Some ch.
Proof.
  eexists.
  apply (unvalidated_challenge_stays_active example_id _
           [Generate None; Validate "dbi_1700000009_5500" PyNone;
            Validate "dbi_0_0000" PyNone]
           example_engine (const_world 0.5 1700000009)).
  - vm_compute. reflexivity.
  - vm_compute. repeat constructor.
Defined.

Lemma routes_issue_then_validate_witness :
  exists (ch : DBIChallenge.t) (app1 : App.t) (w1 : World),
    App.generate_challenge example_exception_str example_app
      (const_world 0.5 1700000009)
      = (Returns (Responds (challenge_body ch)), app1, w1) /\
    exists body,
      fst (fst (App.validate_response example_json_loads example_exception_str
                  (DBIChallenge.challenge_id ch) "{}" app1 w1))
        = Returns (Responds (PyBody body)) /\
      is_verdict body = true.
Proof.
  destruct (routes_issue_then_validate example_json_loads example_exception_str
              "{}" (PyDict []) example_app (const_world 0.5 1700000009) 1 0)
    as (ch & app1 & app2 & w1 & w2 & valid & conf & Hg & Hv & _).
  - apply const_world_normal; lra.
  - reflexivity.
  - vm_compute. reflexivity.
  - vm_compute. reflexivity.
  - exists ch, app1, w1. split; [exact Hg|].
    eexists. rewrite Hv. split; reflexivity.
Defined.
